(** * The registry event listener of forta-core-go

    A shallow embedding of [registry/listener.go]: the range pager
    ([ProcessBlockRange], [ProcessLastBlocks]), the event router ([handleLog]
    and the per-contract handlers), the upgrade handling and the address
    filter ([setLogFilterAddrs], [NewListenerWithClients]).

    Go's big integers are [Z]; [int64] is [Z] with the wrap-around of the
    conversion written out; a Go [error] is the string of its message.  The
    collaborators of the listener (registry client, chain client, log feed,
    sink, decoders) are calls of a small free monad, answered by an
    environment when a program is run. *)

From Equations Require Import Equations.
From Stdlib Require Import ZArith List String Ascii Bool Lia.
From Stdlib Require Import DecimalString HexadecimalString.
From Stdlib.Strings Require Import Byte.
Import ListNotations.

Local Open Scope string_scope.
Local Open Scope list_scope.
Local Open Scope Z_scope.

Set Implicit Arguments.

(** ** Integers *)

Module Int.

Definition two63 : Z := 2 ^ 63.
Definition two64 : Z := 2 ^ 64.

Definition min_int64 : Z := - two63.
Definition max_int64 : Z := two63 - 1.

Definition fits64 (x : Z) : Prop := min_int64 <= x <= max_int64.

(** [Int64()] of a big integer and the conversion [int64(x)] of a
    [uint64]: the low 64 bits read as a two's complement number. *)
Definition Int64 (x : Z) : Z := (x + two63) mod two64 - two63.

(** [int64] subtraction. *)
Definition sub64 (x y : Z) : Z := Int64 (x - y).

(** go-ethereum's [math.BigMin]: [if x.Cmp(y) > 0 { return y }; return x]. *)
Definition BigMin (x y : Z) : Z := if x >? y then y else x.

End Int.

(** ** The range pager *)

Module Pager.
Import Int.

(** [type page struct { Start int64; End int64 }] *)
Record page : Type := mkPage { Start : Z; End : Z }.

(** [pageSize := big.NewInt(10000)] *)
Definition pageSize : Z := 10000.

(** The loop of the producer goroutine of [ProcessBlockRange], on the
    variables [start] and [end] it updates:
<<
    for end.Cmp(endBlock) <= 0 {
      pages <- page{Start: start.Int64(), End: end.Int64()}
      if end.Cmp(endBlock) == 0 { return nil }
      start = big.NewInt(0).Add(end, big.NewInt(1))
      end = math.BigMin(big.NewInt(0).Add(start, pageSize), endBlock)
    }
>>
    The result is the sequence of pages sent on the channel. *)
Equations? producer (endBlock start end_ : Z) : list page
  by wf (Z.to_nat (endBlock - end_)) lt :=
  producer endBlock start end_ with Z_le_gt_dec end_ endBlock => {
    | right _ := [];
    | left _ with Z.eq_dec end_ endBlock => {
        | left _ := [mkPage (Int64 start) (Int64 end_)];
        | right _ :=
            mkPage (Int64 start) (Int64 end_)
              :: producer endBlock (end_ + 1)
                   (BigMin ((end_ + 1) + pageSize) endBlock) } }.
Proof.
  unfold BigMin, pageSize. destruct (Z.gtb_spec (end_ + 1 + 10000) endBlock); lia.
Qed.

(** The pages of [ProcessBlockRange(startBlock, endBlock)] once [endBlock]
    is known: [end := math.BigMin(start + pageSize, endBlock)], then the
    producer loop. *)
Definition pages (startBlock endBlock : Z) : list page :=
  producer endBlock startBlock (BigMin (startBlock + pageSize) endBlock).

(** The number of blocks of the inclusive interval of a page. *)
Definition blocks (p : page) : Z := End p - Start p + 1.

(** [covers p b]: block [b] lies in page [p]. *)
Definition covers (p : page) (b : Z) : bool :=
  (Start p <=? b) && (b <=? End p).

Definition coverCount (ps : list page) (b : Z) : nat :=
  List.length (List.filter (fun p => covers p b) ps).

(** [chain s e ps]: the pages [ps] are non-empty intervals laid end to end
    from [s] to [e], each next page starting one block after the previous
    one ends. *)
Fixpoint chain (s e : Z) (ps : list page) : Prop :=
  match ps with
  | [] => False
  | [p] => Start p = s /\ End p = e /\ s <= e
  | p :: ps' => Start p = s /\ Start p <= End p /\ chain (End p + 1) e ps'
  end.

(** A page that is a non-empty interval of at most [pageSize + 1] blocks. *)
Definition narrow (p : page) : Prop := Start p <= End p <= Start p + pageSize.

End Pager.

(** A Go [error], by its message. *)
Definition error : Type := string.

(** ** go-ethereum's types *)

Module Eth.

(** [common.Address], 20 bytes, and [common.Hash], 32 bytes. *)
Definition Address : Type := list byte.
Definition Hash : Type := list byte.

Definition zeroAddress : Address := List.repeat x00 20.

Definition hi (b : byte) : N := (Byte.to_N b / 16)%N.
Definition lo (b : byte) : N := (Byte.to_N b mod 16)%N.

(** One hexadecimal digit; [upper] asks for the capital of a letter. *)
Definition hexDigit (upper : bool) (n : N) : ascii :=
  if (n <? 10)%N then ascii_of_N (48 + n)
  else if upper then ascii_of_N (55 + n) else ascii_of_N (87 + n).

(** The digits of the bytes [bs], the digit at position [i] in capitals
    where [up i] holds. *)
Fixpoint hexChars (up : nat -> bool) (i : nat) (bs : list byte) : string :=
  match bs with
  | [] => EmptyString
  | b :: bs' =>
      String (hexDigit (up i) (hi b))
        (String (hexDigit (up (S i)) (lo b)) (hexChars up (S (S i)) bs'))
  end.

(** [Address.Hex()]: the EIP-55 rendering, ["0x"] and 40 digits.  Which
    letters are capitals is decided by a hash of the address; [checksum a i]
    stands for that test on digit [i]. *)
Definition Hex (checksum : Address -> nat -> bool) (a : Address) : string :=
  String.append "0x" (hexChars (checksum a) 0 a).

(** [types.Log] *)
Module Log.
Record t : Type := mk {
  Address : Eth.Address;
  Topics : list Hash;
  Data : list byte;
  BlockNumber : Z;
  TxHash : Hash;
  TxIndex : Z;
  BlockHash : Hash;
  Index : Z;
  Removed : bool }.
End Log.

End Eth.

(** ** The domain types *)

(** [domain.Block]; of its fields the listener reads [Number]. *)
Module Block.
Record t : Type := mk {
  Hash : string;
  Number : string;
  ParentHash : string;
  Timestamp : string }.
End Block.

(** The records of the decoded events.  The generated contract bindings are
    not among the sources: each record has the fields the listener reads and
    the raw log every binding carries. *)
Module Events.
Import Eth.

(** An event of which the listener reads no field. *)
Module Decoded.
Record t : Type := mk { Fields : list Z; Raw : Log.t }.
End Decoded.

Module ScannerUpdated.
Record t : Type := mk { ScannerId : Z; ChainId : Z; Metadata : string; Raw : Log.t }.
End ScannerUpdated.

Module ScannerEnabled.
Record t : Type := mk { ScannerId : Z; Enabled : bool; Permission : Z; Value : bool; Raw : Log.t }.

(** The event with its flag set: [se.Enabled = enabled]. *)
Definition withEnabled (se : t) (enabled : bool) : t :=
  mk (ScannerId se) enabled (Permission se) (Value se) (Raw se).
End ScannerEnabled.

Module Transfer.
Record t : Type := mk { From : Address; To : Address; TokenId : Z; Raw : Log.t }.
End Transfer.

Module ScannerPoolRegistered.
Record t : Type := mk { ScannerPoolId : Z; ChainId : Z; Raw : Log.t }.
End ScannerPoolRegistered.

Module AgentUpdated.
Record t : Type := mk { AgentId : Z; By : Address; Metadata : string; ChainIds : list Z; Raw : Log.t }.
End AgentUpdated.

Module AgentEnabled.
Record t : Type := mk { AgentId : Z; Enabled : bool; Permission : Z; Value : bool; Raw : Log.t }.
End AgentEnabled.

Module StakeDeposited.
Record t : Type := mk { SubjectType : Z; Subject : Z; Account : Address; Amount : Z; Raw : Log.t }.
End StakeDeposited.

Module WithdrawalInitiated.
Record t : Type := mk { SubjectType : Z; Subject : Z; Account : Address; Deadline : Z; Raw : Log.t }.
End WithdrawalInitiated.

Module Slashed.
Record t : Type := mk { SubjectType : Z; Subject : Z; By : Address; Value : Z; Raw : Log.t }.
End Slashed.

Module TransferSingle.
Record t : Type := mk { Operator : Address; From : Address; To : Address; Id : Z; Value : Z; Raw : Log.t }.
End TransferSingle.

Module TransferBatch.
Record t : Type := mk { Operator : Address; From : Address; To : Address; Ids : list Z; Values : list Z; Raw : Log.t }.
End TransferBatch.

End Events.

(** [registry.Agent], the answer of [GetAgent]. *)
Module Agent.
Record t : Type := mk { AgentID : string; Enabled : bool; Manifest : string; Owner : string }.
End Agent.

(** The addresses of the registry contracts ([Contracts.Addresses]).  The
    listener compares [ScannerPoolRegistry] and [StakeAllocator] with [nil]
    before it reads them, so these two are pointers; the other five are read
    without such a test and are values. *)
Module RegistryContracts.
Import Eth.
Record t : Type := mk {
  AgentRegistry : Address;
  ScannerRegistry : Address;
  Dispatch : Address;
  FortaStaking : Address;
  ScannerNodeVersion : Address;
  ScannerPoolRegistry : option Address;
  StakeAllocator : option Address }.
End RegistryContracts.

(** [ContractFilter] *)
Module ContractFilter.
Record t : Type := mk {
  AgentRegistry : bool;
  ScannerRegistry : bool;
  ScannerPoolRegistry : bool;
  DispatchRegistry : bool;
  FortaStaking : bool;
  ScannerVersion : bool;
  StakeAllocator : bool }.
End ContractFilter.

(** [ListenerConfig]; [ContractFilter] is a pointer, [None] when nil.  The
    handlers and the proxy of the configuration are the sink of the
    listener, see [Publish] and [Handle] below. *)
Module ListenerConfig.
Record t : Type := mk {
  Name : string;
  JsonRpcURL : string;
  ENSAddress : string;
  StartBlock : option Z;
  EndBlock : option Z;
  BlockOffset : Z;
  ContractFilter : option ContractFilter.t;
  Topics : list string;
  NoRefresh : bool }.
End ListenerConfig.

(** [feeds.LogFeedConfig], as [NewListenerWithClients] fills it. *)
Module LogFeedConfig.
Record t : Type := mk {
  Topics : list (list string);
  StartBlock : option Z;
  EndBlock : option Z;
  Offset : Z }.
End LogFeedConfig.

(** ** Messages

    The message constructors of [domain/registry] are not among the sources:
    a message is the constructor the listener calls, applied to the
    arguments it is given. *)
Module Message.
Import Eth Events.

(** A share transfer, as [TransferSharesMessageFromSingle] and
    [TransferSharesMessagesFromBatch] make them. *)
Module Shares.
Record t : Type := mk {
  Source : Log.t; Blk : Block.t;
  From : Address; To : Address; Id : Z; Amount : Z }.
End Shares.

Inductive t : Type :=
| NewScannerSaveMessage (su : ScannerUpdated.t) (enabled : bool) (blk : Block.t)
| NewScannerMessage (se : ScannerEnabled.t) (blk : Block.t)
| NewScannerStakeThresholdMessage (evt : Decoded.t) (le : Log.t) (blk : Block.t)
| NewScannerSaveMessageFromPool (su : ScannerUpdated.t) (enabled : bool) (blk : Block.t)
| NewScannerManagedStakeThresholdMessage (evt : Decoded.t) (le : Log.t) (blk : Block.t)
| NewScannerPoolMessageFromTransfer (evt : Transfer.t) (blk : Block.t)
| NewScannerPoolMessageFromRegistration (evt : ScannerPoolRegistered.t) (owner : string) (blk : Block.t)
| NewScannerPoolMessageFromEnablement (evt : Decoded.t) (blk : Block.t)
| NewScannerNodeVersionUpdated (su : Decoded.t) (blk : Block.t)
| NewAgentSaveMessage (au : AgentUpdated.t) (enabled : bool) (blk : Block.t)
| NewAgentMessage (ae : AgentEnabled.t) (blk : Block.t)
| NewAgentStakeThresholdMessage (stc : Decoded.t) (le : Log.t) (blk : Block.t)
| NewScannerStakeMessage (le : Log.t) (changeType : string) (acct : Address)
    (scannerID : string) (value : option Z) (blk : Block.t)
| NewAgentStakeMessage (le : Log.t) (changeType : string) (acct : Address)
    (agentID : string) (value : option Z) (blk : Block.t)
| NewScannerPoolStakeMessage (le : Log.t) (changeType : string) (acct : Address)
    (poolID : string) (value : option Z) (blk : Block.t)
| NewScannerPoolAllocationMessage (le : Log.t) (blk : Block.t) (evt : Decoded.t)
| NewDispatchMessage (link : Decoded.t) (blk : Block.t)
| NewAlreadyLinkedDispatchMessage (link : Decoded.t) (blk : Block.t)
| NewUpgradeMessage (upgraded : Decoded.t) (le : Log.t) (blk : Block.t)
| TransferSharesMessage (m : Shares.t).

End Message.

(** ** The collaborators of the listener *)

(** The filterers of a [Contracts] value and the decoding methods the
    listener calls on them. *)
Inductive Filterer : Type :=
| ScannerRegFil | ScannerPoolRegFil | ScannerVersionFil | AgentRegFil
| FortaStakingFil | StakeAllocatorFil | DispatchFil.

Inductive Method : Type :=
| ParseScannerUpdated | ParseScannerEnabled | ParseStakeThresholdChanged
| ParseManagedStakeThresholdChanged | ParseTransfer | ParseScannerPoolRegistered
| ParseEnabledScannersChanged | ParseScannerNodeVersionUpdated
| ParseAgentUpdated | ParseAgentEnabled
| ParseStakeDeposited | ParseWithdrawalInitiated | ParseSlashed
| ParseTransferSingle | ParseTransferBatch
| ParseAllocatedStake | ParseLink | ParseAlreadyLinked | ParseUpgraded.

Definition EventOf (m : Method) : Type :=
  match m with
  | ParseScannerUpdated => Events.ScannerUpdated.t
  | ParseScannerEnabled => Events.ScannerEnabled.t
  | ParseTransfer => Events.Transfer.t
  | ParseScannerPoolRegistered => Events.ScannerPoolRegistered.t
  | ParseAgentUpdated => Events.AgentUpdated.t
  | ParseAgentEnabled => Events.AgentEnabled.t
  | ParseStakeDeposited => Events.StakeDeposited.t
  | ParseWithdrawalInitiated => Events.WithdrawalInitiated.t
  | ParseSlashed => Events.Slashed.t
  | ParseTransferSingle => Events.TransferSingle.t
  | ParseTransferBatch => Events.TransferBatch.t
  | _ => Events.Decoded.t
  end.

(** The pointer [l.client.Contracts()] returns.  What it points to belongs
    to the registry client, which may change it when it refreshes. *)
Definition ContractsRef : Type := nat.

(** The calls the listener makes outside its own code. *)
Inductive Op : Type :=
| CtxErr                                   (* l.ctx.Err() *)
| GroupCtxErr                              (* ctx.Err() of the errgroup *)
| ClientContracts                          (* l.client.Contracts() *)
| ReadAddresses (c : ContractsRef)         (* c.Addresses, read through the pointer *)
| ClientRefreshContracts                   (* l.client.RefreshContracts() *)
| ClientIsEnabledScanner (scannerID : string)
| ClientGetScannerPoolOwner (poolID : Z)
| ClientGetAgent (agentID : string)
| Parse (c : ContractsRef) (f : Filterer) (m : Method) (le : Eth.Log.t)
| Publish (m : Message.t)                  (* l.proxy.Publish *)
| Handle (m : Message.t)                   (* l.handlerReg.Handle *)
| AddAddress (addr : string)               (* l.logs.AddAddress *)
| LoggerDebug (msg : string)
| LoggerWarn (subjectID : Z) (msg : string)
| EthBlockNumber                           (* l.eth.BlockNumber *)
| EthBlockByNumber (n : Z)                 (* l.eth.BlockByNumber *)
| GetLogsForRange (startBlock endBlock : Z) (* l.logs.GetLogsForRange *)
| NewLogFeed (cfg : LogFeedConfig.t).      (* feeds.NewLogFeed *)

(** What each call answers; [None] is a nil error. *)
Definition Resp (op : Op) : Type :=
  match op with
  | CtxErr | GroupCtxErr | ClientRefreshContracts => option error
  | ClientContracts => ContractsRef
  | ReadAddresses _ => RegistryContracts.t
  | ClientIsEnabledScanner _ => (error + bool)%type
  | ClientGetScannerPoolOwner _ => (error + string)%type
  | ClientGetAgent _ => (error + Agent.t)%type
  | Parse _ _ m _ => (error + EventOf m)%type
  | Publish _ | Handle _ => option error
  | AddAddress _ | LoggerDebug _ | LoggerWarn _ _ => unit
  | EthBlockNumber => (error + Z)%type
  | EthBlockByNumber _ => (error + Block.t)%type
  | GetLogsForRange _ _ => (error + list Eth.Log.t)%type
  | NewLogFeed _ => option error
  end.

(** ** Programs *)

(** How a Go function ends: it returns, returns a non-nil error, or panics. *)
Inductive Outcome (A : Type) : Type :=
| Ok (a : A)
| Err (e : error)
| Panicked (msg : string).
Arguments Err {A} e.
Arguments Panicked {A} msg.

Inductive Prog (A : Type) : Type :=
| Return (a : A)
| Fail (e : error)
| Panic (msg : string)
| Call (op : Op) (k : Resp op -> Prog A).
Arguments Fail {A} e.
Arguments Panic {A} msg.

Fixpoint bind {A B : Type} (p : Prog A) (f : A -> Prog B) : Prog B :=
  match p with
  | Return a => f a
  | Fail e => Fail e
  | Panic m => Panic m
  | Call op k => Call op (fun r => bind (k r) f)
  end.

Declare Scope prog_scope.
Delimit Scope prog_scope with prog.
Bind Scope prog_scope with Prog.
Notation "x <- p ;; q" := (bind p (fun x => q))
  (at level 61, p at next level, right associativity) : prog_scope.
Notation "p ;; q" := (bind p (fun _ => q))
  (at level 61, right associativity) : prog_scope.
Local Open Scope prog_scope.

(** A call that answers [(value, error)]: [v, err := f(); if err != nil { return err }]. *)
Definition orFail {A : Type} (r : error + A) : Prog A :=
  match r with inl e => Fail e | inr v => Return v end.

(** A call that answers an [error]: [if err := f(); err != nil { return err }]. *)
Definition nilOrFail (r : option error) : Prog unit :=
  match r with Some e => Fail e | None => Return tt end.

(** One call made, with its answer. *)
Inductive Event : Type := Ev (op : Op) (r : Resp op).

(** The collaborators: a state and, for each call, the answer and the next
    state. *)
Record Env : Type := mkEnv {
  State : Type;
  respond : forall op : Op, State -> Resp op * State }.

(** Running a program against the collaborators: how it ends, the state
    they are left in, and the calls made, in order. *)
Fixpoint run {A : Type} (E : Env) (p : Prog A) (s : State E)
  : Outcome A * State E * list Event :=
  match p with
  | Return a => (Ok a, s, [])
  | Fail e => (Err e, s, [])
  | Panic m => (Panicked m, s, [])
  | Call op k =>
      let (r, s1) := respond E op s in
      let '(o, s2, t) := run E (k r) s1 in
      (o, s2, Ev op r :: t)
  end.

Definition outcome {A S : Type} (x : Outcome A * S * list Event) : Outcome A := fst (fst x).
Definition final {A S : Type} (x : Outcome A * S * list Event) : S := snd (fst x).
Definition trace {A S : Type} (x : Outcome A * S * list Event) : list Event := snd x.

(** ** What the listener uses of its repository and is not among the sources

    The helpers of package [registry] and of [utils], the topic constants of
    the generated contract packages and the subject types are taken as they
    come: the listener is modelled over any choice of them. *)
Class Helpers : Type := {
  (** the capital-letter test of [Address.Hex()] *)
  checksum : Eth.Address -> nat -> bool;
  (** helpers of package [registry] *)
  getTopic : Eth.Log.t -> string;
  equalsAddress : Eth.Address -> string -> bool;
  getAllContractAddrs : RegistryContracts.t -> list string;
  (** [utils] *)
  ScannerIDBigIntToHex : Z -> string;
  AgentBigIntToHex : Z -> string;
  BigIntToHex : Z -> string;
  (** [domain/registry] *)
  TransferSharesMessageFromSingle :
    Eth.Log.t -> Events.TransferSingle.t -> Block.t -> error + Message.t;
  TransferSharesMessagesFromBatch :
    Eth.Log.t -> Events.TransferBatch.t -> Block.t -> error + list Message.t;
  ChangeTypeDeposit : string;
  ChangeTypeWithdrawal : string;
  ChangeTypeSlash : string;
  (** the subject types, [uint8] *)
  SubjectTypeScanner : Z;
  SubjectTypeAgent : Z;
  SubjectTypeScannerPool : Z;
  (** the topics, by contract package *)
  scanner_registry_ScannerUpdatedTopic : string;
  scanner_registry_ScannerEnabledTopic : string;
  scanner_registry_StakeThresholdChangedTopic : string;
  scanner_pool_registry_ScannerUpdatedTopic : string;
  scanner_pool_registry_ManagedStakeThresholdChangedTopic : string;
  scanner_pool_registry_TransferTopic : string;
  scanner_pool_registry_ScannerPoolRegisteredTopic : string;
  scanner_pool_registry_EnabledScannersChangedTopic : string;
  scanner_node_version_ScannerNodeVersionUpdatedTopic : string;
  agent_registry_AgentUpdatedTopic : string;
  agent_registry_AgentEnabledTopic : string;
  agent_registry_StakeThresholdChangedTopic : string;
  forta_staking_StakeDepositedTopic : string;
  forta_staking_WithdrawalInitiatedTopic : string;
  forta_staking_SlashedTopic : string;
  forta_staking_TransferSingleTopic : string;
  forta_staking_TransferBatchTopic : string;
  stake_allocator_AllocatedStakeTopic : string;
  dispatch_LinkTopic : string;
  dispatch_AlreadyLinkedTopic : string }.

(** [UpgradedTopic]: every contract package has the same constant, here the
    one of [contract_stake_subject_gateway/topics.go]. *)
Definition UpgradedTopic : string :=
  "0xbc7cd75a20ee27fd9adebab32041f755214dbc6bffa90cc0225b39da2e5c2d3b".

(** Modelled from the spec: [utils.ZeroAddress], which is not among the
    sources, is the zero address in hexadecimal. *)
Definition ZeroAddress : string :=
  "0x0000000000000000000000000000000000000000".

(** [String()] of a big integer is not Go of this repository: the decimal digits,
    with a minus sign for a negative number. *)
Definition BigString (x : Z) : string :=
  DecimalString.NilZero.string_of_int (Z.to_int x).

(** The listener: its configuration and whether a proxy was given
    ([proxy != nil]).  The clients, the feed and the handlers it holds are
    behind the calls of [Op]. *)
Module Listener.
Record t : Type := mk {
  cfg : ListenerConfig.t;
  hasProxy : bool }.
End Listener.

(** ** The listener *)

Section ListenerCode.
Import Eth Events Message.
Context `{Helpers}.

Implicit Types (l : Listener.t) (contracts : ContractsRef) (le : Log.t) (blk : Block.t).

Definition hex (a : Address) : string := Hex checksum a.

(** [l.handler(logger, msg)]: [l.proxy.Publish] when there is a proxy,
    [l.handlerReg.Handle] otherwise. *)
Definition handler l (m : Message.t) : Prog unit :=
  if Listener.hasProxy l then Call (Publish m) nilOrFail
  else Call (Handle m) nilOrFail.

Definition parse contracts (f : Filterer) (m : Method) le : Prog (EventOf m) :=
  Call (Parse contracts f m le) orFail.

Definition IsEnabledScanner (scannerID : string) : Prog bool :=
  Call (ClientIsEnabledScanner scannerID) orFail.

Definition GetAgent (agentID : string) : Prog Agent.t :=
  Call (ClientGetAgent agentID) orFail.

Definition handleScannerRegistryEvent l contracts le blk : Prog unit :=
  let topic := getTopic le in
  if String.eqb topic scanner_registry_ScannerUpdatedTopic then
    su <- parse contracts ScannerRegFil ParseScannerUpdated le ;;
    let scannerID := ScannerIDBigIntToHex (ScannerUpdated.ScannerId su) in
    enabled <- IsEnabledScanner scannerID ;;
    handler l (NewScannerSaveMessage su enabled blk)
  else if String.eqb topic scanner_registry_ScannerEnabledTopic then
    se <- parse contracts ScannerRegFil ParseScannerEnabled le ;;
    (* enforce latest state to take sunsetting into account *)
    enabled <- IsEnabledScanner (ScannerIDBigIntToHex (ScannerEnabled.ScannerId se)) ;;
    let se := ScannerEnabled.withEnabled se (enabled && ScannerEnabled.Enabled se) in
    handler l (NewScannerMessage se blk)
  else if String.eqb topic scanner_registry_StakeThresholdChangedTopic then
    evt <- parse contracts ScannerRegFil ParseStakeThresholdChanged le ;;
    handler l (NewScannerStakeThresholdMessage evt le blk)
  else Return tt.

Definition handleScannerPoolRegistryEvent l contracts le blk : Prog unit :=
  let topic := getTopic le in
  if String.eqb topic scanner_pool_registry_ScannerUpdatedTopic then
    su <- parse contracts ScannerPoolRegFil ParseScannerUpdated le ;;
    let scannerID := ScannerIDBigIntToHex (ScannerUpdated.ScannerId su) in
    enabled <- IsEnabledScanner scannerID ;;
    handler l (NewScannerSaveMessageFromPool su enabled blk)
  else if String.eqb topic scanner_pool_registry_ManagedStakeThresholdChangedTopic then
    evt <- parse contracts ScannerPoolRegFil ParseManagedStakeThresholdChanged le ;;
    handler l (NewScannerManagedStakeThresholdMessage evt le blk)
  else if String.eqb topic scanner_pool_registry_TransferTopic then
    evt <- parse contracts ScannerPoolRegFil ParseTransfer le ;;
    (* detect the new owner only if not minted *)
    if String.eqb (hex (Transfer.From evt)) ZeroAddress then Return tt
    else handler l (NewScannerPoolMessageFromTransfer evt blk)
  else if String.eqb topic scanner_pool_registry_ScannerPoolRegisteredTopic then
    evt <- parse contracts ScannerPoolRegFil ParseScannerPoolRegistered le ;;
    Call (ClientGetScannerPoolOwner (ScannerPoolRegistered.ScannerPoolId evt))
      (fun r =>
         match r with
         | inl err => Fail (String.append "failed to get scanner pool owner: " err)
         | inr owner => handler l (NewScannerPoolMessageFromRegistration evt owner blk)
         end)
  else if String.eqb topic scanner_pool_registry_EnabledScannersChangedTopic then
    evt <- parse contracts ScannerPoolRegFil ParseEnabledScannersChanged le ;;
    handler l (NewScannerPoolMessageFromEnablement evt blk)
  else Return tt.

Definition handleScannerVersionEvent l contracts le blk : Prog unit :=
  if String.eqb (getTopic le) scanner_node_version_ScannerNodeVersionUpdatedTopic then
    su <- parse contracts ScannerVersionFil ParseScannerNodeVersionUpdated le ;;
    handler l (NewScannerNodeVersionUpdated su blk)
  else Return tt.

Definition handleAgentRegistryEvent l contracts le blk : Prog unit :=
  let topic := getTopic le in
  if String.eqb topic agent_registry_AgentUpdatedTopic then
    au <- parse contracts AgentRegFil ParseAgentUpdated le ;;
    agt <- GetAgent (AgentBigIntToHex (AgentUpdated.AgentId au)) ;;
    handler l (NewAgentSaveMessage au (Agent.Enabled agt) blk)
  else if String.eqb topic agent_registry_AgentEnabledTopic then
    ae <- parse contracts AgentRegFil ParseAgentEnabled le ;;
    handler l (NewAgentMessage ae blk)
  else if String.eqb topic agent_registry_StakeThresholdChangedTopic then
    stc <- parse contracts AgentRegFil ParseStakeThresholdChanged le ;;
    handler l (NewAgentStakeThresholdMessage stc le blk)
  else Return tt.

(** [for _, m := range ms { if err := l.handler(logger, m); err != nil { return err } }] *)
Fixpoint handleEach l (ms : list Message.t) : Prog unit :=
  match ms with
  | [] => Return tt
  | m :: ms' => handler l m ;; handleEach l ms'
  end.

(** The second switch of [handleFortaStakingEvent], on the subject type,
    reached from the cases of the first that do not return.  [value] is a
    pointer, nil ([None]) where the event has no amount. *)
Definition stakeBySubject l le blk (subjectType subjectID : Z)
    (changeType : string) (value : option Z) (acct : Address) : Prog unit :=
  if subjectType =? SubjectTypeScanner then
    let scannerID := ScannerIDBigIntToHex subjectID in
    handler l (NewScannerStakeMessage le changeType acct scannerID value blk)
  else if subjectType =? SubjectTypeAgent then
    let agentID := AgentBigIntToHex subjectID in
    handler l (NewAgentStakeMessage le changeType acct agentID value blk)
  else if subjectType =? SubjectTypeScannerPool then
    let poolID := BigString subjectID in
    handler l (NewScannerPoolStakeMessage le changeType acct poolID value blk)
  else
    Call (LoggerWarn subjectType "unhandled subject ID, ignoring") (fun _ => Return tt).

(** [var acct common.Address] *)
Definition noAccount : Address := zeroAddress.

Definition handleFortaStakingEvent l contracts le blk : Prog unit :=
  let topic := getTopic le in
  if String.eqb topic forta_staking_StakeDepositedTopic then
    evt <- parse contracts FortaStakingFil ParseStakeDeposited le ;;
    stakeBySubject l le blk (StakeDeposited.SubjectType evt) (StakeDeposited.Subject evt)
      ChangeTypeDeposit (Some (StakeDeposited.Amount evt)) (StakeDeposited.Account evt)
  else if String.eqb topic forta_staking_WithdrawalInitiatedTopic then
    evt <- parse contracts FortaStakingFil ParseWithdrawalInitiated le ;;
    stakeBySubject l le blk (WithdrawalInitiated.SubjectType evt)
      (WithdrawalInitiated.Subject evt) ChangeTypeWithdrawal None noAccount
  else if String.eqb topic forta_staking_SlashedTopic then
    evt <- parse contracts FortaStakingFil ParseSlashed le ;;
    stakeBySubject l le blk (Slashed.SubjectType evt) (Slashed.Subject evt)
      ChangeTypeSlash (Some (Slashed.Value evt)) noAccount
  else if String.eqb topic forta_staking_TransferSingleTopic then
    evt <- parse contracts FortaStakingFil ParseTransferSingle le ;;
    m <- orFail (TransferSharesMessageFromSingle le evt blk) ;;
    handler l m
  else if String.eqb topic forta_staking_TransferBatchTopic then
    evt <- parse contracts FortaStakingFil ParseTransferBatch le ;;
    ms <- orFail (TransferSharesMessagesFromBatch le evt blk) ;;
    handleEach l ms
  else
    Call (LoggerDebug "unhandled topic, ignoring") (fun _ => Return tt).

Definition handleStakeAllocatorEvent l contracts le blk : Prog unit :=
  if String.eqb (getTopic le) stake_allocator_AllocatedStakeTopic then
    evt <- parse contracts StakeAllocatorFil ParseAllocatedStake le ;;
    handler l (NewScannerPoolAllocationMessage le blk evt)
  else Return tt.

Definition handleDispatchEvent l contracts le blk : Prog unit :=
  let topic := getTopic le in
  if String.eqb topic dispatch_LinkTopic then
    link <- parse contracts DispatchFil ParseLink le ;;
    handler l (NewDispatchMessage link blk)
  else if String.eqb topic dispatch_AlreadyLinkedTopic then
    link <- parse contracts DispatchFil ParseAlreadyLinked le ;;
    handler l (NewAlreadyLinkedDispatchMessage link blk)
  else Return tt.

(** The addresses [setLogFilterAddrs] collects, from the filter of the
    configuration and the addresses of the registry:
    [addrs = append(addrs, ...)] under each flag, or every contract when
    there is no filter. *)
Definition filterAddrs (filter : option ContractFilter.t)
    (regContracts : RegistryContracts.t) : list string :=
  match filter with
  | Some filter =>
      let addrs := [] in
      let addrs := if ContractFilter.AgentRegistry filter
                   then addrs ++ [hex (RegistryContracts.AgentRegistry regContracts)]
                   else addrs in
      let addrs := if ContractFilter.ScannerRegistry filter
                   then addrs ++ [hex (RegistryContracts.ScannerRegistry regContracts)]
                   else addrs in
      let addrs := if ContractFilter.FortaStaking filter
                   then addrs ++ [hex (RegistryContracts.FortaStaking regContracts)]
                   else addrs in
      let addrs := if ContractFilter.DispatchRegistry filter
                   then addrs ++ [hex (RegistryContracts.Dispatch regContracts)]
                   else addrs in
      let addrs := if ContractFilter.ScannerVersion filter
                   then addrs ++ [hex (RegistryContracts.ScannerNodeVersion regContracts)]
                   else addrs in
      let addrs :=
        match ContractFilter.ScannerPoolRegistry filter,
              RegistryContracts.ScannerPoolRegistry regContracts with
        | true, Some a => addrs ++ [hex a]
        | _, _ => addrs
        end in
      let addrs :=
        match ContractFilter.StakeAllocator filter,
              RegistryContracts.StakeAllocator regContracts with
        | true, Some a => addrs ++ [hex a]
        | _, _ => addrs
        end in
      addrs
  | None =>
      (* include all contracts *)
      getAllContractAddrs regContracts
  end.

(** [for _, addr := range addrs { l.logs.AddAddress(addr) }] *)
Fixpoint addEach (addrs : list string) : Prog unit :=
  match addrs with
  | [] => Return tt
  | addr :: rest => Call (AddAddress addr) (fun _ => addEach rest)
  end.

Definition setLogFilterAddrs l : Prog unit :=
  c <- Call ClientContracts (@Return _) ;;
  regContracts <- Call (ReadAddresses c) (@Return _) ;;
  let addrs := filterAddrs (ListenerConfig.ContractFilter (Listener.cfg l)) regContracts in
  if (List.length addrs =? 0)%nat then Panic "empty filter"
  else addEach addrs.

Definition handleUpgradeEvent l contracts le blk : Prog unit :=
  (* use any contract's upgraded topic to check - they are all the same *)
  if negb (String.eqb (getTopic le) UpgradedTopic) then Return tt
  else
    (* refresh contracts and log filter addresses *)
    Call ClientRefreshContracts nilOrFail ;;
    setLogFilterAddrs l ;;
    (* use any contract's filterer to unpack the event - pick dispatch *)
    upgraded <- parse contracts DispatchFil ParseUpgraded le ;;
    handler l (NewUpgradeMessage upgraded le blk).

(** [p.Hex()] on a pointer: a nil pointer cannot be read. *)
Definition ptrHex (p : option Address) : Prog string :=
  match p with
  | Some a => Return (hex a)
  | None => Panic "invalid memory address or nil pointer dereference"
  end.

Definition notNil (p : option Address) : bool :=
  match p with Some _ => true | None => false end.

(** [a && b], where [b] is computed only when [a] holds. *)
Definition andAlso (a : bool) (b : Prog bool) : Prog bool :=
  if a then b else Return false.

(** The address tests of [handleLog], from the addresses [addrs] read
    through [contracts]. *)
Definition routeByAddress l contracts (addrs : RegistryContracts.t) le blk : Prog unit :=
  let addr := Log.Address le in
  if equalsAddress addr (hex (RegistryContracts.ScannerRegistry addrs)) then
    handleScannerRegistryEvent l contracts le blk
  else if equalsAddress addr (hex (RegistryContracts.ScannerNodeVersion addrs)) then
    handleScannerVersionEvent l contracts le blk
  else if equalsAddress addr (hex (RegistryContracts.AgentRegistry addrs)) then
    handleAgentRegistryEvent l contracts le blk
  else if equalsAddress addr (hex (RegistryContracts.Dispatch addrs)) then
    handleDispatchEvent l contracts le blk
  else if equalsAddress addr (hex (RegistryContracts.FortaStaking addrs)) then
    handleFortaStakingEvent l contracts le blk
  else
    isPool <- andAlso (notNil (RegistryContracts.ScannerPoolRegistry addrs))
                (h <- ptrHex (RegistryContracts.ScannerPoolRegistry addrs) ;;
                 Return (equalsAddress addr h)) ;;
    if isPool : bool then handleScannerPoolRegistryEvent l contracts le blk
    else
      isAllocator <- andAlso (notNil (RegistryContracts.StakeAllocator addrs))
                       (h <- ptrHex (RegistryContracts.StakeAllocator addrs) ;;
                        Return (equalsAddress addr h)) ;;
      if isAllocator : bool then handleStakeAllocatorEvent l contracts le blk
      else Return tt.

Definition handleLog l blk le : Prog unit :=
  Call CtxErr nilOrFail ;;
  contracts <- Call ClientContracts (@Return _) ;;
  (* always try to handle the upgrade event first *)
  handleUpgradeEvent l contracts le blk ;;
  addrs <- Call (ReadAddresses contracts) (@Return _) ;;
  routeByAddress l contracts addrs le blk.

(** The loop of a worker of [ProcessBlockRange] over the logs of a page;
    [block] is the block it holds, [None] when nil.  [handleLog] runs
    under the mutex of [ProcessBlockRange]. *)
Fixpoint handleLogs l (block : option Block.t) (logs : list Log.t) : Prog unit :=
  match logs with
  | [] => Return tt
  | lg :: rest =>
      let n := Int.Int64 (Log.BlockNumber lg) in
      let held :=
        match block with
        | None => None
        | Some b => if String.eqb (Block.Number b) (BigIntToHex n) then Some b else None
        end in
      block <- match held with
               | Some b => Return b
               | None => Call (EthBlockByNumber n) orFail
               end ;;
      handleLog l block lg ;;
      handleLogs l (Some block) rest
  end.

(** The body of a worker for one page it takes from the channel. *)
Definition workPage l (p : Pager.page) : Prog unit :=
  Call GroupCtxErr nilOrFail ;;
  logs <- Call (GetLogsForRange (Pager.Start p) (Pager.End p)) orFail ;;
  handleLogs l None logs.

(** [ProcessBlockRange] up to the pages its producer sends to the workers:
    the end of the range is the chain height when [endBlock] is nil, and
    the pages are those of [Pager.pages].  The workers, which run
    [workPage] on the pages concurrently, are not part of this value. *)
Definition ProcessBlockRange (startBlock : Z) (endBlock : option Z)
  : Prog (list Pager.page) :=
  endBlock <- match endBlock with
              | None => Call EthBlockNumber orFail
              | Some e => Return e
              end ;;
  Return (Pager.pages startBlock endBlock).

Definition ProcessLastBlocks (blocksAgo : Z) : Prog (list Pager.page) :=
  bn <- Call EthBlockNumber orFail ;;
  if Int.Int64 bn =? 0 then Fail "current block is unexpectedly 0"
  else
    let start := bn in
    let end_ := Int.sub64 (Int.Int64 bn) blocksAgo in
    ProcessBlockRange start (Some end_).

Definition NewListenerWithClients (cfg : ListenerConfig.t) (proxy : bool)
  : Prog Listener.t :=
  let li := Listener.mk cfg proxy in
  let topics := if (0 <? List.length (ListenerConfig.Topics cfg))%nat
                then [ListenerConfig.Topics cfg] else [] in
  Call (NewLogFeed (LogFeedConfig.mk topics (ListenerConfig.StartBlock cfg)
                      (ListenerConfig.EndBlock cfg) (ListenerConfig.BlockOffset cfg)))
       nilOrFail ;;
  setLogFilterAddrs li ;;
  Return li.

End ListenerCode.

(** ** Reading a run *)

Definition opOf (ev : Event) : Op := match ev with Ev op _ => op end.

(** The calls to the sink among the calls made: each message handed over and
    what the sink answered. *)
Definition sinkCall (ev : Event) : option (Message.t * option error) :=
  match ev with
  | Ev (Publish m) r => Some (m, r)
  | Ev (Handle m) r => Some (m, r)
  | _ => None
  end.

Fixpoint sinkCalls (t : list Event) : list (Message.t * option error) :=
  match t with
  | [] => []
  | ev :: t' =>
      match sinkCall ev with
      | Some c => c :: sinkCalls t'
      | None => sinkCalls t'
      end
  end.

(** The messages handed to the sink, in order. *)
Definition deliveries (t : list Event) : list Message.t :=
  List.map fst (sinkCalls t).

Definition isRefresh (ev : Event) : bool :=
  match opOf ev with ClientRefreshContracts => true | _ => false end.

Definition isAddAddress (ev : Event) : bool :=
  match opOf ev with AddAddress _ => true | _ => false end.

(** [Within Q P p]: every call the program [p] can make satisfies [Q], and
    every panic it can end in has a message satisfying [P]. *)
Inductive Within {A : Type} (Q : Op -> Prop) (P : string -> Prop) : Prog A -> Prop :=
| Within_Return (a : A) : Within Q P (Return a)
| Within_Fail (e : error) : Within Q P (Fail e)
| Within_Panic (m : string) : P m -> Within Q P (Panic m)
| Within_Call (op : Op) (k : Resp op -> Prog A) :
    Q op -> (forall r, Within Q P (k r)) -> Within Q P (Call op k).

(** An accepted delivery of [m]. *)
Definition delivered (m : Message.t) : Message.t * option error := (m, None).

(** The call that adds an address to the feed. *)
Definition added (addr : string) : Event := Ev (AddAddress addr) tt.

(** The calls a contract handler may make: decoding by a filterer other
    than [f], the queries of the registry client, the sink and the logger. *)
Definition roleCall (f : Filterer) (op : Op) : Prop :=
  match op with
  | Parse _ f' _ _ => f' <> f
  | ClientIsEnabledScanner _ | ClientGetScannerPoolOwner _ | ClientGetAgent _
  | Publish _ | Handle _ | LoggerDebug _ | LoggerWarn _ _ => True
  | _ => False
  end.

(** The same calls, by any filterer. *)
Definition handlerCall (op : Op) : Prop :=
  match op with
  | Parse _ _ _ _
  | ClientIsEnabledScanner _ | ClientGetScannerPoolOwner _ | ClientGetAgent _
  | Publish _ | Handle _ | LoggerDebug _ | LoggerWarn _ _ => True
  | _ => False
  end.

(** A call that is not a decoding by the filterer [f]. *)
Definition notBy (f : Filterer) (op : Op) : Prop :=
  match op with
  | Parse _ f' _ _ => f' <> f
  | _ => True
  end.

Definition never (m : string) : Prop := False.

(** The calls of [setLogFilterAddrs]. *)
Definition filterCall (op : Op) : Prop :=
  match op with
  | ClientContracts | ReadAddresses _ | AddAddress _ => True
  | _ => False
  end.

(** The calls [handleLog] makes once the filter is set again: decoding,
    the sink, the queries of the handlers, and reading the addresses to
    route the log. *)
Definition afterFilterCall (op : Op) : Prop :=
  match op with
  | ReadAddresses _ => True
  | _ => handlerCall op
  end.

Definition emptyFilter (m : string) : Prop := m = "empty filter".

Section Steps.
Import Eth Events Message.
Context `{Helpers}.

Implicit Types (l : Listener.t) (contracts : ContractsRef) (le : Log.t) (blk : Block.t).

(** [handleLog] in two steps: up to the end of the upgrade check, and the
    routing by address that follows it. *)
Definition upgradeStep (l : Listener.t) (blk : Block.t) (le : Eth.Log.t)
  : Prog ContractsRef :=
  Call CtxErr nilOrFail ;;
  contracts <- Call ClientContracts (@Return _) ;;
  handleUpgradeEvent l contracts le blk ;;
  Return contracts.

Definition routeStep (l : Listener.t) (blk : Block.t) (le : Eth.Log.t)
    (contracts : ContractsRef) : Prog unit :=
  addrs <- Call (ReadAddresses contracts) (@Return _) ;;
  routeByAddress l contracts addrs le blk.

(** What [handleUpgradeEvent] does after the filter is set again: it decodes
    the event and hands over the upgrade message. *)
Definition decodeAndEmit (l : Listener.t) (contracts : ContractsRef)
    (le : Eth.Log.t) (blk : Block.t) : Prog unit :=
  upgraded <- parse contracts DispatchFil ParseUpgraded le ;;
  handler l (Message.NewUpgradeMessage upgraded le blk).

(** The configuration [NewListenerWithClients] gives to the feed. *)
Definition logFeedConfig (cfg : ListenerConfig.t) : LogFeedConfig.t :=
  LogFeedConfig.mk
    (if (0 <? List.length (ListenerConfig.Topics cfg))%nat
     then [ListenerConfig.Topics cfg] else [])
    (ListenerConfig.StartBlock cfg) (ListenerConfig.EndBlock cfg)
    (ListenerConfig.BlockOffset cfg).

(** The log is at the address of one of the five contracts that are tested
    before the optional ones. *)
Definition matchesEarlier (addrs : RegistryContracts.t) le : bool :=
  let addr := Log.Address le in
  equalsAddress addr (hex (RegistryContracts.ScannerRegistry addrs))
  || equalsAddress addr (hex (RegistryContracts.ScannerNodeVersion addrs))
  || equalsAddress addr (hex (RegistryContracts.AgentRegistry addrs))
  || equalsAddress addr (hex (RegistryContracts.Dispatch addrs))
  || equalsAddress addr (hex (RegistryContracts.FortaStaking addrs)).

Section Outcomes.
Variable E : Env.

(** What handling a stake change gives, by the subject type of the event:
    one message whose identifier is the scanner ID in hexadecimal, the agent
    ID in hexadecimal or the pool ID in decimal; for any other subject type
    no message and no error. *)
Definition stakeOutcome l le blk (subjectType subjectID : Z) (changeType : string)
    (value : option Z) (acct : Address) (s : State E)
    (r : Outcome unit * State E * list Event) : Prop :=
  (subjectType = SubjectTypeScanner ->
     r = run E (handler l (NewScannerStakeMessage le changeType acct
                             (ScannerIDBigIntToHex subjectID) value blk)) s)
  /\ (subjectType = SubjectTypeAgent ->
        r = run E (handler l (NewAgentStakeMessage le changeType acct
                                (AgentBigIntToHex subjectID) value blk)) s)
  /\ (subjectType = SubjectTypeScannerPool ->
        r = run E (handler l (NewScannerPoolStakeMessage le changeType acct
                                (BigString subjectID) value blk)) s)
  /\ (subjectType <> SubjectTypeScanner -> subjectType <> SubjectTypeAgent ->
      subjectType <> SubjectTypeScannerPool ->
      outcome r = Ok tt /\ deliveries (trace r) = []).

End Outcomes.

End Steps.

(** The claim on routing as it is stated: a log whose topic is
    [UpgradedTopic] is handled by the upgrade step alone, with no routing by
    address after it. *)
Definition routed_only_without_upgrade_match : Prop :=
  forall (H : Helpers) (E : Env) (l : Listener.t) (blk : Block.t) (le : Eth.Log.t)
         (s : State E),
    getTopic le = UpgradedTopic ->
    trace (run E (handleLog l blk le) s) = trace (run E (upgradeStep l blk le) s).

(** The claim on upgrades as it is stated: handling a log whose topic is
    [UpgradedTopic] makes one refresh and, right after it, sets the address
    filter again, which starts with the read of the contracts and of their
    addresses, whatever the collaborators answer. *)
Definition upgrade_always_refreshes_and_sets_filter : Prop :=
  forall (H : Helpers) (E : Env) (l : Listener.t) (blk : Block.t) (le : Eth.Log.t)
         (s : State E),
    getTopic le = UpgradedTopic ->
    let t := trace (run E (handleLog l blk le) s) in
    List.length (List.filter isRefresh t) = 1%nat
    /\ exists (before after : list Event) (r : option error) (c : ContractsRef)
              (rc : RegistryContracts.t),
         t = before
             ++ Ev ClientRefreshContracts r :: Ev ClientContracts c
                :: Ev (ReadAddresses c) rc :: after.

(** ** Sample collaborators

    A choice of the helpers and scripted collaborators, to run the listener
    on concrete logs. *)
Module Sample.
Import Eth Events.

Definition lowerHex (bs : list byte) : string :=
  String.append "0x" (hexChars (fun _ => false) 0 bs).

Definition hexOfZ (x : Z) : string :=
  String.append "0x" (HexadecimalString.NilZero.string_of_int (Z.to_hex_int x)).

(** The topic of the sample event number [b]. *)
Definition topic (b : byte) : string := lowerHex (List.repeat b 32).

(** Modelled from the spec: the conversion of a batch transfer, which is not
    among the sources, makes one share-transfer message per transferred
    entry. *)
Definition sharesFromBatch (le : Log.t) (evt : TransferBatch.t) (blk : Block.t)
  : error + list Message.t :=
  inr (List.map
         (fun iv => Message.TransferSharesMessage
                      (Message.Shares.mk le blk (TransferBatch.From evt)
                         (TransferBatch.To evt) (fst iv) (snd iv)))
         (List.combine (TransferBatch.Ids evt) (TransferBatch.Values evt))).

Definition sharesFromSingle (le : Log.t) (evt : TransferSingle.t) (blk : Block.t)
  : error + Message.t :=
  inr (Message.TransferSharesMessage
         (Message.Shares.mk le blk (TransferSingle.From evt) (TransferSingle.To evt)
            (TransferSingle.Id evt) (TransferSingle.Value evt))).

Definition helpers : Helpers := {|
  checksum := fun _ _ => false;
  getTopic := fun le => match Log.Topics le with
                        | [] => EmptyString
                        | h :: _ => lowerHex h
                        end;
  equalsAddress := fun a s => String.eqb (lowerHex a) s;
  getAllContractAddrs := fun rc =>
    [lowerHex (RegistryContracts.AgentRegistry rc);
     lowerHex (RegistryContracts.ScannerRegistry rc);
     lowerHex (RegistryContracts.Dispatch rc);
     lowerHex (RegistryContracts.FortaStaking rc);
     lowerHex (RegistryContracts.ScannerNodeVersion rc)]
    ++ match RegistryContracts.ScannerPoolRegistry rc with
       | Some a => [lowerHex a] | None => [] end
    ++ match RegistryContracts.StakeAllocator rc with
       | Some a => [lowerHex a] | None => [] end;
  ScannerIDBigIntToHex := hexOfZ;
  AgentBigIntToHex := hexOfZ;
  BigIntToHex := hexOfZ;
  TransferSharesMessageFromSingle := sharesFromSingle;
  TransferSharesMessagesFromBatch := sharesFromBatch;
  ChangeTypeDeposit := "deposit";
  ChangeTypeWithdrawal := "withdrawal";
  ChangeTypeSlash := "slash";
  SubjectTypeScanner := 0;
  SubjectTypeAgent := 1;
  SubjectTypeScannerPool := 2;
  scanner_registry_ScannerUpdatedTopic := topic x01;
  scanner_registry_ScannerEnabledTopic := topic x02;
  scanner_registry_StakeThresholdChangedTopic := topic x03;
  scanner_pool_registry_ScannerUpdatedTopic := topic x04;
  scanner_pool_registry_ManagedStakeThresholdChangedTopic := topic x05;
  scanner_pool_registry_TransferTopic := topic x06;
  scanner_pool_registry_ScannerPoolRegisteredTopic := topic x07;
  scanner_pool_registry_EnabledScannersChangedTopic := topic x08;
  scanner_node_version_ScannerNodeVersionUpdatedTopic := topic x09;
  agent_registry_AgentUpdatedTopic := topic x0a;
  agent_registry_AgentEnabledTopic := topic x0b;
  agent_registry_StakeThresholdChangedTopic := topic x03;
  forta_staking_StakeDepositedTopic := topic x0c;
  forta_staking_WithdrawalInitiatedTopic := topic x0d;
  forta_staking_SlashedTopic := topic x0e;
  forta_staking_TransferSingleTopic := topic x0f;
  forta_staking_TransferBatchTopic := topic x10;
  stake_allocator_AllocatedStakeTopic := topic x11;
  dispatch_LinkTopic := topic x12;
  dispatch_AlreadyLinkedTopic := topic x13 |}.

(** The hash of [UpgradedTopic]. *)
Definition upgradedHash : Hash :=
  [xbc; x7c; xd7; x5a; x20; xee; x27; xfd; x9a; xde; xba; xb3; x20; x41; xf7; x55;
   x21; x4d; xbc; x6b; xff; xa9; x0c; xc0; x22; x5b; x39; xda; x2e; x5c; x2d; x3b].

Definition addr (b : byte) : Address := List.repeat b 20.

(** Registry addresses with both optional contracts, and without them. *)
Definition contractsFull : RegistryContracts.t :=
  RegistryContracts.mk (addr xa1) (addr xa2) (addr xa3) (addr xa4) (addr xa5)
    (Some (addr xa6)) (Some (addr xa7)).

Definition contractsBare : RegistryContracts.t :=
  RegistryContracts.mk (addr xa1) (addr xa2) (addr xa3) (addr xa4) (addr xa5)
    None None.

Definition logAt (a : Address) (topics : list Hash) : Log.t :=
  Log.mk a topics [] 100 (List.repeat xee 32) 0 (List.repeat xbb 32) 0 false.

(** The log of the sample event [event] at the sample address [contract]. *)
Definition logOf (contract event : byte) : Log.t :=
  logAt (addr contract) [List.repeat event 32].

Definition block100 : Block.t := Block.mk "0xb100" "0x64" "0xb099" "0x5f5e100".

(** What the scripted collaborators answer. *)
Record Script : Type := mkScript {
  ctxErr : option error;
  groupErr : option error;
  refreshErr : option error;
  (** the addresses behind the contracts pointer, by the number of
      refreshes made *)
  addresses : nat -> RegistryContracts.t;
  parsed : forall m : Method, error + EventOf m;
  enabledScanner : error + bool;
  poolOwner : error + string;
  agent : error + Agent.t;
  (** the delivery, counted from 0, at which the sink fails *)
  sinkFailsAt : option nat;
  height : error + Z;
  logsOf : Z -> Z -> error + list Log.t;
  blockOf : Z -> error + Block.t;
  feedErr : option error }.

(** The state of the scripted collaborators: deliveries and refreshes made. *)
Definition Counters : Type := (nat * nat)%type.

Definition answer (sc : Script) (op : Op) (s : Counters) : Resp op * Counters :=
  match op return Resp op * Counters with
  | CtxErr => (ctxErr sc, s)
  | GroupCtxErr => (groupErr sc, s)
  | ClientContracts => (0%nat, s)
  | ReadAddresses _ => (addresses sc (snd s), s)
  | ClientRefreshContracts =>
      match refreshErr sc with
      | Some e => (Some e, s)
      | None => (None, (fst s, S (snd s)))
      end
  | ClientIsEnabledScanner _ => (enabledScanner sc, s)
  | ClientGetScannerPoolOwner _ => (poolOwner sc, s)
  | ClientGetAgent _ => (agent sc, s)
  | Parse _ _ m _ => (parsed sc m, s)
  | Publish _ | Handle _ =>
      (match sinkFailsAt sc with
       | Some n => if Nat.eqb n (fst s) then Some "sink failure" else None
       | None => None
       end, (S (fst s), snd s))
  | AddAddress _ | LoggerDebug _ | LoggerWarn _ _ => (tt, s)
  | EthBlockNumber => (height sc, s)
  | EthBlockByNumber n => (blockOf sc n, s)
  | GetLogsForRange a b => (logsOf sc a b, s)
  | NewLogFeed _ => (feedErr sc, s)
  end.

Definition env (sc : Script) : Env := mkEnv (answer sc).

Definition start : Counters := (0%nat, 0%nat).

Definition rawLog : Log.t := logAt (addr xa4) [].

(** The decoded events of the script: scanner 5 enabled by its event, a
    transfer from a non-zero address, a deposit on pool 7, a batch of three
    share transfers. *)
Definition events (m : Method) : error + EventOf m :=
  match m return error + EventOf m with
  | ParseScannerUpdated => inr (ScannerUpdated.mk 5 137 "meta" rawLog)
  | ParseScannerEnabled => inr (ScannerEnabled.mk 5 true 0 true rawLog)
  | ParseTransfer => inr (Transfer.mk (addr x11) (addr x22) 7 rawLog)
  | ParseScannerPoolRegistered => inr (ScannerPoolRegistered.mk 7 137 rawLog)
  | ParseAgentUpdated => inr (AgentUpdated.mk 9 (addr x11) "meta" [137] rawLog)
  | ParseAgentEnabled => inr (AgentEnabled.mk 9 true 0 true rawLog)
  | ParseStakeDeposited => inr (StakeDeposited.mk 2 7 (addr x11) 1000 rawLog)
  | ParseWithdrawalInitiated => inr (WithdrawalInitiated.mk 0 5 (addr x11) 99 rawLog)
  | ParseSlashed => inr (Slashed.mk 1 9 (addr x11) 10 rawLog)
  | ParseTransferSingle =>
      inr (TransferSingle.mk (addr x11) (addr x11) (addr x22) 7 10 rawLog)
  | ParseTransferBatch =>
      inr (TransferBatch.mk (addr x11) (addr x11) (addr x22) [7; 8; 9] [10; 20; 30] rawLog)
  | ParseStakeThresholdChanged | ParseManagedStakeThresholdChanged
  | ParseEnabledScannersChanged | ParseScannerNodeVersionUpdated
  | ParseAllocatedStake | ParseLink | ParseAlreadyLinked | ParseUpgraded =>
      inr (Decoded.mk [] rawLog)
  end.

(** Everything succeeds; the scanner is currently disabled. *)
Definition script : Script := {|
  ctxErr := None; groupErr := None; refreshErr := None;
  addresses := fun _ => contractsFull;
  parsed := events;
  enabledScanner := inr false;
  poolOwner := inr "0xowner";
  agent := inr (Agent.mk "0x9" true "manifest" "0xowner");
  sinkFailsAt := None;
  height := inr 5000;
  logsOf := fun _ _ => inr [];
  blockOf := fun _ => inr block100;
  feedErr := None |}.

(** The same, with a sink that refuses its second delivery. *)
Definition refusing : Script := {|
  ctxErr := None; groupErr := None; refreshErr := None;
  addresses := fun _ => contractsFull;
  parsed := events;
  enabledScanner := inr false;
  poolOwner := inr "0xowner";
  agent := inr (Agent.mk "0x9" true "manifest" "0xowner");
  sinkFailsAt := Some 1%nat;
  height := inr 5000;
  logsOf := fun _ _ => inr [];
  blockOf := fun _ => inr block100;
  feedErr := None |}.

(** The same as [script], with a registry that has neither optional
    contract. *)
Definition bare : Script := {|
  ctxErr := None; groupErr := None; refreshErr := None;
  addresses := fun _ => contractsBare;
  parsed := events;
  enabledScanner := inr false;
  poolOwner := inr "0xowner";
  agent := inr (Agent.mk "0x9" true "manifest" "0xowner");
  sinkFailsAt := None;
  height := inr 5000;
  logsOf := fun _ _ => inr [];
  blockOf := fun _ => inr block100;
  feedErr := None |}.

(** The same as [script], with a context that is done. *)
Definition cancelled : Script := {|
  ctxErr := Some "context canceled"; groupErr := None; refreshErr := None;
  addresses := fun _ => contractsFull;
  parsed := events;
  enabledScanner := inr false;
  poolOwner := inr "0xowner";
  agent := inr (Agent.mk "0x9" true "manifest" "0xowner");
  sinkFailsAt := None;
  height := inr 5000;
  logsOf := fun _ _ => inr [];
  blockOf := fun _ => inr block100;
  feedErr := None |}.

(** The same as [script], with a registry client whose refresh fails. *)
Definition unrefreshed : Script := {|
  ctxErr := None; groupErr := None; refreshErr := Some "refresh failed";
  addresses := fun _ => contractsFull;
  parsed := events;
  enabledScanner := inr false;
  poolOwner := inr "0xowner";
  agent := inr (Agent.mk "0x9" true "manifest" "0xowner");
  sinkFailsAt := None;
  height := inr 5000;
  logsOf := fun _ _ => inr [];
  blockOf := fun _ => inr block100;
  feedErr := None |}.

(** A filter that selects the staking contract only, one that selects
    nothing, and one that selects the two optional contracts only. *)
Definition onlyStaking : ContractFilter.t :=
  ContractFilter.mk false false false false true false false.

Definition noFlags : ContractFilter.t :=
  ContractFilter.mk false false false false false false false.

Definition onlyOptional : ContractFilter.t :=
  ContractFilter.mk false false true false false false true.

(** A log of the staking contract with the topic [UpgradedTopic]. *)
Definition upgradedLog : Log.t := logAt (addr xa4) [upgradedHash].

Definition config (filter : option ContractFilter.t) : ListenerConfig.t :=
  ListenerConfig.mk "listener" "" "" None None 0 filter [] false.

Definition direct (filter : option ContractFilter.t) : Listener.t :=
  Listener.mk (config filter) false.

(** The share-transfer message of the sample batch for one entry. *)
Definition share (id amount : Z) : Message.t :=
  Message.TransferSharesMessage
    (Message.Shares.mk (logOf xa4 x10) block100 (addr x11) (addr x22)
       id amount).

(** The calls of the upgrade step on the sample log. *)
Definition upgradeCalls : list Event :=
  [Ev CtxErr None; Ev ClientContracts 0%nat; Ev ClientRefreshContracts None;
   Ev ClientContracts 0%nat; Ev (ReadAddresses 0%nat) contractsFull;
   Ev (AddAddress "0xa4a4a4a4a4a4a4a4a4a4a4a4a4a4a4a4a4a4a4a4") tt;
   Ev (Parse 0%nat DispatchFil ParseUpgraded upgradedLog)
     (inr (Decoded.mk [] rawLog));
   Ev (Handle (Message.NewUpgradeMessage (Decoded.mk [] rawLog) upgradedLog
                 block100)) None].

End Sample.

(** ** The upgrade watcher and the conversions of package [domain] *)

(** What these use of go-ethereum and of the repository and is not among the
    sources: [isAddrIn] of package [registry], [common.HexToAddress],
    [common.HexToHash], [hexutil.DecodeBig], whose error comes with a nil
    number, and [utils.HexToBigInt]. *)
Class Codecs : Type := {
  isAddrIn : list string -> Eth.Address -> bool;
  HexToAddress : string -> Eth.Address;
  HexToHash : string -> Eth.Hash;
  DecodeBig : string -> error + Z;
  HexToBigInt : string -> error + Z }.

Module Uint.

(** [Uint64()] of a big integer: the low 64 bits of its absolute value. *)
Definition Uint64 (x : Z) : Z := Z.abs x mod Int.two64.

(** [int64] multiplication. *)
Definition mul64 (x y : Z) : Z := Int.Int64 (x * y).

(** [time.Millisecond], in nanoseconds. *)
Definition Millisecond : Z := 1000000.

End Uint.

(** [domain.LogEntry]: every field is a pointer, [None] when nil. *)
Module LogEntry.
Record t : Type := mk {
  Address : option string;
  BlockHash : option string;
  BlockNumber : option string;
  Data : option string;
  LogIndex : option string;
  Removed : option bool;
  Topics : list (option string);
  TransactionHash : option string;
  TransactionIndex : option string }.
End LogEntry.

Definition nilDereference : string :=
  "invalid memory address or nil pointer dereference".

Section Domain.
Import Eth.
Context `{Helpers} `{Codecs}.

(** [num, _ := hexutil.DecodeBig(s); num.Uint64()]: the error is dropped
    and the number, nil when the decoding failed, is read.  The conversion
    to [uint] that follows for the indexes keeps the value, [uint] being 64
    bits wide. *)
Definition decodedUint64 (s : string) : Prog Z :=
  match DecodeBig s with
  | inr num => Return (Uint.Uint64 num)
  | inl _ => Panic nilDereference
  end.

(** [common.HexToHash( *topic )] for each topic, in order. *)
Fixpoint topicHashes (topics : list (option string)) : Prog (list Hash) :=
  match topics with
  | [] => Return []
  | topic :: rest =>
      h <- match topic with
           | Some t => Return (HexToHash t)
           | None => Panic nilDereference
           end ;;
      hs <- topicHashes rest ;;
      Return (h :: hs)
  end.

(** [LogEntry.ToTypesLog]: each field that is not nil is converted, the
    others keep the zero value of [types.Log]. *)
Definition ToTypesLog (le : LogEntry.t) : Prog Log.t :=
  let address := match LogEntry.Address le with
                 | Some a => HexToAddress a
                 | None => zeroAddress
                 end in
  let blockHash := match LogEntry.BlockHash le with
                   | Some h => HexToHash h
                   | None => List.repeat x00 32
                   end in
  blockNumber <- match LogEntry.BlockNumber le with
                 | Some n => decodedUint64 n
                 | None => Return 0
                 end ;;
  let data := match LogEntry.Data le with
              | Some d => list_byte_of_string d
              | None => []
              end in
  index <- match LogEntry.LogIndex le with
           | Some n => decodedUint64 n
           | None => Return 0
           end ;;
  let removed := match LogEntry.Removed le with
                 | Some r => r
                 | None => false
                 end in
  topics <- topicHashes (LogEntry.Topics le) ;;
  let txHash := match LogEntry.TransactionHash le with
                | Some h => HexToHash h
                | None => List.repeat x00 32
                end in
  txIndex <- match LogEntry.TransactionIndex le with
             | Some n => decodedUint64 n
             | None => Return 0
             end ;;
  Return (Log.mk address topics data blockNumber txHash txIndex blockHash index removed).

(** [Block.GetTimestamp]; the time is given by its nanoseconds since the
    epoch, as [time.Unix(0, nsec)] makes it. *)
Definition GetTimestamp (b : Block.t) : error + Z :=
  match HexToBigInt (Block.Timestamp b) with
  | inl err => inl err
  | inr ts =>
      let blockTsMs := ts * 1000 in
      inr (Uint.mul64 (Int.Int64 (Uint.Uint64 blockTsMs)) Uint.Millisecond)
  end.

(** The loop of the function [ListenToUpgrades] subscribes, over the logs
    of a block event: the first log of a known contract with the upgraded
    topic ends it with a refresh. *)
Fixpoint scanForUpgrade (addrs : list string) (logs : list LogEntry.t) : Prog unit :=
  match logs with
  | [] => Return tt
  | log :: rest =>
      ethLog <- ToTypesLog log ;;
      if negb (isAddrIn addrs (Log.Address ethLog)) then scanForUpgrade addrs rest
      else if negb (String.eqb (getTopic ethLog) UpgradedTopic)
           then scanForUpgrade addrs rest
           else Call ClientRefreshContracts nilOrFail
  end.

(** The function [ListenToUpgrades] subscribes to the block feed, on the
    logs of one block event. *)
Definition ListenToUpgrades (logs : list LogEntry.t) : Prog unit :=
  c <- Call ClientContracts (@Return _) ;;
  regContracts <- Call (ReadAddresses c) (@Return _) ;;
  let addrs := getAllContractAddrs regContracts in
  scanForUpgrade addrs logs.

(** The log entry is one that ends the scan with a refresh. *)
Definition upgradeOf (addrs : list string) (ethLog : Log.t) : bool :=
  isAddrIn addrs (Log.Address ethLog) && String.eqb (getTopic ethLog) UpgradedTopic.

(** The entry converts to a log that does not end the scan. *)
Definition skipped (addrs : list string) (le : LogEntry.t) : Prop :=
  exists log, ToTypesLog le = Return log /\ upgradeOf addrs log = false.

End Domain.

(** ** More ways to read a run *)

(** The error a call answered, as the listener returns it: the error itself,
    or for the owner of a scanner pool the error with a prefix. *)
Definition errorOf (ev : Event) : option error :=
  match ev with
  | Ev CtxErr (Some e) | Ev GroupCtxErr (Some e)
  | Ev ClientRefreshContracts (Some e) | Ev (NewLogFeed _) (Some e)
  | Ev (Publish _) (Some e) | Ev (Handle _) (Some e) => Some e
  | Ev (ClientIsEnabledScanner _) (inl e) | Ev (ClientGetAgent _) (inl e)
  | Ev (Parse _ _ _ _) (inl e) | Ev EthBlockNumber (inl e)
  | Ev (EthBlockByNumber _) (inl e) | Ev (GetLogsForRange _ _) (inl e) => Some e
  | Ev (ClientGetScannerPoolOwner _) (inl e) =>
      Some (String.append "failed to get scanner pool owner: " e)
  | _ => None
  end.

(** [Stops p]: whenever a call of [p] answers an error, [p] returns that
    error at once. *)
Inductive Stops {A : Type} : Prog A -> Prop :=
| Stops_Return (a : A) : Stops (Return a)
| Stops_Fail (e : error) : Stops (Fail e)
| Stops_Panic (m : string) : Stops (Panic m)
| Stops_Call (op : Op) (k : Resp op -> Prog A) :
    (forall r, Stops (k r)) ->
    (forall r e, errorOf (Ev op r) = Some e -> k r = Fail e) ->
    Stops (Call op k).

(** In the run [x], a call that answers an error is the last call, and the
    run ends with that error. *)
Definition stopsAtFirstError {A S : Type} (x : Outcome A * S * list Event) : Prop :=
  forall (t1 t2 : list Event) (ev : Event) (e : error),
    trace x = t1 ++ ev :: t2 -> errorOf ev = Some e ->
    t2 = [] /\ outcome x = Err e.

(** A call to the sink that goes the way the listener was built:
    [Publish] with a proxy, [Handle] without. *)
Definition sinkVia (proxy : bool) (op : Op) : Prop :=
  match op with
  | Publish _ => proxy = true
  | Handle _ => proxy = false
  | _ => True
  end.

Definition isBlockFetch (ev : Event) : bool :=
  match opOf ev with EthBlockByNumber _ => true | _ => false end.

(** A call that is not the fetch of a block. *)
Definition notFetch (op : Op) : Prop :=
  match op with EthBlockByNumber _ => False | _ => True end.

(** A call [handleLog] may make with the listener [l]: not the fetch of a
    block, and to the sink only the way [l] was built. *)
Definition logCall (l : Listener.t) (op : Op) : Prop :=
  sinkVia (Listener.hasProxy l) op /\ notFetch op.

(** The logs are those of block [n]. *)
Definition inBlock (n : Z) (logs : list Eth.Log.t) : Prop :=
  Forall (fun lg => Int.Int64 (Eth.Log.BlockNumber lg) = n) logs.

(** A call that is a decoding by the filterer [f], or no decoding. *)
Definition onlyBy (f : Filterer) (op : Op) : Prop :=
  match op with
  | Parse _ f' _ _ => f' = f
  | _ => True
  end.

Definition isSink (op : Op) : bool :=
  match op with Publish _ | Handle _ => true | _ => false end.

(** [SinkBound n p]: the program [p] calls the sink at most [n] times. *)
Inductive SinkBound {A : Type} : nat -> Prog A -> Prop :=
| SinkBound_Return (n : nat) (a : A) : SinkBound n (Return a)
| SinkBound_Fail (n : nat) (e : error) : SinkBound n (Fail e)
| SinkBound_Panic (n : nat) (m : string) : SinkBound n (Panic m)
| SinkBound_Sink (n : nat) (op : Op) (k : Resp op -> Prog A) :
    isSink op = true -> (forall r, SinkBound n (k r)) -> SinkBound (S n) (Call op k)
| SinkBound_Call (n : nat) (op : Op) (k : Resp op -> Prog A) :
    isSink op = false -> (forall r, SinkBound n (k r)) -> SinkBound n (Call op k).

(** The event is a decoding by the filterer [f], or no decoding at all. *)
Definition decodedOnlyBy (f : Filterer) (ev : Event) : Prop :=
  match opOf ev with
  | Parse _ f' _ _ => f' = f
  | _ => True
  end.

Section Matching.
Import Eth.
Context `{Helpers}.

(** The filterer of the first contract, in the order of the tests of
    [handleLog], whose address the log is at; [None] when it is at none. *)
Definition roleOf (addrs : RegistryContracts.t) (le : Log.t) : option Filterer :=
  let addr := Log.Address le in
  if equalsAddress addr (hex (RegistryContracts.ScannerRegistry addrs))
  then Some ScannerRegFil
  else if equalsAddress addr (hex (RegistryContracts.ScannerNodeVersion addrs))
  then Some ScannerVersionFil
  else if equalsAddress addr (hex (RegistryContracts.AgentRegistry addrs))
  then Some AgentRegFil
  else if equalsAddress addr (hex (RegistryContracts.Dispatch addrs))
  then Some DispatchFil
  else if equalsAddress addr (hex (RegistryContracts.FortaStaking addrs))
  then Some FortaStakingFil
  else
    match RegistryContracts.ScannerPoolRegistry addrs with
    | Some a =>
        if equalsAddress addr (hex a) then Some ScannerPoolRegFil
        else match RegistryContracts.StakeAllocator addrs with
             | Some a' => if equalsAddress addr (hex a') then Some StakeAllocatorFil else None
             | None => None
             end
    | None =>
        match RegistryContracts.StakeAllocator addrs with
        | Some a' => if equalsAddress addr (hex a') then Some StakeAllocatorFil else None
        | None => None
        end
    end.

(** The contracts the registry has, each with its filterer and its address
    in hexadecimal, in the order of the tests of [handleLog]; the two
    optional contracts are in the list when they are there. *)
Definition known (addrs : RegistryContracts.t) : list (Filterer * string) :=
  [(ScannerRegFil, hex (RegistryContracts.ScannerRegistry addrs));
   (ScannerVersionFil, hex (RegistryContracts.ScannerNodeVersion addrs));
   (AgentRegFil, hex (RegistryContracts.AgentRegistry addrs));
   (DispatchFil, hex (RegistryContracts.Dispatch addrs));
   (FortaStakingFil, hex (RegistryContracts.FortaStaking addrs))]
  ++ match RegistryContracts.ScannerPoolRegistry addrs with
     | Some a => [(ScannerPoolRegFil, hex a)]
     | None => []
     end
  ++ match RegistryContracts.StakeAllocator addrs with
     | Some a => [(StakeAllocatorFil, hex a)]
     | None => []
     end.

(** The first contract of [known] whose address the log is at. *)
Definition firstKnown (addrs : RegistryContracts.t) (le : Log.t) : option Filterer :=
  option_map fst
    (List.find (fun fa => equalsAddress (Log.Address le) (snd fa)) (known addrs)).

(** The handler of the contract whose filterer is [f]. *)
Definition handlerOf (f : Filterer) (l : Listener.t) (contracts : ContractsRef)
    (le : Log.t) (blk : Block.t) : Prog unit :=
  match f with
  | ScannerRegFil => handleScannerRegistryEvent l contracts le blk
  | ScannerPoolRegFil => handleScannerPoolRegistryEvent l contracts le blk
  | ScannerVersionFil => handleScannerVersionEvent l contracts le blk
  | AgentRegFil => handleAgentRegistryEvent l contracts le blk
  | FortaStakingFil => handleFortaStakingEvent l contracts le blk
  | StakeAllocatorFil => handleStakeAllocatorEvent l contracts le blk
  | DispatchFil => handleDispatchEvent l contracts le blk
  end.

End Matching.

(** The flags of a filter that select an address of the registry: the five
    contracts every registry has, and the two optional ones when they are
    there. *)
Definition usableFlags (f : ContractFilter.t) (rc : RegistryContracts.t) : list bool :=
  [ContractFilter.AgentRegistry f; ContractFilter.ScannerRegistry f;
   ContractFilter.FortaStaking f; ContractFilter.DispatchRegistry f;
   ContractFilter.ScannerVersion f;
   ContractFilter.ScannerPoolRegistry f
   && match RegistryContracts.ScannerPoolRegistry rc with Some _ => true | None => false end;
   ContractFilter.StakeAllocator f
   && match RegistryContracts.StakeAllocator rc with Some _ => true | None => false end].

Definition countTrue (bs : list bool) : nat := List.length (List.filter (fun b => b) bs).

Section Convertible.
Context `{Codecs}.

(** The number is nil or decodes. *)
Definition decodes (n : option string) : bool :=
  match n with
  | None => true
  | Some s => match DecodeBig s with inr _ => true | inl _ => false end
  end.

Definition noNilTopic (topics : list (option string)) : bool :=
  List.forallb (fun t => match t with Some _ => true | None => false end) topics.

(** The log entry can be converted: its numbers decode and none of its
    topics is nil. *)
Definition convertible (le : LogEntry.t) : bool :=
  decodes (LogEntry.BlockNumber le) && decodes (LogEntry.LogIndex le)
  && noNilTopic (LogEntry.Topics le) && decodes (LogEntry.TransactionIndex le).

(** The hashes of the topics that are not nil. *)
Definition hashesOf (topics : list (option string)) : list Eth.Hash :=
  List.flat_map (fun t => match t with Some x => [HexToHash x] | None => [] end) topics.

(** The number [v] is the one the entry gives for a field: zero for a nil
    field, otherwise the decoded number cut to 64 bits. *)
Definition numbered (n : option string) (v : Z) : Prop :=
  match n with
  | None => v = 0
  | Some x => exists z, DecodeBig x = inr z /\ v = Z.abs z mod 2 ^ 64
  end.

(** The hash [h] is the one the entry gives for a field: the zero hash for
    a nil field. *)
Definition hashed (x : option string) (h : Eth.Hash) : Prop :=
  h = match x with
      | Some x => HexToHash x
      | None => List.repeat x00 32
      end.

End Convertible.

(** ** More sample collaborators *)

Module Sample2.
Import Eth Events.

(** A registry client whose owner query fails. *)
Definition ownerDown : Sample.Script := {|
  Sample.ctxErr := None; Sample.groupErr := None; Sample.refreshErr := None;
  Sample.addresses := fun _ => Sample.contractsFull;
  Sample.parsed := Sample.events;
  Sample.enabledScanner := inr true;
  Sample.poolOwner := inl "rpc down";
  Sample.agent := inr (Agent.mk "0x9" false "manifest" "0xowner");
  Sample.sinkFailsAt := None;
  Sample.height := inl "rpc down";
  Sample.logsOf := fun _ _ => inr [];
  Sample.blockOf := fun _ => inr Sample.block100;
  Sample.feedErr := None |}.

(** Three logs of block 100 in a page, of the dispatch contract, the staking
    contract and the agent registry. *)
Definition threeLogs : list Log.t :=
  [Sample.logOf xa3 x12; Sample.logOf xa4 x0c; Sample.logOf xa1 x0b].

Definition paged : Sample.Script := {|
  Sample.ctxErr := None; Sample.groupErr := None; Sample.refreshErr := None;
  Sample.addresses := fun _ => Sample.contractsFull;
  Sample.parsed := Sample.events;
  Sample.enabledScanner := inr true;
  Sample.poolOwner := inr "0xowner";
  Sample.agent := inr (Agent.mk "0x9" false "manifest" "0xowner");
  Sample.sinkFailsAt := None;
  Sample.height := inr 5000;
  Sample.logsOf := fun _ _ => inr threeLogs;
  Sample.blockOf := fun _ => inr Sample.block100;
  Sample.feedErr := None |}.

(** A listener with a proxy. *)
Definition proxied : Listener.t := Listener.mk (Sample.config None) true.

(** Decoders for the conversions of package [domain]: a number is decoded
    when it is one of three known strings, an address or hash is the bytes
    of its text. *)
Definition codecs : Codecs := {|
  isAddrIn := fun addrs a =>
    List.existsb (String.eqb (Sample.lowerHex a)) addrs;
  HexToAddress := fun s =>
    if String.eqb s "0xa4a4a4a4a4a4a4a4a4a4a4a4a4a4a4a4a4a4a4a4" then Sample.addr xa4
    else if String.eqb s "0xa3a3a3a3a3a3a3a3a3a3a3a3a3a3a3a3a3a3a3a3" then Sample.addr xa3
    else zeroAddress;
  HexToHash := fun s =>
    if String.eqb s UpgradedTopic then Sample.upgradedHash
    else if String.eqb s "0x12" then List.repeat x12 32
    else List.repeat x00 32;
  DecodeBig := fun s =>
    if String.eqb s "0x64" then inr 100
    else if String.eqb s "0x0" then inr 0
    else if String.eqb s "0x1" then inr 1
    else inl "invalid hex string";
  HexToBigInt := fun s =>
    if String.eqb s "0x5f5e100" then inr 100000000
    else inl "invalid hex string" |}.

(** The entry of a log of the contract at [address] with the topic [topic],
    in block 100. *)
Definition entry (address topic : string) : LogEntry.t :=
  LogEntry.mk (Some address) None (Some "0x64") None (Some "0x1") (Some false)
    [Some topic] None (Some "0x0").

Definition stakingAddress : string := "0xa4a4a4a4a4a4a4a4a4a4a4a4a4a4a4a4a4a4a4a4".
Definition dispatchAddress : string := "0xa3a3a3a3a3a3a3a3a3a3a3a3a3a3a3a3a3a3a3a3".

(** A registry in which the staking contract and the scanner pool registry
    are at the address of the dispatch contract. *)
Definition sharedAddress : RegistryContracts.t :=
  RegistryContracts.mk (Sample.addr xa1) (Sample.addr xa2) (Sample.addr xa3)
    (Sample.addr xa3) (Sample.addr xa5) (Some (Sample.addr xa3)) None.

(** An entry with every field set, each to a value of its own. *)
Definition fullEntry : LogEntry.t :=
  LogEntry.mk (Some stakingAddress) (Some "0x12") (Some "0x64") (Some "ab")
    (Some "0x1") (Some true) [Some UpgradedTopic; Some "0x12"] (Some UpgradedTopic)
    (Some "0x0").

End Sample2.

(** * Properties *)

(** ** Integers *)

Module IntFacts.
Import Int.

Lemma Int64_fits x : fits64 x -> Int64 x = x.
Proof.
  unfold fits64, Int64, min_int64, max_int64, two63, two64. intros H.
  rewrite Z.mod_small; lia.
Qed.

Lemma BigMin_le_r x y : BigMin x y <= y.
Proof. unfold BigMin. destruct (Z.gtb_spec x y); lia. Qed.

Lemma BigMin_le_l x y : BigMin x y <= x.
Proof. unfold BigMin. destruct (Z.gtb_spec x y); lia. Qed.

Lemma BigMin_cases x y : (x <= y /\ BigMin x y = x) \/ (y < x /\ BigMin x y = y).
Proof. unfold BigMin. destruct (Z.gtb_spec x y); lia. Qed.

End IntFacts.

(** ** Running programs *)

Section RunLemmas.
Variable E : Env.

Lemma run_bind {A B : Type} (p : Prog A) (f : A -> Prog B) (s : State E) :
  run E (bind p f) s =
  match run E p s with
  | (Ok a, s1, t1) => let '(o, s2, t2) := run E (f a) s1 in (o, s2, t1 ++ t2)
  | (Err e, s1, t1) => (Err e, s1, t1)
  | (Panicked m, s1, t1) => (Panicked m, s1, t1)
  end.
Proof.
  revert s. induction p as [a | e | m | op k IH]; intros s; simpl.
  - destruct (run E (f a) s) as [[o s2] t2]. reflexivity.
  - reflexivity.
  - reflexivity.
  - destruct (respond E op s) as [r s1]. rewrite IH.
    destruct (run E (k r) s1) as [[[a | e | m] s2] t1]; simpl; try reflexivity.
    destruct (run E (f a) s2) as [[o s3] t2]. reflexivity.
Qed.

Lemma run_call {A : Type} (op : Op) (k : Resp op -> Prog A) (s : State E) :
  run E (Call op k) s =
  let '(o, s2, t) := run E (k (fst (respond E op s))) (snd (respond E op s)) in
  (o, s2, Ev op (fst (respond E op s)) :: t).
Proof. simpl. destruct (respond E op s) as [r s1]. reflexivity. Qed.

End RunLemmas.

(** ** The pager *)

Module PagerFacts.
Import Int IntFacts Pager.

Lemma producer_chain endBlock start end_ :
  fits64 start -> fits64 endBlock ->
  start <= end_ <= endBlock -> end_ <= start + pageSize ->
  chain start endBlock (producer endBlock start end_)
  /\ Forall narrow (producer endBlock start end_).
Proof.
  funelim (producer endBlock start end_); intros Hs He Hord Hw.
  - lia.
  - subst end_. rewrite (Int64_fits Hs), (Int64_fits He).
    split; [simpl; lia | repeat constructor; simpl; lia].
  - assert (Hend : fits64 end_) by (unfold fits64 in *; lia).
    rewrite (Int64_fits Hs), (Int64_fits Hend).
    assert (Hnext : fits64 (end_ + 1)) by (unfold fits64 in *; lia).
    pose proof (BigMin_le_r (end_ + 1 + pageSize) endBlock) as Hr.
    pose proof (BigMin_le_l (end_ + 1 + pageSize) endBlock) as Hl.
    assert (Hlo : end_ + 1 <= BigMin (end_ + 1 + pageSize) endBlock).
    { destruct (BigMin_cases (end_ + 1 + pageSize) endBlock) as [[_ ->] | [_ ->]];
        unfold pageSize; lia. }
    destruct (H Hnext He) as [Hc Hf]; [lia | lia |].
    split.
    + destruct (producer endBlock (end_ + 1) (BigMin (end_ + 1 + pageSize) endBlock))
        as [| q qs] eqn:Eq; [simpl in Hc; contradiction |].
      simpl. simpl in Hc. repeat split; try lia. exact Hc.
    + constructor; [unfold narrow; simpl; lia | exact Hf].
Qed.

Lemma chain_start s e ps : chain s e ps -> s <= e.
Proof.
  revert s. induction ps as [| p ps IH]; intros s Hc; [contradiction |].
  destruct ps as [| q qs].
  - simpl in Hc. lia.
  - destruct Hc as (Hs & Hle & Hc). apply IH in Hc. lia.
Qed.

Lemma coverCount_cons p ps b :
  coverCount (p :: ps) b =
  ((if covers p b then 1 else 0) + coverCount ps b)%nat.
Proof. unfold coverCount. simpl. destruct (covers p b); reflexivity. Qed.

Lemma chain_cover s e ps b :
  chain s e ps ->
  coverCount ps b = if (s <=? b) && (b <=? e) then 1%nat else 0%nat.
Proof.
  revert s. induction ps as [| p ps IH]; intros s Hc; [contradiction |].
  destruct ps as [| q qs].
  - destruct Hc as (Hs & He & Hle). unfold coverCount, covers. simpl.
    rewrite Hs, He. destruct ((s <=? b) && (b <=? e)); reflexivity.
  - destruct Hc as (Hs & Hle & Hc).
    pose proof (chain_start _ _ _ Hc) as Hlt.
    rewrite coverCount_cons, (IH _ Hc). unfold covers.
    destruct (Z.leb_spec (Start p) b), (Z.leb_spec b (End p)),
      (Z.leb_spec s b), (Z.leb_spec b e), (Z.leb_spec (End p + 1) b);
      cbn [andb]; lia.
Qed.

(** The pages of a range with [start <= end] lie end to end from [start]
    to [end], each spans at most [pageSize + 1] blocks, and every block is
    in exactly one page when it is in the range and in none otherwise. *)
Theorem pages_partition startBlock endBlock :
  fits64 startBlock -> fits64 endBlock -> startBlock <= endBlock ->
  chain startBlock endBlock (pages startBlock endBlock)
  /\ Forall (fun p => 1 <= blocks p <= pageSize + 1) (pages startBlock endBlock)
  /\ forall b, coverCount (pages startBlock endBlock) b =
               if (startBlock <=? b) && (b <=? endBlock) then 1%nat else 0%nat.
Proof.
  intros Hs He Hle. unfold pages.
  destruct (@producer_chain endBlock startBlock
              (BigMin (startBlock + pageSize) endBlock)) as [Hc Hn]; trivial.
  - destruct (BigMin_cases (startBlock + pageSize) endBlock) as [[Hm ->] | [Hm ->]];
      unfold pageSize in *; lia.
  - apply BigMin_le_l.
  - split; [exact Hc |]. split.
    + eapply Forall_impl; [| exact Hn]. unfold narrow, blocks. intros p Hp. lia.
    + intros b. apply chain_cover. exact Hc.
Qed.

(** When the start is above the end, the producer sends one page, from
    [start] down to [end]. *)
Lemma pages_reversed startBlock endBlock :
  endBlock < startBlock ->
  pages startBlock endBlock = [mkPage (Int64 startBlock) (Int64 endBlock)].
Proof.
  intros Hlt. unfold pages.
  destruct (BigMin_cases (startBlock + pageSize) endBlock) as [[Hc _] | [_ ->]];
    [unfold pageSize in Hc; lia |].
  simp producer.
  destruct (Z_le_gt_dec endBlock endBlock) as [Hle | Hgt]; [| lia]. simpl.
  destruct (Z.eq_dec endBlock endBlock) as [Heq | Hne]; [| lia]. reflexivity.
Qed.

End PagerFacts.

(** ** Paging a range *)

Section Paging.
Import Int IntFacts Pager PagerFacts.
Variable E : Env.

Lemma run_ProcessBlockRange_Some (startBlock endBlock : Z) (s : State E) :
  run E (ProcessBlockRange startBlock (Some endBlock)) s
  = (Ok (pages startBlock endBlock), s, []).
Proof. reflexivity. Qed.

(** C1, at a concrete range.  [ProcessBlockRange(0, 25000)] sends the pages
    [0, 10000], [10001, 20001] and [20002, 25000]: they lie end to end and
    cover the range, but the first two hold 10,001 blocks each, one more
    than the 10,000 of the claim and of the comment of the function. *)
Theorem ProcessBlockRange_pages_hold_10001_blocks (s : State E) :
  run E (ProcessBlockRange 0 (Some 25000)) s
  = (Ok [mkPage 0 10000; mkPage 10001 20001; mkPage 20002 25000], s, [])
  /\ List.map blocks (pages 0 25000) = [10001; 10001; 4999].
Proof.
  rewrite run_ProcessBlockRange_Some.
  assert (Hp : pages 0 25000 = [mkPage 0 10000; mkPage 10001 20001; mkPage 20002 25000]).
  { unfold pages. repeat (simp producer; simpl). reflexivity. }
  rewrite Hp. split; reflexivity.
Qed.

(** C10.  With the chain at height [H], [ProcessLastBlocks(blocksAgo)]
    fails on [H = 0] after the one call for the height, and for [H > 0]
    it is [ProcessBlockRange(H, H - blocksAgo)], whose start is above its
    end and which sends the single page with [Start = H] and
    [End = H - blocksAgo]. *)
Theorem ProcessLastBlocks_single_reversed_page
    (blocksAgo H : Z) (s s' : State E) :
  respond E EthBlockNumber s = (inr H, s') ->
  0 < blocksAgo <= max_int64 ->
  0 <= H <= max_int64 ->
  (0 < H ->
     run E (ProcessLastBlocks blocksAgo) s
     = (let '(o, s2, t) := run E (ProcessBlockRange H (Some (H - blocksAgo))) s' in
        (o, s2, Ev EthBlockNumber (inr H) :: t))
     /\ H - blocksAgo < H
     /\ run E (ProcessBlockRange H (Some (H - blocksAgo))) s'
        = (Ok [mkPage H (H - blocksAgo)], s', [])
     /\ run E (ProcessLastBlocks blocksAgo) s
        = (Ok [mkPage H (H - blocksAgo)], s', [Ev EthBlockNumber (inr H)]))
  /\ (H = 0 ->
        run E (ProcessLastBlocks blocksAgo) s
        = (Err "current block is unexpectedly 0", s', [Ev EthBlockNumber (inr H)])).
Proof.
  intros Hresp Hago HH.
  assert (HfH : fits64 H) by (unfold fits64, min_int64, max_int64, two63 in *; lia).
  unfold ProcessLastBlocks. rewrite run_bind, run_call, Hresp. simpl.
  rewrite (Int64_fits HfH). split.
  - intros Hpos. destruct (Z.eqb_spec H 0) as [-> | _]; [lia |].
    assert (Hf : fits64 (H - blocksAgo))
      by (unfold fits64, min_int64, max_int64, two63 in *; lia).
    unfold sub64. rewrite (Int64_fits Hf). simpl.
    rewrite pages_reversed by lia.
    rewrite (Int64_fits HfH), (Int64_fits Hf). repeat split. lia.
  - intros ->. reflexivity.
Qed.

End Paging.

Lemma ProcessLastBlocks_single_reversed_page_witness :
  (run (Sample.env Sample.script) (ProcessLastBlocks 100) Sample.start
   = (Ok [Pager.mkPage 5000 4900], Sample.start, [Ev EthBlockNumber (inr 5000)]))
  /\ 4900 < 5000.
Proof.
  destruct (@ProcessLastBlocks_single_reversed_page (Sample.env Sample.script)
              100 5000 Sample.start Sample.start) as [Hpos _].
  - reflexivity.
  - unfold Int.max_int64, Int.two63. lia.
  - unfold Int.max_int64, Int.two63. lia.
  - destruct Hpos as (_ & Hlt & _ & Hrun); [lia |]. split; [exact Hrun | exact Hlt].
Defined.

(** ** The rendering of addresses *)

Module HexFacts.
Import Eth.

Lemma hexByte_zero (u1 u2 : bool) (b : byte) :
  hexDigit u1 (hi b) = "0"%char -> hexDigit u2 (lo b) = "0"%char -> b = x00.
Proof.
  destruct b, u1, u2; vm_compute; intros H1 H2;
    first [reflexivity | discriminate H1 | discriminate H2].
Qed.

Lemma hexChars_zeros (up up' : nat -> bool) (bs : list byte) :
  forall (i j n : nat),
    hexChars up i bs = hexChars up' j (List.repeat x00 n) -> bs = List.repeat x00 n.
Proof.
  induction bs as [| b bs IH]; intros i j [| n] Heq; simpl in Heq.
  - reflexivity.
  - discriminate Heq.
  - discriminate Heq.
  - injection Heq as Hhi Hlo Hrest.
    simpl. f_equal.
    + apply (@hexByte_zero (up i) (up (S i))); [exact Hhi | exact Hlo].
    + eapply IH. exact Hrest.
Qed.

Lemma prefix_0x_inj (x y : string) :
  String.append "0x" x = String.append "0x" y -> x = y.
Proof. simpl. intros Heq. injection Heq as Heq. exact Heq. Qed.

(** An address renders as [ZeroAddress] exactly when it is the zero
    address, whatever the capitals of the rendering. *)
Lemma Hex_zero (checksum : Address -> nat -> bool) (a : Address) :
  Hex checksum a = ZeroAddress <-> a = zeroAddress.
Proof.
  split.
  - unfold Hex. intros Heq.
    assert (Hz : ZeroAddress
                 = String.append "0x" (hexChars (fun _ => false) 0 (List.repeat x00 20)))
      by reflexivity.
    rewrite Hz in Heq. apply prefix_0x_inj in Heq.
    exact (hexChars_zeros _ _ _ _ _ _ Heq).
  - intros ->. reflexivity.
Qed.

End HexFacts.

(** ** Interpreting the events of a contract *)

Section Interpreting.
Import Eth Events Message.
Context `{Helpers}.
Variable E : Env.

Implicit Types (l : Listener.t) (contracts : ContractsRef) (le : Log.t) (blk : Block.t).

Lemma eqb_other (x y : string) : x <> y -> String.eqb x y = false.
Proof. intros Hne. apply String.eqb_neq. exact Hne. Qed.

(** Handing a message to the sink is one call; its answer is how the
    hand-over ends. *)
Lemma run_handler l (m : Message.t) (s : State E) :
  exists (r : option error) (s' : State E) (ev : Event),
    run E (handler l m) s
    = (match r with Some e => Err e | None => Ok tt end, s', [ev])
    /\ sinkCall ev = Some (m, r).
Proof.
  unfold handler. destruct (Listener.hasProxy l); rewrite run_call.
  - destruct (respond E (Publish m) s) as [r s'] eqn:Hr. simpl.
    exists r, s', (Ev (Publish m) r). destruct r; split; reflexivity.
  - destruct (respond E (Handle m) s) as [r s'] eqn:Hr. simpl.
    exists r, s', (Ev (Handle m) r). destruct r; split; reflexivity.
Qed.

Lemma deliveries_handler l (m : Message.t) (s : State E) :
  deliveries (trace (run E (handler l m) s)) = [m].
Proof.
  destruct (run_handler l m s) as (r & s' & ev & -> & Hev).
  unfold deliveries, trace. simpl. rewrite Hev. reflexivity.
Qed.

(** C4.  On [ScannerEnabled] the scanner registry handler decodes the event,
    asks the client for the current state of the scanner and hands over the
    message made from the event with [Enabled] set to the conjunction of the
    current state and the flag of the event: a flag [true] with the current
    state [false] gives [false].  On [AgentEnabled] the agent registry
    handler decodes the event and hands over the message made from the event
    as it is, without asking the client. *)
Theorem enabled_flag_reconciled_for_scanners_only l contracts le blk (s : State E) :
  (forall (se : ScannerEnabled.t) (enabled : bool) (s1 s2 : State E),
      getTopic le = scanner_registry_ScannerEnabledTopic ->
      scanner_registry_ScannerEnabledTopic <> scanner_registry_ScannerUpdatedTopic ->
      respond E (Parse contracts ScannerRegFil ParseScannerEnabled le) s = (inr se, s1) ->
      respond E (ClientIsEnabledScanner
                   (ScannerIDBigIntToHex (ScannerEnabled.ScannerId se))) s1
      = (inr enabled, s2) ->
      let m := NewScannerMessage
                 (ScannerEnabled.withEnabled se (enabled && ScannerEnabled.Enabled se)) blk in
      run E (handleScannerRegistryEvent l contracts le blk) s
      = (let '(o, s3, t) := run E (handler l m) s2 in
         (o, s3,
          Ev (Parse contracts ScannerRegFil ParseScannerEnabled le) (inr se)
          :: Ev (ClientIsEnabledScanner
                   (ScannerIDBigIntToHex (ScannerEnabled.ScannerId se))) (inr enabled)
          :: t))
      /\ deliveries (trace (run E (handleScannerRegistryEvent l contracts le blk) s)) = [m]
      /\ (ScannerEnabled.Enabled se = true -> enabled = false ->
          m = NewScannerMessage (ScannerEnabled.withEnabled se false) blk))
  /\ (forall (ae : AgentEnabled.t) (s1 : State E),
        getTopic le = agent_registry_AgentEnabledTopic ->
        agent_registry_AgentEnabledTopic <> agent_registry_AgentUpdatedTopic ->
        respond E (Parse contracts AgentRegFil ParseAgentEnabled le) s = (inr ae, s1) ->
        run E (handleAgentRegistryEvent l contracts le blk) s
        = (let '(o, s3, t) := run E (handler l (NewAgentMessage ae blk)) s1 in
           (o, s3, Ev (Parse contracts AgentRegFil ParseAgentEnabled le) (inr ae) :: t))
        /\ deliveries (trace (run E (handleAgentRegistryEvent l contracts le blk) s))
           = [NewAgentMessage ae blk]).
Proof.
  split.
  - intros se enabled s1 s2 Ht Hne Hparse Hen m.
    assert (Hrun : run E (handleScannerRegistryEvent l contracts le blk) s
                   = (let '(o, s3, t) := run E (handler l m) s2 in
                      (o, s3,
                       Ev (Parse contracts ScannerRegFil ParseScannerEnabled le) (inr se)
                       :: Ev (ClientIsEnabledScanner
                                (ScannerIDBigIntToHex (ScannerEnabled.ScannerId se)))
                            (inr enabled)
                       :: t))).
    { unfold handleScannerRegistryEvent. rewrite Ht, (eqb_other Hne), String.eqb_refl.
      unfold parse, IsEnabledScanner. cbn [bind].
      rewrite run_call, Hparse. cbn [fst snd orFail bind].
      rewrite run_call, Hen. cbn [fst snd orFail bind].
      subst m. unfold ScannerEnabled.withEnabled.
      match goal with
      | |- context [run E (handler l ?x) s2] =>
          destruct (run E (handler l x) s2) as [[o s3] t]
      end. reflexivity. }
    split; [exact Hrun |]. split.
    + rewrite Hrun. pose proof (deliveries_handler l m s2) as Hd.
      destruct (run E (handler l m) s2) as [[o s3] t]. exact Hd.
    + intros Hflag Hcur. subst m. rewrite Hflag, Hcur. reflexivity.
  - intros ae s1 Ht Hne Hparse.
    assert (Hrun : run E (handleAgentRegistryEvent l contracts le blk) s
                   = (let '(o, s3, t) := run E (handler l (NewAgentMessage ae blk)) s1 in
                      (o, s3,
                       Ev (Parse contracts AgentRegFil ParseAgentEnabled le) (inr ae) :: t))).
    { unfold handleAgentRegistryEvent. rewrite Ht, (eqb_other Hne), String.eqb_refl.
      unfold parse. cbn [bind].
      rewrite run_call, Hparse. cbn [fst snd orFail bind].
      destruct (run E (handler l (NewAgentMessage ae blk)) s1) as [[o s3] t]. reflexivity. }
    split; [exact Hrun |].
    rewrite Hrun. pose proof (deliveries_handler l (NewAgentMessage ae blk) s1) as Hd.
    destruct (run E (handler l (NewAgentMessage ae blk)) s1) as [[o s3] t]. exact Hd.
Qed.

(** C5.  On [Transfer] the scanner pool registry handler decodes the event;
    when the sender is the zero address it returns without a message and
    without an error, and otherwise it hands over one message, the change of
    owner. *)
Theorem pool_transfer_emits_unless_minted l contracts le blk
    (evt : Transfer.t) (s s1 : State E) :
  getTopic le = scanner_pool_registry_TransferTopic ->
  scanner_pool_registry_TransferTopic <> scanner_pool_registry_ScannerUpdatedTopic ->
  scanner_pool_registry_TransferTopic
    <> scanner_pool_registry_ManagedStakeThresholdChangedTopic ->
  respond E (Parse contracts ScannerPoolRegFil ParseTransfer le) s = (inr evt, s1) ->
  let r := run E (handleScannerPoolRegistryEvent l contracts le blk) s in
  (Transfer.From evt = zeroAddress ->
     r = (Ok tt, s1, [Ev (Parse contracts ScannerPoolRegFil ParseTransfer le) (inr evt)])
     /\ deliveries (trace r) = [])
  /\ (Transfer.From evt <> zeroAddress ->
        r = (let '(o, s2, t) :=
               run E (handler l (NewScannerPoolMessageFromTransfer evt blk)) s1 in
             (o, s2, Ev (Parse contracts ScannerPoolRegFil ParseTransfer le) (inr evt) :: t))
        /\ deliveries (trace r) = [NewScannerPoolMessageFromTransfer evt blk]).
Proof.
  intros Ht Hn1 Hn2 Hparse r. subst r.
  unfold handleScannerPoolRegistryEvent.
  rewrite Ht, (eqb_other Hn1), (eqb_other Hn2), String.eqb_refl.
  unfold parse. cbn [bind]. rewrite run_call, Hparse. cbn [fst snd orFail bind].
  split.
  - intros Hzero.
    assert (Hhex : String.eqb (hex (Transfer.From evt)) ZeroAddress = true).
    { apply String.eqb_eq. unfold hex. apply HexFacts.Hex_zero. exact Hzero. }
    rewrite Hhex. simpl. split; reflexivity.
  - intros Hfrom.
    assert (Hhex : String.eqb (hex (Transfer.From evt)) ZeroAddress = false).
    { apply String.eqb_neq. unfold hex. intros Heq. apply Hfrom.
      apply (HexFacts.Hex_zero checksum). exact Heq. }
    rewrite Hhex.
    pose proof (deliveries_handler l (NewScannerPoolMessageFromTransfer evt blk) s1) as Hd.
    destruct (run E (handler l (NewScannerPoolMessageFromTransfer evt blk)) s1)
      as [[o s2] t].
    split; [reflexivity | exact Hd].
Qed.

Lemma run_stakeBySubject l le blk (subjectType subjectID : Z) (changeType : string)
    (value : option Z) (acct : Address) (s : State E) :
  SubjectTypeAgent <> SubjectTypeScanner ->
  SubjectTypeScannerPool <> SubjectTypeScanner ->
  SubjectTypeScannerPool <> SubjectTypeAgent ->
  stakeOutcome E l le blk subjectType subjectID changeType value acct s
    (run E (stakeBySubject l le blk subjectType subjectID changeType value acct) s).
Proof.
  intros Has Hps Hpa. unfold stakeOutcome, stakeBySubject. split; [| split; [| split]].
  - intros ->. rewrite Z.eqb_refl. reflexivity.
  - intros ->. rewrite (proj2 (Z.eqb_neq _ _) Has), Z.eqb_refl. reflexivity.
  - intros ->. rewrite (proj2 (Z.eqb_neq _ _) Hps), (proj2 (Z.eqb_neq _ _) Hpa), Z.eqb_refl.
    reflexivity.
  - intros Hs Ha Hp.
    rewrite (proj2 (Z.eqb_neq _ _) Hs), (proj2 (Z.eqb_neq _ _) Ha),
      (proj2 (Z.eqb_neq _ _) Hp).
    rewrite run_call. split; reflexivity.
Qed.

(** C6.  On [StakeDeposited], [WithdrawalInitiated] and [Slashed] the staking
    handler decodes the event and goes by its subject type ([stakeOutcome]):
    the identifier of the message is the hexadecimal scanner ID, the
    hexadecimal agent ID or the decimal pool ID (["7"] for pool 7), and an
    unknown subject type gives no message and no error. *)
Theorem stake_subject_identifier_by_type l contracts le blk (s : State E) :
  SubjectTypeAgent <> SubjectTypeScanner ->
  SubjectTypeScannerPool <> SubjectTypeScanner ->
  SubjectTypeScannerPool <> SubjectTypeAgent ->
  forta_staking_WithdrawalInitiatedTopic <> forta_staking_StakeDepositedTopic ->
  forta_staking_SlashedTopic <> forta_staking_StakeDepositedTopic ->
  forta_staking_SlashedTopic <> forta_staking_WithdrawalInitiatedTopic ->
  (forall (evt : StakeDeposited.t) (s1 : State E),
      getTopic le = forta_staking_StakeDepositedTopic ->
      respond E (Parse contracts FortaStakingFil ParseStakeDeposited le) s = (inr evt, s1) ->
      exists r,
        run E (handleFortaStakingEvent l contracts le blk) s
        = (outcome r, final r,
           Ev (Parse contracts FortaStakingFil ParseStakeDeposited le) (inr evt) :: trace r)
        /\ stakeOutcome E l le blk (StakeDeposited.SubjectType evt) (StakeDeposited.Subject evt)
             ChangeTypeDeposit (Some (StakeDeposited.Amount evt))
             (StakeDeposited.Account evt) s1 r)
  /\ (forall (evt : WithdrawalInitiated.t) (s1 : State E),
        getTopic le = forta_staking_WithdrawalInitiatedTopic ->
        respond E (Parse contracts FortaStakingFil ParseWithdrawalInitiated le) s
        = (inr evt, s1) ->
        exists r,
          run E (handleFortaStakingEvent l contracts le blk) s
          = (outcome r, final r,
             Ev (Parse contracts FortaStakingFil ParseWithdrawalInitiated le) (inr evt)
             :: trace r)
          /\ stakeOutcome E l le blk (WithdrawalInitiated.SubjectType evt)
               (WithdrawalInitiated.Subject evt) ChangeTypeWithdrawal None noAccount s1 r)
  /\ (forall (evt : Slashed.t) (s1 : State E),
        getTopic le = forta_staking_SlashedTopic ->
        respond E (Parse contracts FortaStakingFil ParseSlashed le) s = (inr evt, s1) ->
        exists r,
          run E (handleFortaStakingEvent l contracts le blk) s
          = (outcome r, final r,
             Ev (Parse contracts FortaStakingFil ParseSlashed le) (inr evt) :: trace r)
          /\ stakeOutcome E l le blk (Slashed.SubjectType evt) (Slashed.Subject evt)
               ChangeTypeSlash (Some (Slashed.Value evt)) noAccount s1 r)
  /\ BigString 7 = "7".
Proof.
  intros Has Hps Hpa Hwd Hsd Hsw. repeat split.
  - intros evt s1 Ht Hparse.
    eexists. split; [| apply run_stakeBySubject; assumption].
    unfold handleFortaStakingEvent. rewrite Ht, String.eqb_refl.
    unfold parse. cbn [bind]. rewrite run_call, Hparse. cbn [fst snd orFail bind].
    match goal with |- context [run E ?p s1] => destruct (run E p s1) as [[o s2] t] end.
    reflexivity.
  - intros evt s1 Ht Hparse.
    eexists. split; [| apply run_stakeBySubject; assumption].
    unfold handleFortaStakingEvent. rewrite Ht, (eqb_other Hwd), String.eqb_refl.
    unfold parse. cbn [bind]. rewrite run_call, Hparse. cbn [fst snd orFail bind].
    match goal with |- context [run E ?p s1] => destruct (run E p s1) as [[o s2] t] end.
    reflexivity.
  - intros evt s1 Ht Hparse.
    eexists. split; [| apply run_stakeBySubject; assumption].
    unfold handleFortaStakingEvent.
    rewrite Ht, (eqb_other Hsd), (eqb_other Hsw), String.eqb_refl.
    unfold parse. cbn [bind]. rewrite run_call, Hparse. cbn [fst snd orFail bind].
    match goal with |- context [run E ?p s1] => destruct (run E p s1) as [[o s2] t] end.
    reflexivity.
Qed.


(** Handing over a list of messages: either every message is handed over, in
    order, and the loop ends well, or the sink refuses the message at some
    index [j]: the messages before it were accepted, the loop returns the
    error and no later message is handed over.  The loop makes no other
    call. *)
Lemma run_handleEach l (ms : list Message.t) (s : State E) :
  let r := run E (handleEach l ms) s in
  (outcome r = Ok tt
   /\ sinkCalls (trace r) = List.map delivered ms
   /\ List.length (trace r) = List.length ms)
  \/ (exists (j : nat) (mj : Message.t) (e : error),
         List.nth_error ms j = Some mj
         /\ outcome r = Err e
         /\ sinkCalls (trace r) = List.map delivered (List.firstn j ms) ++ [(mj, Some e)]
         /\ List.length (trace r) = S j).
Proof.
  revert s. induction ms as [| m ms IH]; intros s; cbn zeta.
  - left. repeat split.
  - cbn [handleEach]. rewrite run_bind.
    destruct (run_handler l m s) as (r0 & s' & ev & -> & Hev).
    destruct r0 as [e |].
    + right. exists 0%nat, m, e. cbn. rewrite Hev. repeat split.
    + specialize (IH s'). cbn zeta in IH.
      destruct (run E (handleEach l ms) s') as [[o s2] t].
      unfold outcome, trace in *. cbn [fst snd] in *.
      destruct IH as [(Ho & Hc & Hl) | (j & mj & e & Hj & Ho & Hc & Hl)].
      * left. cbn. rewrite Hev, Hc, Hl. repeat split. exact Ho.
      * right. exists (S j), mj, e. cbn. rewrite Hev, Hc, Hl. repeat split; assumption.
Qed.

(** C7.  On [TransferBatch] the staking handler decodes the event, has it
    converted into share-transfer messages, one for each of the [K]
    transferred entries, and hands them over one at a time in order: all [K]
    when the sink accepts them, and when the sink refuses the message at
    index [j] it returns that error with no later message handed over. *)
Theorem batch_transfer_delivers_each_in_order l contracts le blk
    (evt : TransferBatch.t) (ms : list Message.t) (s s1 : State E) :
  getTopic le = forta_staking_TransferBatchTopic ->
  forta_staking_TransferBatchTopic <> forta_staking_StakeDepositedTopic ->
  forta_staking_TransferBatchTopic <> forta_staking_WithdrawalInitiatedTopic ->
  forta_staking_TransferBatchTopic <> forta_staking_SlashedTopic ->
  forta_staking_TransferBatchTopic <> forta_staking_TransferSingleTopic ->
  respond E (Parse contracts FortaStakingFil ParseTransferBatch le) s = (inr evt, s1) ->
  TransferSharesMessagesFromBatch le evt blk = inr ms ->
  List.length ms = List.length (TransferBatch.Ids evt) ->
  let K := List.length (TransferBatch.Ids evt) in
  let r := run E (handleFortaStakingEvent l contracts le blk) s in
  (outcome r = Ok tt
   /\ sinkCalls (trace r) = List.map delivered ms
   /\ List.length (deliveries (trace r)) = K
   /\ List.length (trace r) = S K)
  \/ (exists (j : nat) (mj : Message.t) (e : error),
         (j < K)%nat
         /\ List.nth_error ms j = Some mj
         /\ outcome r = Err e
         /\ sinkCalls (trace r) = List.map delivered (List.firstn j ms) ++ [(mj, Some e)]
         /\ List.length (trace r) = S (S j)).
Proof.
  intros Ht Hn1 Hn2 Hn3 Hn4 Hparse Hms Hlen K r. subst K r.
  unfold handleFortaStakingEvent.
  rewrite Ht, (eqb_other Hn1), (eqb_other Hn2), (eqb_other Hn3), (eqb_other Hn4),
    String.eqb_refl.
  unfold parse. cbn [bind]. rewrite run_call, Hparse. cbn [fst snd orFail bind].
  rewrite Hms. cbn [orFail bind].
  pose proof (run_handleEach l ms s1) as Hloop. cbn zeta in Hloop.
  destruct (run E (handleEach l ms) s1) as [[o s2] t].
  unfold outcome, trace, deliveries in *. cbn [fst snd sinkCalls sinkCall opOf] in *.
  destruct Hloop as [(Ho & Hc & Hl) | (j & mj & e & Hj & Ho & Hc & Hl)].
  - left. rewrite Hc, List.length_map, List.length_map. cbn [List.length].
    rewrite Hl, Hlen. repeat split. exact Ho.
  - right. exists j, mj, e. cbn [List.length]. rewrite Hl, <- Hlen.
    repeat split; try assumption.
    apply List.nth_error_Some. rewrite Hj. discriminate.
Qed.


End Interpreting.

(** ** The address filter *)

Section Filter.
Import Eth.
Context `{Helpers}.
Variable E : Env.

Lemma run_addEach (addrs : list string) (s : State E) :
  exists s', run E (addEach addrs) s = (Ok tt, s', List.map added addrs).
Proof.
  revert s. induction addrs as [| a addrs IH]; intros s.
  - exists s. reflexivity.
  - cbn [addEach]. rewrite run_call.
    destruct (IH (snd (respond E (AddAddress a) s))) as [s' ->].
    exists s'. cbn [List.map]. unfold added.
    destruct (fst (respond E (AddAddress a) s)). reflexivity.
Qed.

(** [setLogFilterAddrs] reads the addresses of the registry and, when the
    filter selects none of them, panics before any address is added;
    otherwise it adds each selected address, in order. *)
Lemma run_setLogFilterAddrs (l : Listener.t) (c : ContractsRef)
    (rc : RegistryContracts.t) (s s1 s2 : State E) :
  respond E ClientContracts s = (c, s1) ->
  respond E (ReadAddresses c) s1 = (rc, s2) ->
  let addrs := filterAddrs (ListenerConfig.ContractFilter (Listener.cfg l)) rc in
  (addrs = [] ->
     run E (setLogFilterAddrs l) s
     = (Panicked "empty filter", s2, [Ev ClientContracts c; Ev (ReadAddresses c) rc]))
  /\ (addrs <> [] ->
        exists s3,
          run E (setLogFilterAddrs l) s
          = (Ok tt, s3,
             Ev ClientContracts c :: Ev (ReadAddresses c) rc :: List.map added addrs)).
Proof.
  intros Hc Hr addrs. unfold setLogFilterAddrs. cbn [bind].
  rewrite run_call, Hc. cbn [fst snd]. rewrite run_call, Hr. cbn [fst snd].
  fold addrs. split.
  - intros ->. reflexivity.
  - intros Hne. destruct addrs as [| a rest] eqn:Ha; [contradiction |].
    cbn [List.length Nat.eqb].
    destruct (run_addEach (a :: rest) s2) as [s3 ->]. exists s3. reflexivity.
Qed.

(** C8.  [NewListenerWithClients] makes the feed and then sets the address
    filter.  When the filter of the configuration selects no address of the
    registry, the construction does not return a listener: once the feed is
    made it panics with "empty filter", and no address is added to the feed.
    When at least one address is selected, it does not panic, and once the
    feed is made it returns the listener after adding the selected
    addresses. *)
Theorem empty_filter_fails_construction (cfg : ListenerConfig.t) (proxy : bool)
    (feedErr : option error) (c : ContractsRef) (rc : RegistryContracts.t)
    (s s0 s1 s2 : State E) :
  respond E (NewLogFeed (logFeedConfig cfg)) s = (feedErr, s0) ->
  respond E ClientContracts s0 = (c, s1) ->
  respond E (ReadAddresses c) s1 = (rc, s2) ->
  let addrs := filterAddrs (ListenerConfig.ContractFilter cfg) rc in
  let r := run E (NewListenerWithClients cfg proxy) s in
  (addrs = [] ->
     (forall li, outcome r <> Ok li)
     /\ (feedErr = None -> outcome r = Panicked "empty filter")
     /\ List.existsb isAddAddress (trace r) = false)
  /\ (addrs <> [] ->
        (forall m, outcome r <> Panicked m)
        /\ (feedErr = None ->
            outcome r = Ok (Listener.mk cfg proxy)
            /\ trace r
               = Ev (NewLogFeed (logFeedConfig cfg)) None
                 :: Ev ClientContracts c :: Ev (ReadAddresses c) rc
                 :: List.map added addrs)).
Proof.
  intros Hfeed Hc Hr addrs r. subst r.
  unfold NewListenerWithClients. rewrite run_bind, run_call.
  change (LogFeedConfig.mk _ _ _ _) with (logFeedConfig cfg). rewrite Hfeed.
  cbn [fst snd].
  destruct (@run_setLogFilterAddrs (Listener.mk cfg proxy) c rc s0 s1 s2 Hc Hr)
    as [Hempty Hsome].
  cbn [Listener.cfg] in Hempty, Hsome. fold addrs in Hempty, Hsome.
  destruct feedErr as [e |]; cbn [nilOrFail run]; split.
  - intros _. repeat split; [intros li; discriminate | discriminate].
  - intros _. split; [intros m; discriminate | discriminate].
  - intros Ha. rewrite run_bind, (Hempty Ha). cbn.
    repeat split. intros li. discriminate.
  - intros Ha. destruct (Hsome Ha) as [s3 Hrun]. rewrite run_bind, Hrun. cbn.
    rewrite List.app_nil_r. repeat split. intros m. discriminate.
Qed.

End Filter.

(** ** Routing a log *)

Section Routing.
Import Eth.
Context `{Helpers}.
Variable E : Env.

Implicit Types (l : Listener.t) (contracts : ContractsRef) (le : Log.t) (blk : Block.t).

Lemma Within_bind {A B : Type} (Q : Op -> Prop) (P : string -> Prop)
    (p : Prog A) (f : A -> Prog B) :
  Within Q P p -> (forall a, Within Q P (f a)) -> Within Q P (bind p f).
Proof.
  intros Hp Hf. induction Hp as [a | e | m Hm | op k Hq Hk IH]; cbn [bind].
  - apply Hf.
  - constructor.
  - constructor. exact Hm.
  - constructor; [exact Hq | exact IH].
Qed.

Lemma Within_run {A : Type} (Q : Op -> Prop) (P : string -> Prop) (p : Prog A) :
  Within Q P p ->
  forall s : State E,
    Forall (fun ev => Q (opOf ev)) (trace (run E p s))
    /\ (forall m, outcome (run E p s) = Panicked m -> P m).
Proof.
  induction 1 as [a | e | m Hm | op k Hq Hk IH]; intros s.
  - split; [constructor | discriminate].
  - split; [constructor | discriminate].
  - split; [constructor |]. intros m' Heq. injection Heq as <-. exact Hm.
  - rewrite run_call. specialize (IH (fst (respond E op s)) (snd (respond E op s))).
    destruct (run E (k (fst (respond E op s))) (snd (respond E op s))) as [[o s2] t].
    unfold trace, outcome in *. cbn [fst snd] in *. destruct IH as [Ht Ho].
    split; [constructor; [exact Hq | exact Ht] | exact Ho].
Qed.

Lemma Within_weaken {A : Type} (Q Q' : Op -> Prop) (P P' : string -> Prop) (p : Prog A) :
  (forall op, Q op -> Q' op) -> (forall m, P m -> P' m) ->
  Within Q P p -> Within Q' P' p.
Proof.
  intros HQ HP. induction 1 as [a | e | m Hm | op k Hq Hk IH]; constructor; auto.
Qed.

Lemma roleCall_handlerCall (f : Filterer) (op : Op) : roleCall f op -> handlerCall op.
Proof. destruct op; cbn; trivial. Qed.

Lemma roleCall_notBy (f : Filterer) (op : Op) : roleCall f op -> notBy f op.
Proof. destruct op; cbn; trivial. Qed.

Ltac within :=
  repeat first
    [ apply Within_Return
    | apply Within_Fail
    | apply Within_bind; [| intros ?]
    | apply Within_Call; [cbn; first [exact I | congruence] | intros ?]
    | match goal with
      | |- Within _ _ (if ?b then _ else _) => destruct b
      | |- Within _ _ (orFail ?r) => destruct r
      | |- Within _ _ (nilOrFail ?r) => destruct r
      | |- Within _ _ (match ?r with inl _ => _ | inr _ => _ end) => destruct r
      end ].

Lemma Within_handler (Q : Op -> Prop) l (m : Message.t) :
  (forall m', Q (Publish m')) -> (forall m', Q (Handle m')) ->
  Within Q never (handler l m).
Proof.
  intros Hp Hh. unfold handler.
  destruct (Listener.hasProxy l); apply Within_Call; auto; intros [e |]; constructor.
Qed.

Lemma Within_handleEach (f : Filterer) l (ms : list Message.t) :
  Within (roleCall f) never (handleEach l ms).
Proof.
  induction ms as [| m ms IH]; cbn [handleEach]; [constructor |].
  apply Within_bind; [apply Within_handler; intros; exact I | intros _; exact IH].
Qed.

Ltac handlers f :=
  repeat first
    [ apply Within_handler; intros; exact I
    | apply (Within_handleEach f)
    | progress within ].

Lemma Within_ScannerRegistry (f : Filterer) l contracts le blk :
  f <> ScannerRegFil ->
  Within (roleCall f) never (handleScannerRegistryEvent l contracts le blk).
Proof.
  intros Hf. unfold handleScannerRegistryEvent, parse, IsEnabledScanner.
  cbv zeta. handlers f.
Qed.

Lemma Within_ScannerVersion (f : Filterer) l contracts le blk :
  f <> ScannerVersionFil ->
  Within (roleCall f) never (handleScannerVersionEvent l contracts le blk).
Proof.
  intros Hf. unfold handleScannerVersionEvent, parse.
  cbv zeta. handlers f.
Qed.

Lemma Within_AgentRegistry (f : Filterer) l contracts le blk :
  f <> AgentRegFil ->
  Within (roleCall f) never (handleAgentRegistryEvent l contracts le blk).
Proof.
  intros Hf. unfold handleAgentRegistryEvent, parse, GetAgent.
  cbv zeta. handlers f.
Qed.

Lemma Within_Dispatch (f : Filterer) l contracts le blk :
  f <> DispatchFil ->
  Within (roleCall f) never (handleDispatchEvent l contracts le blk).
Proof.
  intros Hf. unfold handleDispatchEvent, parse.
  cbv zeta. handlers f.
Qed.

Lemma Within_FortaStaking (f : Filterer) l contracts le blk :
  f <> FortaStakingFil ->
  Within (roleCall f) never (handleFortaStakingEvent l contracts le blk).
Proof.
  intros Hf. unfold handleFortaStakingEvent, stakeBySubject, parse.
  cbv zeta. handlers f.
Qed.

Lemma Within_ScannerPoolRegistry (f : Filterer) l contracts le blk :
  f <> ScannerPoolRegFil ->
  Within (roleCall f) never (handleScannerPoolRegistryEvent l contracts le blk).
Proof.
  intros Hf. unfold handleScannerPoolRegistryEvent, parse, IsEnabledScanner.
  cbv zeta. handlers f.
Qed.

Lemma Within_StakeAllocator (f : Filterer) l contracts le blk :
  f <> StakeAllocatorFil ->
  Within (roleCall f) never (handleStakeAllocatorEvent l contracts le blk).
Proof.
  intros Hf. unfold handleStakeAllocatorEvent, parse.
  cbv zeta. handlers f.
Qed.

Lemma Within_routeByAddress l contracts (addrs : RegistryContracts.t) le blk :
  Within handlerCall never (routeByAddress l contracts addrs le blk)
  /\ (RegistryContracts.ScannerPoolRegistry addrs = None ->
      Within (roleCall ScannerPoolRegFil) never (routeByAddress l contracts addrs le blk))
  /\ (RegistryContracts.StakeAllocator addrs = None ->
      Within (roleCall StakeAllocatorFil) never (routeByAddress l contracts addrs le blk)).
Proof.
  assert (Hany : forall f (p : Prog unit),
             Within (roleCall f) never p -> Within handlerCall never p).
  { intros f p. apply (@Within_weaken unit); [apply roleCall_handlerCall | trivial]. }
  unfold routeByAddress, andAlso, notNil, ptrHex. cbv zeta.
  destruct (RegistryContracts.ScannerPoolRegistry addrs) as [pool |],
    (RegistryContracts.StakeAllocator addrs) as [alloc |]; cbn [bind];
    (split; [| split]); try discriminate; intros;
    repeat match goal with
      | |- Within _ _ (if ?b then _ else _) => destruct b
      | |- Within _ _ (Return _) => constructor
      end;
    first
      [ apply Within_ScannerRegistry; discriminate
      | apply Within_ScannerVersion; discriminate
      | apply Within_AgentRegistry; discriminate
      | apply Within_Dispatch; discriminate
      | apply Within_FortaStaking; discriminate
      | apply Within_ScannerPoolRegistry; discriminate
      | apply Within_StakeAllocator; discriminate
      | apply (Hany StakeAllocatorFil); apply Within_ScannerRegistry; discriminate
      | apply (Hany StakeAllocatorFil); apply Within_ScannerVersion; discriminate
      | apply (Hany StakeAllocatorFil); apply Within_AgentRegistry; discriminate
      | apply (Hany StakeAllocatorFil); apply Within_Dispatch; discriminate
      | apply (Hany StakeAllocatorFil); apply Within_FortaStaking; discriminate
      | apply (Hany StakeAllocatorFil); apply Within_ScannerPoolRegistry; discriminate
      | apply (Hany ScannerPoolRegFil); apply Within_StakeAllocator; discriminate ].
Qed.

Lemma Within_addEach (addrs : list string) : Within filterCall never (addEach addrs).
Proof.
  induction addrs as [| a addrs IH]; cbn [addEach]; [constructor |].
  apply Within_Call; [exact I | intros _; exact IH].
Qed.

Lemma Within_setLogFilterAddrs l : Within filterCall emptyFilter (setLogFilterAddrs l).
Proof.
  unfold setLogFilterAddrs.
  apply Within_bind; [apply Within_Call; [exact I | intros c; constructor] | intros c].
  apply Within_bind; [apply Within_Call; [exact I | intros rc; constructor] | intros rc].
  cbv zeta. destruct (List.length _ =? 0)%nat; [constructor; reflexivity |].
  apply (@Within_weaken unit filterCall _ never); [trivial | intros ? [] |].
  apply Within_addEach.
Qed.

Lemma Within_decodeAndEmit l contracts le blk :
  Within afterFilterCall never (decodeAndEmit l contracts le blk).
Proof.
  unfold decodeAndEmit, parse.
  apply Within_bind; [apply Within_Call; [exact I | intros [e | up]; constructor] |].
  intros up. apply Within_handler; intros; exact I.
Qed.

Lemma Within_routeStep l blk le contracts :
  Within afterFilterCall never (routeStep l blk le contracts).
Proof.
  unfold routeStep.
  apply Within_bind; [apply Within_Call; [exact I | intros rc; constructor] | intros rc].
  apply (@Within_weaken unit handlerCall _ never never);
    [intros op; destruct op; cbn; trivial | trivial |].
  apply Within_routeByAddress.
Qed.

Lemma Within_handleLog l blk le :
  Within (fun _ => True) emptyFilter (handleLog l blk le).
Proof.
  unfold handleLog.
  apply Within_bind;
    [apply Within_Call; [exact I | intros [e |]; constructor] | intros _].
  apply Within_bind; [apply Within_Call; [exact I | intros c; constructor] | intros c].
  apply Within_bind.
  - unfold handleUpgradeEvent.
    destruct (negb (String.eqb (getTopic le) UpgradedTopic)); [constructor |].
    apply Within_bind;
      [apply Within_Call; [exact I | intros [e |]; constructor] | intros _].
    apply Within_bind.
    + apply (@Within_weaken unit filterCall _ emptyFilter emptyFilter); trivial.
      apply Within_setLogFilterAddrs.
    + intros _. apply (@Within_weaken unit afterFilterCall _ never); [trivial | intros ? [] |].
      apply Within_decodeAndEmit.
  - intros _. apply (@Within_weaken unit afterFilterCall _ never); [trivial | intros ? [] |].
    apply (Within_routeStep l blk le c).
Qed.

(** C9.  The address tests of [handleLog] never panic, whichever roles are
    absent: no nil address is read.  When the scanner pool registry is
    absent, nothing is decoded with its filterer, and a log that is at none
    of the five earlier addresses goes on to the test of the stake allocator
    as if the scanner pool registry were not in the list; likewise when the
    stake allocator is absent.  [handleLog] as a whole can only panic with
    "empty filter", from the upgrade check. *)
Theorem absent_roles_are_skipped l contracts (addrs : RegistryContracts.t) le blk
    (s : State E) :
  let r := run E (routeByAddress l contracts addrs le blk) s in
  (forall m, outcome r <> Panicked m)
  /\ (RegistryContracts.ScannerPoolRegistry addrs = None ->
      Forall (fun ev => notBy ScannerPoolRegFil (opOf ev)) (trace r)
      /\ (matchesEarlier addrs le = false ->
          r = match RegistryContracts.StakeAllocator addrs with
              | Some a =>
                  if equalsAddress (Log.Address le) (hex a)
                  then run E (handleStakeAllocatorEvent l contracts le blk) s
                  else (Ok tt, s, [])
              | None => (Ok tt, s, [])
              end))
  /\ (RegistryContracts.StakeAllocator addrs = None ->
      Forall (fun ev => notBy StakeAllocatorFil (opOf ev)) (trace r)
      /\ (matchesEarlier addrs le = false ->
          r = match RegistryContracts.ScannerPoolRegistry addrs with
              | Some a =>
                  if equalsAddress (Log.Address le) (hex a)
                  then run E (handleScannerPoolRegistryEvent l contracts le blk) s
                  else (Ok tt, s, [])
              | None => (Ok tt, s, [])
              end))
  /\ (forall (s0 : State E) (m : string),
         outcome (run E (handleLog l blk le) s0) = Panicked m -> m = "empty filter").
Proof.
  intros r. subst r.
  destruct (Within_routeByAddress l contracts addrs le blk) as (Hany & Hpool & Halloc).
  assert (Hearlier : matchesEarlier addrs le = false ->
            run E (routeByAddress l contracts addrs le blk) s
            = run E (isPool <- andAlso (notNil (RegistryContracts.ScannerPoolRegistry addrs))
                                 (h <- ptrHex (RegistryContracts.ScannerPoolRegistry addrs) ;;
                                  Return (equalsAddress (Log.Address le) h)) ;;
                     if isPool : bool then handleScannerPoolRegistryEvent l contracts le blk
                     else
                       isAllocator <- andAlso (notNil (RegistryContracts.StakeAllocator addrs))
                                        (h <- ptrHex (RegistryContracts.StakeAllocator addrs) ;;
                                         Return (equalsAddress (Log.Address le) h)) ;;
                       if isAllocator : bool then handleStakeAllocatorEvent l contracts le blk
                       else Return tt) s).
  { unfold matchesEarlier, routeByAddress. cbv zeta. intros Hm.
    repeat (apply Bool.orb_false_elim in Hm; destruct Hm as [Hm ?]).
    repeat match goal with Hx : equalsAddress _ _ = false |- _ => rewrite Hx; clear Hx end.
    reflexivity. }
  split; [| split; [| split]].
  - intros m Hm. apply (Within_run Hany s) in Hm. exact Hm.
  - intros Hnone. split.
    + eapply Forall_impl; [| apply (Within_run (Hpool Hnone) s)].
      intros ev. apply roleCall_notBy.
    + intros Hm. rewrite (Hearlier Hm), Hnone. cbn [andAlso notNil bind].
      destruct (RegistryContracts.StakeAllocator addrs) as [a |]; cbn [andAlso notNil ptrHex bind].
      * destruct (equalsAddress (Log.Address le) (hex a)); reflexivity.
      * reflexivity.
  - intros Hnone. split.
    + eapply Forall_impl; [| apply (Within_run (Halloc Hnone) s)].
      intros ev. apply roleCall_notBy.
    + intros Hm. rewrite (Hearlier Hm), Hnone.
      destruct (RegistryContracts.ScannerPoolRegistry addrs) as [a |];
        cbn [andAlso notNil ptrHex bind].
      * destruct (equalsAddress (Log.Address le) (hex a)); reflexivity.
      * reflexivity.
  - intros s0 m.
    pose proof (Within_handleLog l blk le) as Hlog.
    apply (Within_run Hlog s0).
Qed.


(** [handleLog] is its upgrade step followed, when that step returns no
    error, by the routing step. *)
Lemma run_handleLog_steps l blk le (s : State E) :
  run E (handleLog l blk le) s
  = match run E (upgradeStep l blk le) s with
    | (Ok contracts, s1, t1) =>
        let '(o, s2, t2) := run E (routeStep l blk le contracts) s1 in (o, s2, t1 ++ t2)
    | (Err e, s1, t1) => (Err e, s1, t1)
    | (Panicked m, s1, t1) => (Panicked m, s1, t1)
    end.
Proof.
  unfold handleLog, upgradeStep.
  rewrite !run_bind.
  destruct (run E (Call CtxErr nilOrFail) s) as [[[[] | e | m] s1] t1]; try reflexivity.
  rewrite !run_bind.
  destruct (run E (Call ClientContracts (@Return _)) s1) as [[[c | e | m] s2] t2];
    try reflexivity.
  rewrite !run_bind.
  destruct (run E (handleUpgradeEvent l c le blk) s2) as [[[[] | e | m] s3] t3];
    try reflexivity.
  cbn [run]. rewrite !List.app_nil_r. unfold routeStep.
  match goal with
  | |- context [run E ?p s3] => destruct (run E p s3) as [[o s4] t4]
  end.
  rewrite !List.app_assoc. reflexivity.
Qed.

(** A worker that holds the block of a log handles the log without a call of
    its own, and goes on to the later logs only when [handleLog] returns no
    error: the calls for the later logs come after all the calls for this
    one. *)
Lemma run_handleLogs_held l blk le (rest : list Log.t) (s : State E) :
  Block.Number blk = BigIntToHex (Int.Int64 (Log.BlockNumber le)) ->
  run E (handleLogs l (Some blk) (le :: rest)) s
  = match run E (handleLog l blk le) s with
    | (Ok _, s1, t1) =>
        let '(o, s2, t2) := run E (handleLogs l (Some blk) rest) s1 in (o, s2, t1 ++ t2)
    | (Err e, s1, t1) => (Err e, s1, t1)
    | (Panicked m, s1, t1) => (Panicked m, s1, t1)
    end.
Proof.
  intros Hnum. cbn [handleLogs]. cbv zeta. rewrite Hnum, String.eqb_refl.
  cbn [bind]. rewrite run_bind. reflexivity.
Qed.

Lemma no_refresh_among (Q : Op -> Prop) (t : list Event) :
  (forall op, Q op -> op <> ClientRefreshContracts) ->
  Forall (fun ev => Q (opOf ev)) t -> List.filter isRefresh t = [].
Proof.
  intros HQ Ht. induction Ht as [| ev t Hev _ IH]; [reflexivity |].
  cbn [List.filter]. rewrite IH. unfold isRefresh.
  specialize (HQ _ Hev). destruct (opOf ev); try reflexivity. contradiction.
Qed.

(** C2, as amended.  Handling a log whose topic is [UpgradedTopic].  When
    the context is done, the log is not handled: the error of the context is
    returned and no refresh is made.  Otherwise, after the entry of
    [handleLog], the first call is [RefreshContracts], and it is the only
    refresh of the run.  When the refresh fails, its error is returned and
    nothing else is called: the filter is not set again.  When it succeeds,
    the address filter is set again: the contracts and their addresses are
    read anew ([reads]), and each address the filter of the configuration
    selects among them is added to the feed, in order ([A]); when none is
    selected, handling panics with "empty filter" and nothing is decoded.
    Only when the addresses are added is the event decoded by the filterer
    of the dispatch contract, the upgrade message made from it handed to the
    sink, and the log routed ([D]); a failed decoding or a refusal of the
    sink ends the handling with that error.  [D] makes no refresh and adds
    no address.  In a page of logs, the calls for the later logs all come
    after those of this log. *)
Theorem upgrade_refreshes_once_then_sets_filter_before_decoding l blk le (s : State E) :
  getTopic le = UpgradedTopic ->
  let a0 := respond E CtxErr s in
  let a1 := respond E ClientContracts (snd a0) in
  let a2 := respond E ClientRefreshContracts (snd a1) in
  let a3 := respond E ClientContracts (snd a2) in
  let a4 := respond E (ReadAddresses (fst a3)) (snd a3) in
  let c := fst a1 in
  let entry := [Ev CtxErr None; Ev ClientContracts c; Ev ClientRefreshContracts (fst a2)] in
  let reads := [Ev ClientContracts (fst a3); Ev (ReadAddresses (fst a3)) (fst a4)] in
  let addrs := filterAddrs (ListenerConfig.ContractFilter (Listener.cfg l)) (fst a4) in
  let A := run E (addEach addrs) (snd a4) in
  let D := run E (decodeAndEmit l c le blk ;; routeStep l blk le c) (final A) in
  let a5 := respond E (Parse c DispatchFil ParseUpgraded le) (final A) in
  let decoded := Ev (Parse c DispatchFil ParseUpgraded le) (fst a5) in
  let R := run E (handleLog l blk le) s in
  R = match fst a0, fst a2, addrs with
      | Some e, _, _ => (Err e, snd a0, [Ev CtxErr (Some e)])
      | None, Some e, _ => (Err e, snd a2, entry)
      | None, None, [] => (Panicked "empty filter", snd a4, entry ++ reads)
      | None, None, _ :: _ =>
          (outcome D, final D, entry ++ reads ++ List.map added addrs ++ trace D)
      end
  /\ (outcome A = Ok tt /\ trace A = List.map added addrs)
  /\ D = match fst a5 with
         | inl e => (Err e, snd a5, [decoded])
         | inr upgraded =>
             let M := run E (handler l (Message.NewUpgradeMessage upgraded le blk))
                        (snd a5) in
             match outcome M with
             | Ok _ =>
                 let T := run E (routeStep l blk le c) (final M) in
                 (outcome T, final T, decoded :: trace M ++ trace T)
             | Err e => (Err e, final M, decoded :: trace M)
             | Panicked m => (Panicked m, final M, decoded :: trace M)
             end
         end
  /\ (forall (upgraded : Events.Decoded.t) (s' : State E),
        deliveries (trace (run E (handler l (Message.NewUpgradeMessage upgraded le blk)) s'))
        = [Message.NewUpgradeMessage upgraded le blk])
  /\ List.length (List.filter isRefresh (trace R))
     = match fst a0 with Some _ => 0%nat | None => 1%nat end
  /\ Forall (fun ev => afterFilterCall (opOf ev)) (trace D)
  /\ (Block.Number blk = BigIntToHex (Int.Int64 (Log.BlockNumber le)) ->
      forall rest : list Log.t,
        run E (handleLogs l (Some blk) (le :: rest)) s
        = match R with
          | (Ok _, s', t) =>
              let '(o, s'', t') := run E (handleLogs l (Some blk) rest) s' in
              (o, s'', t ++ t')
          | (Err e, s', t) => (Err e, s', t)
          | (Panicked m, s', t) => (Panicked m, s', t)
          end).
Proof.
  intros Ht. cbv zeta.
  destruct (respond E CtxErr s) as [ctx s0] eqn:Hctx. cbn [fst snd].
  destruct (respond E ClientContracts s0) as [c s1] eqn:Hc. cbn [fst snd].
  destruct (respond E ClientRefreshContracts s1) as [r s2] eqn:Href. cbn [fst snd].
  destruct (respond E ClientContracts s2) as [c' s3] eqn:Hc'. cbn [fst snd].
  destruct (respond E (ReadAddresses c') s3) as [rc s4] eqn:Hrc. cbn [fst snd].
  set (addrs := filterAddrs (ListenerConfig.ContractFilter (Listener.cfg l)) rc).
  destruct (run_addEach E addrs s4) as [sA HA]. rewrite HA.
  cbn [outcome final trace fst snd].
  set (D := run E (decodeAndEmit l c le blk ;; routeStep l blk le c) sA).
  set (R := run E (handleLog l blk le) s).
  set (entry := [Ev CtxErr None; Ev ClientContracts c; Ev ClientRefreshContracts r]).
  set (reads := [Ev ClientContracts c'; Ev (ReadAddresses c') rc]).
  assert (HD : Forall (fun ev => afterFilterCall (opOf ev)) (trace D)).
  { apply (@Within_run unit afterFilterCall never).
    apply Within_bind; [apply Within_decodeAndEmit | intros _; apply Within_routeStep]. }
  assert (HR : R = match ctx, r, addrs with
                   | Some e, _, _ => (Err e, s0, [Ev CtxErr (Some e)])
                   | None, Some e, _ => (Err e, s2, entry)
                   | None, None, [] => (Panicked "empty filter", s4, entry ++ reads)
                   | None, None, _ :: _ =>
                       (outcome D, final D,
                        entry ++ reads ++ List.map added addrs ++ trace D)
                   end).
  { subst R. unfold handleLog, handleUpgradeEvent.
    rewrite Ht, String.eqb_refl. cbn [negb].
    rewrite run_bind, run_call, Hctx. cbn [fst snd].
    destruct ctx as [e |]; cbn [nilOrFail run]; [reflexivity |].
    rewrite run_bind, run_call, Hc. cbn [fst snd run].
    rewrite !run_bind, run_call, Href. cbn [fst snd].
    destruct r as [e |]; cbn [nilOrFail run]; [reflexivity |].
    unfold setLogFilterAddrs. rewrite !run_bind, run_call, Hc'. cbn [fst snd run].
    rewrite !run_bind, run_call, Hrc. cbn [fst snd run]. fold addrs.
    destruct addrs as [| a rest] eqn:Haddrs; cbn [List.length Nat.eqb run];
      [reflexivity |].
    rewrite HA. subst D entry reads. unfold decodeAndEmit, routeStep.
    rewrite !run_bind.
    match goal with
    | |- context [run E ?p sA] => destruct (run E p sA) as [[[up | e | m] s5] t5]
    end; cbn [outcome final trace fst snd]; try reflexivity.
    match goal with
    | |- context [run E ?p s5] => destruct (run E p s5) as [[[[] | e | m] s6] t6]
    end; cbn [outcome final trace fst snd]; try reflexivity.
    match goal with
    | |- context [run E ?p s6] => destruct (run E p s6) as [[o s7] t7]
    end. cbn. rewrite <- !List.app_assoc. reflexivity. }
  split; [exact HR |]. split; [split; reflexivity |].
  split; [| split; [intros upgraded s'; apply deliveries_handler |]].
  { subst D. unfold decodeAndEmit, parse. rewrite !run_bind, run_call.
    destruct (respond E (Parse c DispatchFil ParseUpgraded le) sA) as [[e | up] s5];
      cbn [fst snd orFail run]; [reflexivity |].
    destruct (run E (handler l (Message.NewUpgradeMessage up le blk)) s5)
      as [[[[] | e | m] s6] t6]; cbn [outcome final trace fst snd]; try reflexivity.
    destruct (run E (routeStep l blk le c) s6) as [[o s7] t7].
    reflexivity. }
  split; [| split; [exact HD |]].
  - rewrite HR.
    assert (HnA : List.filter isRefresh (List.map added addrs) = []).
    { clear. induction addrs as [| a rest IH]; [reflexivity | exact IH]. }
    assert (HnD : List.filter isRefresh (trace D) = []).
    { apply (no_refresh_among afterFilterCall); [| exact HD].
      intros op Hop ->. exact Hop. }
    destruct ctx as [e |]; [reflexivity |].
    destruct r as [e |]; [reflexivity |].
    destruct addrs as [| a rest]; [reflexivity |].
    unfold trace at 1; cbn [snd].
    rewrite !List.filter_app, HnA, HnD. reflexivity.
  - intros Hnum rest. apply run_handleLogs_held. exact Hnum.
Qed.

(** C3, as amended.  Handling a log is its upgrade step and then, when that
    step returns no error, the routing by address.  For a log whose topic is
    not [UpgradedTopic] the upgrade step is the context check and the read
    of the contracts, nothing more.  For a log whose topic is
    [UpgradedTopic] and whose upgrade step succeeds, that step has refreshed
    the contracts and the routing by address follows all the same. *)
Theorem routing_follows_an_upgrade_step_without_error l blk le (s : State E) :
  run E (handleLog l blk le) s
  = match run E (upgradeStep l blk le) s with
    | (Ok contracts, s1, t1) =>
        let '(o, s2, t2) := run E (routeStep l blk le contracts) s1 in (o, s2, t1 ++ t2)
    | (Err e, s1, t1) => (Err e, s1, t1)
    | (Panicked m, s1, t1) => (Panicked m, s1, t1)
    end
  /\ (getTopic le <> UpgradedTopic ->
      run E (upgradeStep l blk le) s
      = match fst (respond E CtxErr s) with
        | Some e => (Err e, snd (respond E CtxErr s), [Ev CtxErr (Some e)])
        | None =>
            let (c, s1) := respond E ClientContracts (snd (respond E CtxErr s)) in
            (Ok c, s1, [Ev CtxErr None; Ev ClientContracts c])
        end)
  /\ (getTopic le = UpgradedTopic ->
      forall (c : ContractsRef) (s1 : State E) (t1 : list Event),
        run E (upgradeStep l blk le) s = (Ok c, s1, t1) ->
        List.existsb isRefresh t1 = true
        /\ run E (handleLog l blk le) s
           = (let '(o, s2, t2) := run E (routeStep l blk le c) s1 in (o, s2, t1 ++ t2))).
Proof.
  split; [apply run_handleLog_steps |]. split.
  - intros Hne. unfold upgradeStep, handleUpgradeEvent.
    rewrite (eqb_other Hne). cbn [negb].
    rewrite run_bind, run_call.
    destruct (respond E CtxErr s) as [[e |] s0]; cbn [fst snd nilOrFail run]; [reflexivity |].
    rewrite run_bind, run_call.
    destruct (respond E ClientContracts s0) as [c s1]. reflexivity.
  - intros Ht c s1 t1 Hstep. split.
    + revert Hstep. unfold upgradeStep, handleUpgradeEvent.
      rewrite Ht, String.eqb_refl. cbn [negb].
      rewrite run_bind, run_call.
      destruct (respond E CtxErr s) as [[e |] s0]; cbn [fst snd nilOrFail run];
        [discriminate |].
      rewrite run_bind, run_call.
      destruct (respond E ClientContracts s0) as [c0 s0']. cbn [fst snd run].
      rewrite !run_bind, run_call.
      destruct (respond E ClientRefreshContracts s0') as [[e |] s0'']; cbn [fst snd nilOrFail run];
        [discriminate |].
      match goal with
      | |- context [run E ?p s0''] => destruct (run E p s0'') as [[[[] | e | m] s3] t3]
      end; try discriminate.
      cbn. intros Heq. injection Heq as _ _ <-. reflexivity.
    + rewrite run_handleLog_steps, Hstep. reflexivity.
Qed.


End Routing.

Module Witnesses.
Import Eth Events Message.

Ltac differ := let Heq := fresh in intros Heq; vm_compute in Heq; discriminate Heq.

Lemma enabled_flag_reconciled_for_scanners_only_witness :
  deliveries (trace (run (Sample.env Sample.script)
                       (@handleScannerRegistryEvent Sample.helpers (Sample.direct None)
                          0%nat (Sample.logOf xa2 x02) Sample.block100) Sample.start))
  = [NewScannerMessage (ScannerEnabled.mk 5 false 0 true Sample.rawLog) Sample.block100]
  /\ deliveries (trace (run (Sample.env Sample.script)
                          (@handleAgentRegistryEvent Sample.helpers (Sample.direct None)
                             0%nat (Sample.logOf xa1 x0b) Sample.block100) Sample.start))
     = [NewAgentMessage (AgentEnabled.mk 9 true 0 true Sample.rawLog) Sample.block100].
Proof.
  split.
  - destruct (@enabled_flag_reconciled_for_scanners_only Sample.helpers
                (Sample.env Sample.script) (Sample.direct None) 0%nat
                (Sample.logOf xa2 x02) Sample.block100 Sample.start) as [Hscanner _].
    destruct (Hscanner (ScannerEnabled.mk 5 true 0 true Sample.rawLog) false
                Sample.start Sample.start) as (_ & Hd & _).
    + reflexivity.
    + differ.
    + reflexivity.
    + reflexivity.
    + exact Hd.
  - destruct (@enabled_flag_reconciled_for_scanners_only Sample.helpers
                (Sample.env Sample.script) (Sample.direct None) 0%nat
                (Sample.logOf xa1 x0b) Sample.block100 Sample.start) as [_ Hagent].
    destruct (Hagent (AgentEnabled.mk 9 true 0 true Sample.rawLog) Sample.start)
      as (_ & Hd).
    + reflexivity.
    + differ.
    + reflexivity.
    + exact Hd.
Defined.

Lemma pool_transfer_emits_unless_minted_witness :
  deliveries (trace (run (Sample.env Sample.script)
                       (@handleScannerPoolRegistryEvent Sample.helpers (Sample.direct None)
                          0%nat (Sample.logOf xa6 x06) Sample.block100) Sample.start))
  = [NewScannerPoolMessageFromTransfer
       (Transfer.mk (Sample.addr x11) (Sample.addr x22) 7 Sample.rawLog) Sample.block100].
Proof.
  destruct (@pool_transfer_emits_unless_minted Sample.helpers (Sample.env Sample.script)
              (Sample.direct None) 0%nat (Sample.logOf xa6 x06) Sample.block100
              (Transfer.mk (Sample.addr x11) (Sample.addr x22) 7 Sample.rawLog)
              Sample.start Sample.start) as [_ Hsent].
  - reflexivity.
  - differ.
  - differ.
  - reflexivity.
  - destruct Hsent as [_ Hd]; [differ | exact Hd].
Defined.

Lemma stake_subject_identifier_by_type_witness :
  deliveries (trace (run (Sample.env Sample.script)
                       (@handleFortaStakingEvent Sample.helpers (Sample.direct None)
                          0%nat (Sample.logOf xa4 x0c) Sample.block100) Sample.start))
  = [NewScannerPoolStakeMessage (Sample.logOf xa4 x0c) "deposit" (Sample.addr x11) "7"
       (Some 1000) Sample.block100].
Proof.
  destruct (@stake_subject_identifier_by_type Sample.helpers (Sample.env Sample.script)
              (Sample.direct None) 0%nat (Sample.logOf xa4 x0c) Sample.block100
              Sample.start) as (Hdeposit & _).
  - differ.
  - differ.
  - differ.
  - differ.
  - differ.
  - differ.
  - destruct (Hdeposit (StakeDeposited.mk 2 7 (Sample.addr x11) 1000 Sample.rawLog)
                Sample.start) as (r & Hrun & _ & _ & Hpool & _).
    + reflexivity.
    + reflexivity.
    + rewrite Hrun, (Hpool eq_refl). reflexivity.
Defined.

Lemma batch_transfer_delivers_each_in_order_witness :
  List.length
    (deliveries (trace (run (Sample.env Sample.script)
                          (@handleFortaStakingEvent Sample.helpers (Sample.direct None)
                             0%nat (Sample.logOf xa4 x10) Sample.block100) Sample.start)))
  = 3%nat.
Proof.
  destruct (@batch_transfer_delivers_each_in_order Sample.helpers
              (Sample.env Sample.script) (Sample.direct None) 0%nat
              (Sample.logOf xa4 x10) Sample.block100
              (TransferBatch.mk (Sample.addr x11) (Sample.addr x11) (Sample.addr x22)
                 [7; 8; 9] [10; 20; 30] Sample.rawLog)
              (List.map
                 (fun iv => TransferSharesMessage
                              (Shares.mk (Sample.logOf xa4 x10) Sample.block100
                                 (Sample.addr x11) (Sample.addr x22) (fst iv) (snd iv)))
                 [(7, 10); (8, 20); (9, 30)])
              Sample.start Sample.start)
    as [(_ & _ & Hk & _) | (j & mj & e & _ & _ & Herr & _)].
  - reflexivity.
  - differ.
  - differ.
  - differ.
  - differ.
  - reflexivity.
  - reflexivity.
  - reflexivity.
  - exact Hk.
  - discriminate Herr.
Defined.

(** A sink that refuses the second message of a batch of three: the third is
    not handed over and the error is returned. *)
Example batch_transfer_stops_at_refusal :
  let r := run (Sample.env Sample.refusing)
             (@handleFortaStakingEvent Sample.helpers (Sample.direct None)
                0%nat (Sample.logOf xa4 x10) Sample.block100) Sample.start in
  outcome r = Err "sink failure"
  /\ sinkCalls (trace r) = [(Sample.share 7 10, None); (Sample.share 8 20, Some "sink failure")].
Proof. split; reflexivity. Qed.

Lemma empty_filter_fails_construction_witness :
  outcome (run (Sample.env Sample.bare)
             (@NewListenerWithClients Sample.helpers
                (Sample.config (Some Sample.onlyOptional)) false) Sample.start)
  = Panicked "empty filter"
  /\ outcome (run (Sample.env Sample.bare)
                (@NewListenerWithClients Sample.helpers
                   (Sample.config (Some Sample.onlyStaking)) false) Sample.start)
     = Ok (Sample.direct (Some Sample.onlyStaking)).
Proof.
  split.
  - destruct (@empty_filter_fails_construction Sample.helpers (Sample.env Sample.bare)
                (Sample.config (Some Sample.onlyOptional)) false None 0%nat
                Sample.contractsBare Sample.start Sample.start Sample.start Sample.start)
      as [Hempty _]; [reflexivity | reflexivity | reflexivity |].
    destruct Hempty as (_ & Hpanic & _); [reflexivity |].
    apply Hpanic. reflexivity.
  - destruct (@empty_filter_fails_construction Sample.helpers (Sample.env Sample.bare)
                (Sample.config (Some Sample.onlyStaking)) false None 0%nat
                Sample.contractsBare Sample.start Sample.start Sample.start Sample.start)
      as [_ Hsome]; [reflexivity | reflexivity | reflexivity |].
    destruct Hsome as (_ & Hok); [differ |].
    destruct Hok as [Hok _]; [reflexivity | exact Hok].
Defined.

Lemma absent_roles_are_skipped_witness :
  run (Sample.env Sample.bare)
    (@routeByAddress Sample.helpers (Sample.direct None) 0%nat Sample.contractsBare
       (Sample.logOf xa6 x06) Sample.block100) Sample.start
  = (Ok tt, Sample.start, []).
Proof.
  destruct (@absent_roles_are_skipped Sample.helpers (Sample.env Sample.bare)
              (Sample.direct None) 0%nat Sample.contractsBare (Sample.logOf xa6 x06)
              Sample.block100 Sample.start) as (_ & Hpool & _).
  destruct Hpool as [_ Hrun]; [reflexivity |].
  rewrite Hrun; reflexivity.
Defined.

(** C2 fails on a log whose topic is [UpgradedTopic] when the context is
    done, and when the refresh fails: with a context that is done
    [handleLog] returns before any refresh, and with a refresh that fails
    it returns before the filter is set again. *)
Lemma upgrade_is_not_handled_when_done_or_unrefreshed :
  @getTopic Sample.helpers Sample.upgradedLog = UpgradedTopic
  /\ run (Sample.env Sample.cancelled)
       (@handleLog Sample.helpers (Sample.direct (Some Sample.onlyStaking))
          Sample.block100 Sample.upgradedLog) Sample.start
     = (Err "context canceled", Sample.start, [Ev CtxErr (Some "context canceled")])
  /\ run (Sample.env Sample.unrefreshed)
       (@handleLog Sample.helpers (Sample.direct (Some Sample.onlyStaking))
          Sample.block100 Sample.upgradedLog) Sample.start
     = (Err "refresh failed", Sample.start,
        [Ev CtxErr None; Ev ClientContracts 0%nat;
         Ev ClientRefreshContracts (Some "refresh failed")])
  /\ ~ upgrade_always_refreshes_and_sets_filter.
Proof.
  split; [reflexivity |]. split; [reflexivity |]. split; [reflexivity |].
  intros Hclaim.
  destruct (Hclaim Sample.helpers (Sample.env Sample.cancelled)
              (Sample.direct (Some Sample.onlyStaking)) Sample.block100
              Sample.upgradedLog Sample.start eq_refl) as [Honce _].
  vm_compute in Honce. discriminate Honce.
Qed.

Lemma upgrade_refreshes_once_then_sets_filter_before_decoding_witness :
  run (Sample.env Sample.script)
    (@handleLog Sample.helpers (Sample.direct (Some Sample.onlyStaking))
       Sample.block100 Sample.upgradedLog) Sample.start
  = (Ok tt, (1%nat, 1%nat),
     [Ev CtxErr None; Ev ClientContracts 0%nat; Ev ClientRefreshContracts None;
      Ev ClientContracts 0%nat; Ev (ReadAddresses 0%nat) Sample.contractsFull;
      Ev (AddAddress "0xa4a4a4a4a4a4a4a4a4a4a4a4a4a4a4a4a4a4a4a4") tt;
      Ev (Parse 0%nat DispatchFil ParseUpgraded Sample.upgradedLog)
        (inr (Decoded.mk [] Sample.rawLog));
      Ev (Handle (NewUpgradeMessage (Decoded.mk [] Sample.rawLog) Sample.upgradedLog
                    Sample.block100)) None;
      Ev (ReadAddresses 0%nat) Sample.contractsFull;
      Ev (LoggerDebug "unhandled topic, ignoring") tt])
  /\ List.length
       (List.filter isRefresh
          (trace (run (Sample.env Sample.script)
                    (@handleLog Sample.helpers (Sample.direct (Some Sample.onlyStaking))
                       Sample.block100 Sample.upgradedLog) Sample.start)))
     = 1%nat
  /\ outcome (run (Sample.env Sample.bare)
                (@handleLog Sample.helpers (Sample.direct (Some Sample.onlyOptional))
                   Sample.block100 Sample.upgradedLog) Sample.start)
     = Panicked "empty filter".
Proof.
  split; [| split].
  - destruct (@upgrade_refreshes_once_then_sets_filter_before_decoding Sample.helpers
                (Sample.env Sample.script) (Sample.direct (Some Sample.onlyStaking))
                Sample.block100 Sample.upgradedLog Sample.start eq_refl)
      as (Hrun & _).
    rewrite Hrun. reflexivity.
  - destruct (@upgrade_refreshes_once_then_sets_filter_before_decoding Sample.helpers
                (Sample.env Sample.script) (Sample.direct (Some Sample.onlyStaking))
                Sample.block100 Sample.upgradedLog Sample.start eq_refl)
      as (_ & _ & _ & _ & Honce & _).
    exact Honce.
  - destruct (@upgrade_refreshes_once_then_sets_filter_before_decoding Sample.helpers
                (Sample.env Sample.bare) (Sample.direct (Some Sample.onlyOptional))
                Sample.block100 Sample.upgradedLog Sample.start eq_refl)
      as (Hrun & _).
    rewrite Hrun. reflexivity.
Defined.

(** C3 fails on a log of the staking contract whose topic is
    [UpgradedTopic]: after the upgrade step, [handleLog] reads the addresses,
    finds the staking contract and runs its handler, which logs that the
    topic is not one of its own. *)
Lemma upgraded_log_is_routed_all_the_same :
  @getTopic Sample.helpers Sample.upgradedLog = UpgradedTopic
  /\ run (Sample.env Sample.script)
       (@upgradeStep Sample.helpers (Sample.direct (Some Sample.onlyStaking))
          Sample.block100 Sample.upgradedLog) Sample.start
     = (Ok 0%nat, (1%nat, 1%nat), Sample.upgradeCalls)
  /\ run (Sample.env Sample.script)
       (@handleLog Sample.helpers (Sample.direct (Some Sample.onlyStaking))
          Sample.block100 Sample.upgradedLog) Sample.start
     = (Ok tt, (1%nat, 1%nat),
        Sample.upgradeCalls
        ++ [Ev (ReadAddresses 0%nat) Sample.contractsFull;
            Ev (LoggerDebug "unhandled topic, ignoring") tt])
  /\ ~ routed_only_without_upgrade_match.
Proof.
  split; [reflexivity |]. split; [reflexivity |]. split; [reflexivity |].
  intros Hclaim.
  specialize (Hclaim Sample.helpers (Sample.env Sample.script)
                (Sample.direct (Some Sample.onlyStaking)) Sample.block100
                Sample.upgradedLog Sample.start eq_refl).
  apply (f_equal (@List.length Event)) in Hclaim.
  vm_compute in Hclaim. discriminate Hclaim.
Qed.

Lemma routing_follows_an_upgrade_step_without_error_witness :
  run (Sample.env Sample.script)
    (@upgradeStep Sample.helpers (Sample.direct None) Sample.block100
       (Sample.logOf xa4 x0c)) Sample.start
  = (Ok 0%nat, Sample.start, [Ev CtxErr None; Ev ClientContracts 0%nat])
  /\ List.existsb isRefresh Sample.upgradeCalls = true.
Proof.
  split.
  - destruct (@routing_follows_an_upgrade_step_without_error Sample.helpers
                (Sample.env Sample.script) (Sample.direct None) Sample.block100
                (Sample.logOf xa4 x0c) Sample.start) as (_ & Hplain & _).
    rewrite Hplain; [reflexivity | differ].
  - destruct (@routing_follows_an_upgrade_step_without_error Sample.helpers
                (Sample.env Sample.script) (Sample.direct (Some Sample.onlyStaking))
                Sample.block100 Sample.upgradedLog Sample.start) as (_ & _ & Hupgraded).
    destruct (Hupgraded eq_refl 0%nat (1%nat, 1%nat) Sample.upgradeCalls) as [Hrefreshed _];
      [reflexivity | exact Hrefreshed].
Defined.


End Witnesses.

(** * Further properties *)

(** ** The pages of a range *)

Module PageCount.
Import Int IntFacts Pager PagerFacts.

Lemma producer_length endBlock start end_ :
  end_ <= endBlock ->
  Z.of_nat (List.length (producer endBlock start end_))
  = (endBlock - end_ + pageSize) / (pageSize + 1) + 1.
Proof.
  funelim (producer endBlock start end_); intros Hle.
  - lia.
  - subst end_. cbn [List.length]. unfold pageSize.
    replace (endBlock - endBlock + 10000) with 10000 by lia. reflexivity.
  - cbn [List.length]. rewrite Nat2Z.inj_succ, H by apply BigMin_le_r.
    unfold pageSize in *.
    destruct (BigMin_cases (end_ + 1 + 10000) endBlock) as [[Hm ->] | [Hm ->]].
    + Z.div_mod_to_equations. lia.
    + Z.div_mod_to_equations. lia.
Qed.

(** X2.  A range with [start <= end] is cut into
    [(end - start) / 10001 + 1] pages; a range with the start above the end
    still gives one page. *)
Theorem pages_count startBlock endBlock :
  (startBlock <= endBlock ->
   Z.of_nat (List.length (pages startBlock endBlock))
   = (endBlock - startBlock) / (pageSize + 1) + 1)
  /\ (endBlock < startBlock -> List.length (pages startBlock endBlock) = 1%nat).
Proof.
  split.
  - intros Hle. unfold pages. rewrite producer_length by apply BigMin_le_r.
    unfold pageSize.
    destruct (BigMin_cases (startBlock + 10000) endBlock) as [[Hm ->] | [Hm ->]];
      Z.div_mod_to_equations; lia.
  - intros Hlt. rewrite pages_reversed by exact Hlt. reflexivity.
Qed.

Lemma pages_count_witness :
  Z.of_nat (List.length (pages 0 25000)) = 3
  /\ List.length (pages 5000 4900) = 1%nat.
Proof.
  destruct (pages_count 0 25000) as [Hcount _].
  destruct (pages_count 5000 4900) as [_ Hone].
  split; [rewrite Hcount by lia; reflexivity | apply Hone; lia].
Defined.

End PageCount.

(** ** The range up to the chain height *)

Section ToHeight.
Import Int IntFacts Pager PagerFacts.
Variable E : Env.

(** X3.  [ProcessBlockRange] without an end asks for the chain height once.
    When that fails it returns the error and sends no page.  Otherwise the
    range ends at the height [H]: for [start <= H] the pages lie end to end
    from [start] to [H] and each block of the range is in exactly one page,
    and for a start above the height one page from [start] down to [H] is
    sent all the same. *)
Theorem ProcessBlockRange_ends_at_height (startBlock : Z) (rh : error + Z)
    (s s1 : State E) :
  respond E EthBlockNumber s = (rh, s1) ->
  let r := run E (ProcessBlockRange startBlock None) s in
  match rh with
  | inl e => r = (Err e, s1, [Ev EthBlockNumber (inl e)])
  | inr H =>
      r = (Ok (pages startBlock H), s1, [Ev EthBlockNumber (inr H)])
      /\ (fits64 startBlock -> fits64 H -> startBlock <= H ->
          chain startBlock H (pages startBlock H)
          /\ forall b, coverCount (pages startBlock H) b
                       = if (startBlock <=? b) && (b <=? H) then 1%nat else 0%nat)
      /\ (H < startBlock ->
          pages startBlock H = [mkPage (Int64 startBlock) (Int64 H)])
  end.
Proof.
  intros Hresp r. subst r. unfold ProcessBlockRange.
  rewrite run_bind, run_call, Hresp. cbn [fst snd].
  destruct rh as [e | H]; cbn [orFail run]; [reflexivity |].
  split; [reflexivity |]. split.
  - intros Hs HH Hle. destruct (pages_partition Hs HH Hle) as (Hc & _ & Hcover).
    split; assumption.
  - apply pages_reversed.
Qed.

(** X1.  [ProcessBlockRange] with an end at or above the start makes no call
    to find its pages, and the pages it sends lie end to end from the start
    to the end, hold between 1 and 10,001 blocks each, and together hold
    every block of the range exactly once and no block outside it. *)
Theorem ProcessBlockRange_partitions_the_range (startBlock endBlock : Z) (s : State E) :
  fits64 startBlock -> fits64 endBlock -> startBlock <= endBlock ->
  exists ps : list page,
    run E (ProcessBlockRange startBlock (Some endBlock)) s = (Ok ps, s, [])
    /\ chain startBlock endBlock ps
    /\ Forall (fun p => 1 <= blocks p <= 10001) ps
    /\ forall b, coverCount ps b
                 = if (startBlock <=? b) && (b <=? endBlock) then 1%nat else 0%nat.
Proof.
  intros Hs He Hle. exists (pages startBlock endBlock).
  destruct (pages_partition Hs He Hle) as (Hc & Hw & Hcover).
  split; [reflexivity |]. split; [exact Hc |]. split; [exact Hw | exact Hcover].
Qed.

End ToHeight.

Lemma ProcessBlockRange_partitions_the_range_witness :
  exists ps : list Pager.page,
    run (Sample.env Sample.script) (ProcessBlockRange 0 (Some 25000)) Sample.start
    = (Ok ps, Sample.start, [])
    /\ Pager.coverCount ps 10000 = 1%nat /\ Pager.coverCount ps 25001 = 0%nat.
Proof.
  destruct (@ProcessBlockRange_partitions_the_range (Sample.env Sample.script)
              0 25000 Sample.start) as (ps & Hrun & _ & _ & Hcover).
  - unfold Int.fits64, Int.min_int64, Int.max_int64, Int.two63. lia.
  - unfold Int.fits64, Int.min_int64, Int.max_int64, Int.two63. lia.
  - lia.
  - exists ps. split; [exact Hrun |]. split; rewrite Hcover; reflexivity.
Defined.

Lemma ProcessBlockRange_ends_at_height_witness :
  run (Sample.env Sample.script) (ProcessBlockRange 0 None) Sample.start
  = (Ok (Pager.pages 0 5000), Sample.start, [Ev EthBlockNumber (inr 5000)])
  /\ Pager.coverCount (Pager.pages 0 5000) 5000 = 1%nat
  /\ Pager.pages 6000 5000 = [Pager.mkPage 6000 5000].
Proof.
  pose proof (@ProcessBlockRange_ends_at_height (Sample.env Sample.script) 0
                (inr 5000) Sample.start Sample.start eq_refl) as (Hrun & Hin & _).
  pose proof (@ProcessBlockRange_ends_at_height (Sample.env Sample.script) 6000
                (inr 5000) Sample.start Sample.start eq_refl) as (_ & _ & Habove).
  split; [exact Hrun |]. split.
  - destruct Hin as [_ Hcover].
    + unfold Int.fits64, Int.min_int64, Int.max_int64, Int.two63. lia.
    + unfold Int.fits64, Int.min_int64, Int.max_int64, Int.two63. lia.
    + lia.
    + rewrite Hcover. reflexivity.
  - rewrite Habove by lia. reflexivity.
Defined.

(** ** Errors end the handling *)

Section ErrorPolicy.
Import Eth.
Context `{Helpers}.
Variable E : Env.

Implicit Types (l : Listener.t) (contracts : ContractsRef) (le : Log.t) (blk : Block.t).

Lemma Stops_bind {A B : Type} (p : Prog A) (f : A -> Prog B) :
  Stops p -> (forall a, Stops (f a)) -> Stops (bind p f).
Proof.
  intros Hp Hf. induction Hp as [a | e | m | op k Hk IH Herr]; cbn [bind].
  - apply Hf.
  - constructor.
  - constructor.
  - constructor; [exact IH |].
    intros r e Hev. rewrite (Herr r e Hev). reflexivity.
Qed.

Lemma Stops_run {A : Type} (p : Prog A) :
  Stops p -> forall s : State E, stopsAtFirstError (run E p s).
Proof.
  induction 1 as [a | e | m | op k Hk IH Herr]; intros s t1 t2 ev e' Htrace Hev;
    try (destruct t1; discriminate Htrace).
  rewrite run_call in Htrace |- *.
  specialize (IH (fst (respond E op s)) (snd (respond E op s))).
  specialize (Herr (fst (respond E op s))).
  destruct (run E (k (fst (respond E op s))) (snd (respond E op s))) as [[o s2] t] eqn:Hrun.
  unfold trace, outcome in *. cbn [fst snd] in *.
  destruct t1 as [| x t1]; cbn [List.app] in Htrace.
  - injection Htrace as Hx Ht. subst ev t.
    rewrite (Herr e' Hev) in Hrun. cbn in Hrun.
    injection Hrun as <- _ <-. split; reflexivity.
  - injection Htrace as _ Ht. apply (IH t1 t2 ev e' Ht Hev).
Qed.

Ltac stops :=
  repeat first
    [ apply Stops_Return
    | apply Stops_Fail
    | apply Stops_Panic
    | apply Stops_bind; [| intros ?]
    | apply Stops_Call;
      [ intros ?
      | let r := fresh "r" in let e := fresh "e" in
        intros r e; destruct r; cbn; congruence ]
    | match goal with
      | |- Stops (if ?b then _ else _) => destruct b
      | |- Stops (orFail ?r) => destruct r
      | |- Stops (nilOrFail ?r) => destruct r
      | |- Stops (match ?r with inl _ => _ | inr _ => _ end) => destruct r
      | |- Stops (match ?r with Some _ => _ | None => _ end) => destruct r
      end ].

Lemma Stops_handler l (m : Message.t) : Stops (handler l m).
Proof. unfold handler. stops. Qed.

Lemma Stops_handleEach l (ms : list Message.t) : Stops (handleEach l ms).
Proof.
  induction ms as [| m ms IH]; cbn [handleEach]; [constructor |].
  apply Stops_bind; [apply Stops_handler | intros _; exact IH].
Qed.

Lemma Stops_addEach (addrs : list string) : Stops (addEach addrs).
Proof.
  induction addrs as [| a addrs IH]; cbn [addEach]; [constructor |].
  apply Stops_Call; [intros _; exact IH | intros r e; destruct r; cbn; congruence].
Qed.

Ltac roles :=
  repeat first
    [ apply Stops_handler
    | apply Stops_handleEach
    | progress stops ].

Lemma Stops_routeByAddress l contracts (addrs : RegistryContracts.t) le blk :
  Stops (routeByAddress l contracts addrs le blk).
Proof.
  unfold routeByAddress, andAlso, notNil, ptrHex,
    handleScannerRegistryEvent, handleScannerVersionEvent, handleAgentRegistryEvent,
    handleDispatchEvent, handleFortaStakingEvent, handleScannerPoolRegistryEvent,
    handleStakeAllocatorEvent, stakeBySubject, parse, IsEnabledScanner, GetAgent.
  cbv zeta.
  destruct (RegistryContracts.ScannerPoolRegistry addrs),
    (RegistryContracts.StakeAllocator addrs); cbn [bind]; roles.
Qed.

Lemma Stops_setLogFilterAddrs l : Stops (setLogFilterAddrs l).
Proof.
  unfold setLogFilterAddrs.
  apply Stops_bind; [stops | intros c].
  apply Stops_bind; [stops | intros rc].
  cbv zeta. destruct (List.length _ =? 0)%nat; [constructor | apply Stops_addEach].
Qed.

Lemma Stops_handleLog l blk le : Stops (handleLog l blk le).
Proof.
  unfold handleLog.
  apply Stops_bind; [stops | intros _].
  apply Stops_bind; [stops | intros c].
  apply Stops_bind.
  - unfold handleUpgradeEvent.
    destruct (negb (String.eqb (getTopic le) UpgradedTopic)); [constructor |].
    apply Stops_bind; [stops | intros _].
    apply Stops_bind; [apply Stops_setLogFilterAddrs | intros _].
    unfold parse. apply Stops_bind; [stops | intros up]. apply Stops_handler.
  - intros _. apply Stops_bind; [stops | intros rc]. apply Stops_routeByAddress.
Qed.

Lemma Stops_handleLogs l (block : option Block.t) (logs : list Log.t) :
  Stops (handleLogs l block logs).
Proof.
  revert block. induction logs as [| lg logs IH]; intros block; cbn [handleLogs];
    [constructor |].
  cbv zeta. apply Stops_bind.
  - destruct block as [b |]; [destruct (String.eqb _ _) |]; stops.
  - intros b. apply Stops_bind; [apply Stops_handleLog | intros _; apply IH].
Qed.

(** X4.  A worker stops at the first error: in the run of [workPage] on a
    page, and in the run of [handleLog] on a log, a call that answers an
    error (the context, the fetch of the logs or of a block, a refresh, a
    decoding, a query of the registry client, the sink) is the last call
    made, and its error is what is returned, with the prefix "failed to get
    scanner pool owner: " when it is the owner query that failed.  Nothing is
    retried and nothing is called after an error. *)
Theorem worker_stops_at_first_error l (p : Pager.page) blk le (s : State E) :
  stopsAtFirstError (run E (workPage l p) s)
  /\ stopsAtFirstError (run E (handleLog l blk le) s).
Proof.
  split.
  - apply Stops_run. unfold workPage.
    apply Stops_bind; [stops | intros _].
    apply Stops_bind; [stops | intros logs]. apply Stops_handleLogs.
  - apply Stops_run. apply Stops_handleLog.
Qed.

End ErrorPolicy.

Lemma worker_stops_at_first_error_witness :
  outcome (run (Sample.env Sample2.ownerDown)
             (@handleLog Sample.helpers (Sample.direct None) Sample.block100
                (Sample.logOf xa6 x07)) Sample.start)
  = Err "failed to get scanner pool owner: rpc down".
Proof.
  destruct (@worker_stops_at_first_error Sample.helpers (Sample.env Sample2.ownerDown)
              (Sample.direct None) (Pager.mkPage 0 10) Sample.block100
              (Sample.logOf xa6 x07) Sample.start) as [_ Hlog].
  destruct (Hlog
              [Ev CtxErr None; Ev ClientContracts 0%nat;
               Ev (ReadAddresses 0%nat) Sample.contractsFull;
               Ev (Parse 0%nat ScannerPoolRegFil ParseScannerPoolRegistered
                     (Sample.logOf xa6 x07))
                 (inr (Events.ScannerPoolRegistered.mk 7 137 Sample.rawLog))]
              []
              (Ev (ClientGetScannerPoolOwner 7) (inl "rpc down"))
              "failed to get scanner pool owner: rpc down") as [_ Hout].
  - reflexivity.
  - reflexivity.
  - exact Hout.
Defined.

(** ** The worker of a page *)

Section Worker.
Import Eth.
Context `{Helpers}.
Variable E : Env.

Implicit Types (l : Listener.t) (contracts : ContractsRef) (le : Log.t) (blk : Block.t).

Ltac via :=
  repeat first
    [ apply Within_Return
    | apply Within_Fail
    | apply Within_bind; [| intros ?]
    | apply Within_Call; [split; exact I | intros ?]
    | match goal with
      | |- Within _ _ (if ?b then _ else _) => destruct b
      | |- Within _ _ (orFail ?r) => destruct r
      | |- Within _ _ (nilOrFail ?r) => destruct r
      | |- Within _ _ (match ?r with inl _ => _ | inr _ => _ end) => destruct r
      end ].

Lemma Via_handler l (m : Message.t) : Within (logCall l) never (handler l m).
Proof.
  unfold handler, logCall. destruct (Listener.hasProxy l);
    (apply Within_Call; [split; [reflexivity | exact I] | intros [e |]; constructor]).
Qed.

Lemma Via_handleEach l (ms : list Message.t) : Within (logCall l) never (handleEach l ms).
Proof.
  induction ms as [| m ms IH]; cbn [handleEach]; [constructor |].
  apply Within_bind; [apply Via_handler | intros _; exact IH].
Qed.

Ltac viaRoles :=
  repeat first
    [ apply Via_handler
    | apply Via_handleEach
    | progress via ].

Lemma Via_routeByAddress l contracts (addrs : RegistryContracts.t) le blk :
  Within (logCall l) never (routeByAddress l contracts addrs le blk).
Proof.
  unfold routeByAddress, andAlso, notNil, ptrHex,
    handleScannerRegistryEvent, handleScannerVersionEvent, handleAgentRegistryEvent,
    handleDispatchEvent, handleFortaStakingEvent, handleScannerPoolRegistryEvent,
    handleStakeAllocatorEvent, stakeBySubject, parse, IsEnabledScanner, GetAgent.
  cbv zeta.
  destruct (RegistryContracts.ScannerPoolRegistry addrs),
    (RegistryContracts.StakeAllocator addrs); cbn [bind]; viaRoles.
Qed.

Lemma Via_handleLog l blk le : Within (logCall l) emptyFilter (handleLog l blk le).
Proof.
  unfold handleLog.
  apply Within_bind; [via | intros _].
  apply Within_bind; [via | intros c].
  apply Within_bind.
  - unfold handleUpgradeEvent.
    destruct (negb (String.eqb (getTopic le) UpgradedTopic)); [constructor |].
    apply Within_bind; [via | intros _].
    apply Within_bind.
    + apply (@Within_weaken unit filterCall (logCall l) emptyFilter emptyFilter);
        [intros op; unfold logCall; destruct op; cbn; tauto | trivial |].
      apply Within_setLogFilterAddrs.
    + intros _. apply (@Within_weaken unit (logCall l) (logCall l) never emptyFilter);
        [trivial | intros ? [] |].
      unfold parse. apply Within_bind; [via | intros up]. apply Via_handler.
  - intros _. apply (@Within_weaken unit (logCall l) (logCall l) never emptyFilter);
      [trivial | intros ? [] |].
    apply Within_bind; [via | intros rc]. apply Via_routeByAddress.
Qed.

(** X5.  The listener [NewListenerWithClients] returns hands every message
    to the proxy when it was given one and to the in-process handlers when
    it was not: handling a log with it never makes the other call. *)
Theorem proxy_takes_all_messages (cfg : ListenerConfig.t) (proxy : bool)
    (li : Listener.t) (s : State E) :
  outcome (run E (NewListenerWithClients cfg proxy) s) = Ok li ->
  forall blk le (s' : State E),
    Forall (fun ev => sinkVia proxy (opOf ev)) (trace (run E (handleLog li blk le) s')).
Proof.
  intros Hnew blk le s'.
  assert (Hli : Listener.hasProxy li = proxy).
  { revert Hnew. unfold NewListenerWithClients. cbv zeta. rewrite run_bind.
    match goal with
    | |- context [run E ?p s] => destruct (run E p s) as [[[[] | e | m] s1] t1]
    end; try discriminate.
    rewrite run_bind.
    destruct (run E (setLogFilterAddrs (Listener.mk cfg proxy)) s1)
      as [[[[] | e | m] s2] t2]; try discriminate.
    cbn. intros Heq. injection Heq as <-. reflexivity. }
  rewrite <- Hli.
  eapply Forall_impl; [| apply (Within_run E (Via_handleLog li blk le) s')].
  intros ev [Hvia _]. exact Hvia.
Qed.

Lemma no_fetch_in_handleLog l blk le (s : State E) :
  List.filter isBlockFetch (trace (run E (handleLog l blk le) s)) = [].
Proof.
  pose proof (proj1 (Within_run E (Via_handleLog l blk le) s)) as Hall.
  induction Hall as [| ev t [_ Hev] _ IH]; [reflexivity |].
  cbn [List.filter]. rewrite IH. unfold isBlockFetch.
  destruct (opOf ev); try reflexivity. contradiction.
Qed.

Lemma no_fetch_while_held l (b : Block.t) (n : Z) (logs : list Log.t) :
  Block.Number b = BigIntToHex n -> inBlock n logs ->
  forall s : State E,
    List.filter isBlockFetch (trace (run E (handleLogs l (Some b) logs) s)) = [].
Proof.
  intros Hnum Hin. induction Hin as [| lg logs Hlg _ IH]; intros s; [reflexivity |].
  rewrite run_handleLogs_held by (rewrite Hlg; exact Hnum).
  pose proof (no_fetch_in_handleLog l b lg s) as Hlog.
  destruct (run E (handleLog l b lg) s) as [[[[] | e | m] s1] t1];
    unfold trace in *; cbn [snd] in *; try exact Hlog.
  specialize (IH s1).
  destruct (run E (handleLogs l (Some b) logs) s1) as [[o s2] t2].
  cbn [snd] in *. rewrite List.filter_app, Hlog, IH. reflexivity.
Qed.

(** X6.  A worker fetches the block of a run of logs once: for a page whose
    logs are all of block [n], the block the chain client gives bearing the
    number the logs are compared with, [BlockByNumber] is called for the
    first log and for none of the others, however many logs there are and
    however their handling ends. *)
Theorem same_block_is_fetched_once l (n : Z) (b : Block.t) (lg : Log.t)
    (rest : list Log.t) (s s1 : State E) :
  inBlock n (lg :: rest) ->
  respond E (EthBlockByNumber n) s = (inr b, s1) ->
  Block.Number b = BigIntToHex n ->
  exists t,
    trace (run E (handleLogs l None (lg :: rest)) s) = Ev (EthBlockByNumber n) (inr b) :: t
    /\ List.filter isBlockFetch t = [].
Proof.
  intros Hin Hresp Hnum. inversion Hin as [| x xs Hlg Hrest]; subst x xs.
  cbn [handleLogs]. cbv zeta. rewrite Hlg. rewrite run_bind, run_call, Hresp.
  cbn [fst snd orFail run].
  pose proof (no_fetch_in_handleLog l b lg s1) as Hlog.
  pose proof (@no_fetch_while_held l b n rest Hnum Hrest) as Hheld.
  rewrite run_bind.
  destruct (run E (handleLog l b lg) s1) as [[[[] | e | m] s2] t1];
    unfold trace in *; cbn [snd List.app] in *;
    try (eexists; split; [reflexivity | exact Hlog]).
  specialize (Hheld s2).
  destruct (run E (handleLogs l (Some b) rest) s2) as [[o s3] t2].
  cbn [snd] in *. eexists. split; [reflexivity |].
  rewrite List.filter_app, Hlog, Hheld. reflexivity.
Qed.

End Worker.

Lemma proxy_takes_all_messages_witness :
  deliveries
    (trace (run (Sample.env Sample.script)
              (@handleLog Sample.helpers Sample2.proxied Sample.block100
                 (Sample.logOf xa3 x12)) Sample.start))
  = [Message.NewDispatchMessage (Events.Decoded.mk [] Sample.rawLog) Sample.block100]
  /\ Forall (fun ev => sinkVia true (opOf ev))
       (trace (run (Sample.env Sample.script)
                 (@handleLog Sample.helpers Sample2.proxied Sample.block100
                    (Sample.logOf xa3 x12)) Sample.start)).
Proof.
  split; [reflexivity |].
  apply (@proxy_takes_all_messages Sample.helpers (Sample.env Sample.script)
           (Sample.config None) true Sample2.proxied Sample.start).
  reflexivity.
Defined.

Lemma same_block_is_fetched_once_witness :
  List.length
    (List.filter isBlockFetch
       (trace (run (Sample.env Sample2.paged)
                 (@handleLogs Sample.helpers (Sample.direct None) None Sample2.threeLogs)
                 Sample.start)))
  = 1%nat.
Proof.
  destruct (@same_block_is_fetched_once Sample.helpers (Sample.env Sample2.paged)
              (Sample.direct None) 100 Sample.block100 (Sample.logOf xa3 x12)
              [Sample.logOf xa4 x0c; Sample.logOf xa1 x0b] Sample.start Sample.start)
    as (t & Htrace & Hnone).
  - repeat constructor.
  - reflexivity.
  - reflexivity.
  - change Sample2.threeLogs
      with [Sample.logOf xa3 x12; Sample.logOf xa4 x0c; Sample.logOf xa1 x0b].
    rewrite Htrace. cbn [List.filter isBlockFetch opOf]. rewrite Hnone. reflexivity.
Defined.

(** ** More on routing and interpreting *)

Section MoreRouting.
Import Eth Events Message.
Context `{Helpers}.
Variable E : Env.

Implicit Types (l : Listener.t) (contracts : ContractsRef) (le : Log.t) (blk : Block.t).

Ltac decoding :=
  repeat first
    [ apply Within_Return
    | apply Within_Fail
    | apply Within_bind; [| intros ?]
    | apply Within_Call; [cbn; first [exact I | reflexivity] | intros ?]
    | match goal with
      | |- Within _ _ (if ?b then _ else _) => destruct b
      | |- Within _ _ (orFail ?r) => destruct r
      | |- Within _ _ (nilOrFail ?r) => destruct r
      | |- Within _ _ (match ?r with inl _ => _ | inr _ => _ end) => destruct r
      end ].

Lemma Only_handleEach (f : Filterer) l (ms : list Message.t) :
  Within (onlyBy f) never (handleEach l ms).
Proof.
  induction ms as [| m ms IH]; cbn [handleEach]; [constructor |].
  apply Within_bind; [unfold handler; decoding | intros _; exact IH].
Qed.

Ltac onlyRole f :=
  unfold handleScannerRegistryEvent, handleScannerVersionEvent, handleAgentRegistryEvent,
    handleDispatchEvent, handleFortaStakingEvent, handleScannerPoolRegistryEvent,
    handleStakeAllocatorEvent, stakeBySubject, parse, IsEnabledScanner, GetAgent, handler;
  cbv zeta;
  repeat first [ apply (Only_handleEach f) | progress decoding ].

Lemma only_decoded (f : Filterer) (p : Prog unit) (s : State E) :
  Within (onlyBy f) never p -> Forall (decodedOnlyBy f) (trace (run E p s)).
Proof. intros Hp. apply (Within_run E Hp s). Qed.

(** X7.  A log is interpreted by the first contract, in the order of the
    tests of [handleLog] and among the contracts the registry has, whose
    address it is at: routing the log is running the handler of that
    contract, with the same outcome and the same calls, and every decoding
    made for it is by the filterer of that contract.  A log at the address
    of none of the contracts is passed over with no call and no error. *)
Theorem log_goes_to_first_matching_contract l contracts (addrs : RegistryContracts.t)
    le blk (s : State E) :
  let r := run E (routeByAddress l contracts addrs le blk) s in
  roleOf addrs le = firstKnown addrs le
  /\ match firstKnown addrs le with
     | Some f =>
         r = run E (handlerOf f l contracts le blk) s
         /\ Forall (decodedOnlyBy f) (trace r)
     | None => r = (Ok tt, s, [])
     end.
Proof.
  cbv zeta.
  assert (Hfirst : roleOf addrs le = firstKnown addrs le).
  { unfold roleOf, firstKnown, known. cbv zeta.
    destruct (RegistryContracts.ScannerPoolRegistry addrs) as [pool |],
      (RegistryContracts.StakeAllocator addrs) as [alloc |];
      cbn [List.app List.find snd fst option_map];
      repeat match goal with
        | |- context [if ?b then _ else _] => destruct b; cbn [option_map fst]
        end; reflexivity. }
  split; [exact Hfirst |]. rewrite <- Hfirst.
  unfold roleOf, routeByAddress, andAlso, notNil, ptrHex. cbv zeta.
  destruct (equalsAddress _ (hex (RegistryContracts.ScannerRegistry addrs)));
    [split; [reflexivity |]; apply (@only_decoded ScannerRegFil); onlyRole ScannerRegFil |].
  destruct (equalsAddress _ (hex (RegistryContracts.ScannerNodeVersion addrs)));
    [split; [reflexivity |]; apply (@only_decoded ScannerVersionFil);
     onlyRole ScannerVersionFil |].
  destruct (equalsAddress _ (hex (RegistryContracts.AgentRegistry addrs)));
    [split; [reflexivity |]; apply (@only_decoded AgentRegFil); onlyRole AgentRegFil |].
  destruct (equalsAddress _ (hex (RegistryContracts.Dispatch addrs)));
    [split; [reflexivity |]; apply (@only_decoded DispatchFil); onlyRole DispatchFil |].
  destruct (equalsAddress _ (hex (RegistryContracts.FortaStaking addrs)));
    [split; [reflexivity |]; apply (@only_decoded FortaStakingFil);
     onlyRole FortaStakingFil |].
  destruct (RegistryContracts.ScannerPoolRegistry addrs) as [pool |],
    (RegistryContracts.StakeAllocator addrs) as [alloc |]; cbn [bind].
  - destruct (equalsAddress _ (hex pool));
      [split; [reflexivity |]; apply (@only_decoded ScannerPoolRegFil);
       onlyRole ScannerPoolRegFil |].
    destruct (equalsAddress _ (hex alloc)); [| reflexivity].
    split; [reflexivity |]. apply (@only_decoded StakeAllocatorFil).
    onlyRole StakeAllocatorFil.
  - destruct (equalsAddress _ (hex pool)); [| reflexivity].
    split; [reflexivity |]. apply (@only_decoded ScannerPoolRegFil).
    onlyRole ScannerPoolRegFil.
  - destruct (equalsAddress _ (hex alloc)); [| reflexivity].
    split; [reflexivity |]. apply (@only_decoded StakeAllocatorFil).
    onlyRole StakeAllocatorFil.
  - reflexivity.
Qed.

Lemma eqb_not_in (t : string) (ts : list string) :
  ~ In t ts -> Forall (fun x => String.eqb t x = false) ts.
Proof.
  intros Hnot. apply Forall_forall. intros x Hx. apply String.eqb_neq.
  intros ->. exact (Hnot Hx).
Qed.

Ltac unknown Hnot :=
  apply eqb_not_in in Hnot;
  repeat match goal with
    | Hall : Forall _ (_ :: _) |- _ =>
        let Hx := fresh "Hx" in
        inversion Hall as [| ? ? Hx ?]; subst; clear Hall; rewrite Hx; try clear Hx
    end.

(** X8.  A log of a contract with a topic that is not one its handler
    knows is passed over: the handler makes no call and returns no error.
    The staking handler writes a debug line before it does so. *)
Theorem unknown_topics_are_passed_over l contracts le blk (s : State E) :
  (~ In (getTopic le)
       [scanner_registry_ScannerUpdatedTopic; scanner_registry_ScannerEnabledTopic;
        scanner_registry_StakeThresholdChangedTopic] ->
   run E (handleScannerRegistryEvent l contracts le blk) s = (Ok tt, s, []))
  /\ (~ In (getTopic le)
          [scanner_pool_registry_ScannerUpdatedTopic;
           scanner_pool_registry_ManagedStakeThresholdChangedTopic;
           scanner_pool_registry_TransferTopic;
           scanner_pool_registry_ScannerPoolRegisteredTopic;
           scanner_pool_registry_EnabledScannersChangedTopic] ->
      run E (handleScannerPoolRegistryEvent l contracts le blk) s = (Ok tt, s, []))
  /\ (getTopic le <> scanner_node_version_ScannerNodeVersionUpdatedTopic ->
      run E (handleScannerVersionEvent l contracts le blk) s = (Ok tt, s, []))
  /\ (~ In (getTopic le)
          [agent_registry_AgentUpdatedTopic; agent_registry_AgentEnabledTopic;
           agent_registry_StakeThresholdChangedTopic] ->
      run E (handleAgentRegistryEvent l contracts le blk) s = (Ok tt, s, []))
  /\ (getTopic le <> stake_allocator_AllocatedStakeTopic ->
      run E (handleStakeAllocatorEvent l contracts le blk) s = (Ok tt, s, []))
  /\ (~ In (getTopic le) [dispatch_LinkTopic; dispatch_AlreadyLinkedTopic] ->
      run E (handleDispatchEvent l contracts le blk) s = (Ok tt, s, []))
  /\ (~ In (getTopic le)
          [forta_staking_StakeDepositedTopic; forta_staking_WithdrawalInitiatedTopic;
           forta_staking_SlashedTopic; forta_staking_TransferSingleTopic;
           forta_staking_TransferBatchTopic] ->
      run E (handleFortaStakingEvent l contracts le blk) s
      = (Ok tt, snd (respond E (LoggerDebug "unhandled topic, ignoring") s),
         [Ev (LoggerDebug "unhandled topic, ignoring") tt])).
Proof.
  repeat split.
  - intros Hnot. unfold handleScannerRegistryEvent. cbv zeta. unknown Hnot. reflexivity.
  - intros Hnot. unfold handleScannerPoolRegistryEvent. cbv zeta. unknown Hnot.
    reflexivity.
  - intros Hne. unfold handleScannerVersionEvent. rewrite (eqb_other Hne). reflexivity.
  - intros Hnot. unfold handleAgentRegistryEvent. cbv zeta. unknown Hnot. reflexivity.
  - intros Hne. unfold handleStakeAllocatorEvent. rewrite (eqb_other Hne). reflexivity.
  - intros Hnot. unfold handleDispatchEvent. cbv zeta. unknown Hnot. reflexivity.
  - intros Hnot. unfold handleFortaStakingEvent. cbv zeta. unknown Hnot.
    rewrite run_call.
    destruct (fst (respond E (LoggerDebug "unhandled topic, ignoring") s)). reflexivity.
Qed.

(** X9.  The messages on an updated scanner, an updated agent and a
    registered scanner pool carry what the registry client answers when the
    log is handled, not what the event says: the enabled state of the
    scanner the event names (for both registries), the enabled state of the
    agent, the owner of the pool. *)
Theorem updates_carry_the_current_state l contracts le blk (s : State E) :
  (forall (su : ScannerUpdated.t) (enabled : bool) (s1 s2 : State E),
      getTopic le = scanner_registry_ScannerUpdatedTopic ->
      respond E (Parse contracts ScannerRegFil ParseScannerUpdated le) s = (inr su, s1) ->
      respond E (ClientIsEnabledScanner
                   (ScannerIDBigIntToHex (ScannerUpdated.ScannerId su))) s1
      = (inr enabled, s2) ->
      deliveries (trace (run E (handleScannerRegistryEvent l contracts le blk) s))
      = [NewScannerSaveMessage su enabled blk])
  /\ (forall (su : ScannerUpdated.t) (enabled : bool) (s1 s2 : State E),
        getTopic le = scanner_pool_registry_ScannerUpdatedTopic ->
        respond E (Parse contracts ScannerPoolRegFil ParseScannerUpdated le) s
        = (inr su, s1) ->
        respond E (ClientIsEnabledScanner
                     (ScannerIDBigIntToHex (ScannerUpdated.ScannerId su))) s1
        = (inr enabled, s2) ->
        deliveries (trace (run E (handleScannerPoolRegistryEvent l contracts le blk) s))
        = [NewScannerSaveMessageFromPool su enabled blk])
  /\ (forall (au : AgentUpdated.t) (agt : Agent.t) (s1 s2 : State E),
        getTopic le = agent_registry_AgentUpdatedTopic ->
        respond E (Parse contracts AgentRegFil ParseAgentUpdated le) s = (inr au, s1) ->
        respond E (ClientGetAgent (AgentBigIntToHex (AgentUpdated.AgentId au))) s1
        = (inr agt, s2) ->
        deliveries (trace (run E (handleAgentRegistryEvent l contracts le blk) s))
        = [NewAgentSaveMessage au (Agent.Enabled agt) blk])
  /\ (forall (evt : ScannerPoolRegistered.t) (owner : string) (s1 s2 : State E),
        getTopic le = scanner_pool_registry_ScannerPoolRegisteredTopic ->
        ~ In scanner_pool_registry_ScannerPoolRegisteredTopic
            [scanner_pool_registry_ScannerUpdatedTopic;
             scanner_pool_registry_ManagedStakeThresholdChangedTopic;
             scanner_pool_registry_TransferTopic] ->
        respond E (Parse contracts ScannerPoolRegFil ParseScannerPoolRegistered le) s
        = (inr evt, s1) ->
        respond E (ClientGetScannerPoolOwner (ScannerPoolRegistered.ScannerPoolId evt)) s1
        = (inr owner, s2) ->
        deliveries (trace (run E (handleScannerPoolRegistryEvent l contracts le blk) s))
        = [NewScannerPoolMessageFromRegistration evt owner blk]).
Proof.
  repeat split.
  - intros su enabled s1 s2 Ht Hparse Hen.
    unfold handleScannerRegistryEvent. rewrite Ht, String.eqb_refl.
    unfold parse, IsEnabledScanner. cbn [bind].
    rewrite run_call, Hparse. cbn [fst snd orFail bind].
    rewrite run_call, Hen. cbn [fst snd orFail bind].
    pose proof (deliveries_handler E l (NewScannerSaveMessage su enabled blk) s2) as Hd.
    destruct (run E (handler l (NewScannerSaveMessage su enabled blk)) s2) as [[o s3] t].
    exact Hd.
  - intros su enabled s1 s2 Ht Hparse Hen.
    unfold handleScannerPoolRegistryEvent. rewrite Ht, String.eqb_refl.
    unfold parse, IsEnabledScanner. cbn [bind].
    rewrite run_call, Hparse. cbn [fst snd orFail bind].
    rewrite run_call, Hen. cbn [fst snd orFail bind].
    pose proof (deliveries_handler E l (NewScannerSaveMessageFromPool su enabled blk) s2)
      as Hd.
    destruct (run E (handler l (NewScannerSaveMessageFromPool su enabled blk)) s2)
      as [[o s3] t].
    exact Hd.
  - intros au agt s1 s2 Ht Hparse Hagent.
    unfold handleAgentRegistryEvent. rewrite Ht, String.eqb_refl.
    unfold parse, GetAgent. cbn [bind].
    rewrite run_call, Hparse. cbn [fst snd orFail bind].
    rewrite run_call, Hagent. cbn [fst snd orFail bind].
    pose proof (deliveries_handler E l (NewAgentSaveMessage au (Agent.Enabled agt) blk) s2)
      as Hd.
    destruct (run E (handler l (NewAgentSaveMessage au (Agent.Enabled agt) blk)) s2)
      as [[o s3] t].
    exact Hd.
  - intros evt owner s1 s2 Ht Hnot Hparse Howner.
    unfold handleScannerPoolRegistryEvent. cbv zeta. rewrite Ht.
    unknown Hnot. rewrite String.eqb_refl.
    unfold parse. cbn [bind].
    rewrite run_call, Hparse. cbn [fst snd orFail bind].
    rewrite run_call, Howner. cbn [fst snd].
    pose proof (deliveries_handler E l
                  (NewScannerPoolMessageFromRegistration evt owner blk) s2) as Hd.
    destruct (run E (handler l (NewScannerPoolMessageFromRegistration evt owner blk)) s2)
      as [[o s3] t].
    exact Hd.
Qed.

Lemma SinkBound_bind0 {A B : Type} (n : nat) (p : Prog A) (f : A -> Prog B) :
  SinkBound 0 p -> (forall a, SinkBound n (f a)) -> SinkBound n (bind p f).
Proof.
  intros Hp Hf. remember 0%nat as z eqn:Hz.
  induction Hp as [k a | k e | k m | k op c Hop Hc IH | k op c Hop Hc IH]; cbn [bind].
  - apply Hf.
  - constructor.
  - constructor.
  - discriminate Hz.
  - apply SinkBound_Call; [exact Hop | intros r; apply IH; exact Hz].
Qed.

Lemma SinkBound_run {A : Type} (n : nat) (p : Prog A) :
  SinkBound n p ->
  forall s : State E, (List.length (deliveries (trace (run E p s))) <= n)%nat.
Proof.
  unfold deliveries.
  induction 1 as [k a | k e | k m | k op c Hop Hc IH | k op c Hop Hc IH]; intros s;
    try (cbn; lia).
  - rewrite run_call. specialize (IH (fst (respond E op s)) (snd (respond E op s))).
    destruct (run E (c (fst (respond E op s))) (snd (respond E op s))) as [[o s2] t].
    unfold trace in *. cbn [snd sinkCalls] in *.
    destruct (sinkCall (Ev op (fst (respond E op s)))); cbn [List.map List.length]; lia.
  - rewrite run_call. specialize (IH (fst (respond E op s)) (snd (respond E op s))).
    destruct (run E (c (fst (respond E op s))) (snd (respond E op s))) as [[o s2] t].
    unfold trace in *. cbn [snd sinkCalls] in *.
    assert (Hnone : sinkCall (Ev op (fst (respond E op s))) = None).
    { destruct op; try discriminate Hop; reflexivity. }
    rewrite Hnone. exact IH.
Qed.

Ltac bound :=
  repeat first
    [ apply SinkBound_Return
    | apply SinkBound_Fail
    | apply SinkBound_Panic
    | apply SinkBound_bind0; [| intros ?]
    | apply SinkBound_Call; [reflexivity | intros ?]
    | apply SinkBound_Sink; [reflexivity | intros ?]
    | match goal with
      | |- SinkBound _ (if ?b then _ else _) => destruct b
      | |- SinkBound _ (orFail ?r) => destruct r
      | |- SinkBound _ (nilOrFail ?r) => destruct r
      | |- SinkBound _ (match ?r with inl _ => _ | inr _ => _ end) => destruct r
      end ].

(** X10.  One log gives at most one message, unless it is an upgrade or a
    batch transfer: when the topic of the log is neither [UpgradedTopic] nor
    the topic of [TransferBatch], [handleLog] calls the sink at most once,
    whatever the collaborators answer. *)
Theorem at_most_one_message_per_log l blk le (s : State E) :
  getTopic le <> UpgradedTopic ->
  getTopic le <> forta_staking_TransferBatchTopic ->
  (List.length (deliveries (trace (run E (handleLog l blk le) s))) <= 1)%nat.
Proof.
  intros Hup Hbatch. apply SinkBound_run.
  unfold handleLog, handleUpgradeEvent. rewrite (eqb_other Hup). cbn [negb].
  unfold routeByAddress, andAlso, notNil, ptrHex,
    handleScannerRegistryEvent, handleScannerVersionEvent, handleAgentRegistryEvent,
    handleDispatchEvent, handleFortaStakingEvent, handleScannerPoolRegistryEvent,
    handleStakeAllocatorEvent, stakeBySubject, parse, IsEnabledScanner, GetAgent, handler.
  cbv zeta. rewrite (eqb_other Hbatch).
  apply SinkBound_bind0; [bound | intros _].
  apply SinkBound_bind0; [bound | intros c].
  apply SinkBound_bind0; [bound | intros _].
  apply SinkBound_bind0; [bound | intros rc].
  destruct (RegistryContracts.ScannerPoolRegistry rc),
    (RegistryContracts.StakeAllocator rc); cbn [bind]; bound.
Qed.


End MoreRouting.

Module Witnesses2.
Import Eth Events Message.

Ltac differ := let Heq := fresh in intros Heq; vm_compute in Heq; discriminate Heq.

Ltac notAmong :=
  let Hin := fresh in
  intros Hin; vm_compute in Hin;
  repeat match goal with
    | Hx : _ \/ _ |- _ => destruct Hx as [Hx | Hx]
    end;
  first [discriminate | contradiction].

Lemma log_goes_to_first_matching_contract_witness :
  run (Sample.env Sample.script)
    (@routeByAddress Sample.helpers (Sample.direct None) 0%nat Sample.contractsFull
       (Sample.logOf xa6 x06) Sample.block100) Sample.start
  = (Ok tt, (1%nat, 0%nat),
     [Ev (Parse 0%nat ScannerPoolRegFil ParseTransfer (Sample.logOf xa6 x06))
        (inr (Transfer.mk (Sample.addr x11) (Sample.addr x22) 7 Sample.rawLog));
      Ev (Handle (NewScannerPoolMessageFromTransfer
                    (Transfer.mk (Sample.addr x11) (Sample.addr x22) 7 Sample.rawLog)
                    Sample.block100)) None])
  /\ run (Sample.env Sample.script)
       (@routeByAddress Sample.helpers (Sample.direct None) 0%nat Sample2.sharedAddress
          (Sample.logOf xa3 x12) Sample.block100) Sample.start
     = (Ok tt, (1%nat, 0%nat),
        [Ev (Parse 0%nat DispatchFil ParseLink (Sample.logOf xa3 x12))
           (inr (Decoded.mk [] Sample.rawLog));
         Ev (Handle (NewDispatchMessage (Decoded.mk [] Sample.rawLog) Sample.block100))
           None])
  /\ run (Sample.env Sample.script)
       (@routeByAddress Sample.helpers (Sample.direct None) 0%nat Sample.contractsBare
          (Sample.logOf xa6 x06) Sample.block100) Sample.start
     = (Ok tt, Sample.start, []).
Proof.
  split; [| split].
  - destruct (@log_goes_to_first_matching_contract Sample.helpers
                (Sample.env Sample.script) (Sample.direct None) 0%nat
                Sample.contractsFull (Sample.logOf xa6 x06) Sample.block100 Sample.start)
      as [_ Hrun].
    assert (Hf : @firstKnown Sample.helpers Sample.contractsFull (Sample.logOf xa6 x06)
                 = Some ScannerPoolRegFil) by reflexivity.
    rewrite Hf in Hrun. destruct Hrun as [Hrun _]. rewrite Hrun. reflexivity.
  - destruct (@log_goes_to_first_matching_contract Sample.helpers
                (Sample.env Sample.script) (Sample.direct None) 0%nat
                Sample2.sharedAddress (Sample.logOf xa3 x12) Sample.block100 Sample.start)
      as [_ Hrun].
    assert (Hf : @firstKnown Sample.helpers Sample2.sharedAddress (Sample.logOf xa3 x12)
                 = Some DispatchFil) by reflexivity.
    rewrite Hf in Hrun. destruct Hrun as [Hrun _]. rewrite Hrun. reflexivity.
  - destruct (@log_goes_to_first_matching_contract Sample.helpers
                (Sample.env Sample.script) (Sample.direct None) 0%nat
                Sample.contractsBare (Sample.logOf xa6 x06) Sample.block100 Sample.start)
      as [_ Hrun].
    assert (Hf : @firstKnown Sample.helpers Sample.contractsBare (Sample.logOf xa6 x06)
                 = None) by reflexivity.
    rewrite Hf in Hrun. exact Hrun.
Defined.

Lemma unknown_topics_are_passed_over_witness :
  run (Sample.env Sample.script)
    (@handleDispatchEvent Sample.helpers (Sample.direct None) 0%nat
       (Sample.logOf xa3 x0c) Sample.block100) Sample.start
  = (Ok tt, Sample.start, [])
  /\ run (Sample.env Sample.script)
       (@handleFortaStakingEvent Sample.helpers (Sample.direct None) 0%nat
          (Sample.logOf xa4 x12) Sample.block100) Sample.start
     = (Ok tt, Sample.start, [Ev (LoggerDebug "unhandled topic, ignoring") tt]).
Proof.
  split.
  - destruct (@unknown_topics_are_passed_over Sample.helpers (Sample.env Sample.script)
                (Sample.direct None) 0%nat (Sample.logOf xa3 x0c) Sample.block100
                Sample.start) as (_ & _ & _ & _ & _ & Hdispatch & _).
    apply Hdispatch. notAmong.
  - destruct (@unknown_topics_are_passed_over Sample.helpers (Sample.env Sample.script)
                (Sample.direct None) 0%nat (Sample.logOf xa4 x12) Sample.block100
                Sample.start) as (_ & _ & _ & _ & _ & _ & Hstaking).
    rewrite Hstaking; [reflexivity | notAmong].
Defined.

Lemma updates_carry_the_current_state_witness :
  deliveries
    (trace (run (Sample.env Sample.script)
              (@handleScannerRegistryEvent Sample.helpers (Sample.direct None) 0%nat
                 (Sample.logOf xa2 x01) Sample.block100) Sample.start))
  = [NewScannerSaveMessage (ScannerUpdated.mk 5 137 "meta" Sample.rawLog) false
       Sample.block100]
  /\ deliveries
       (trace (run (Sample.env Sample.script)
                 (@handleScannerPoolRegistryEvent Sample.helpers (Sample.direct None) 0%nat
                    (Sample.logOf xa6 x07) Sample.block100) Sample.start))
     = [NewScannerPoolMessageFromRegistration
          (ScannerPoolRegistered.mk 7 137 Sample.rawLog) "0xowner" Sample.block100].
Proof.
  split.
  - destruct (@updates_carry_the_current_state Sample.helpers (Sample.env Sample.script)
                (Sample.direct None) 0%nat (Sample.logOf xa2 x01) Sample.block100
                Sample.start) as (Hscanner & _).
    apply (Hscanner (ScannerUpdated.mk 5 137 "meta" Sample.rawLog) false
             Sample.start Sample.start); reflexivity.
  - destruct (@updates_carry_the_current_state Sample.helpers (Sample.env Sample.script)
                (Sample.direct None) 0%nat (Sample.logOf xa6 x07) Sample.block100
                Sample.start) as (_ & _ & _ & Hpool).
    apply (Hpool (ScannerPoolRegistered.mk 7 137 Sample.rawLog) "0xowner"
             Sample.start Sample.start); [reflexivity | notAmong | reflexivity | reflexivity].
Defined.

Lemma at_most_one_message_per_log_witness :
  (List.length
     (deliveries
        (trace (run (Sample.env Sample.script)
                  (@handleLog Sample.helpers (Sample.direct None) Sample.block100
                     (Sample.logOf xa4 x0c)) Sample.start))) <= 1)%nat.
Proof.
  apply (@at_most_one_message_per_log Sample.helpers (Sample.env Sample.script)
           (Sample.direct None) Sample.block100 (Sample.logOf xa4 x0c) Sample.start).
  - differ.
  - differ.
Defined.

End Witnesses2.

(** ** The addresses a filter selects *)

Section FilterCount.
Import Eth.
Context `{Helpers}.
Variable E : Env.

Lemma filterAddrs_length (f : ContractFilter.t) (rc : RegistryContracts.t) :
  List.length (filterAddrs (Some f) rc) = countTrue (usableFlags f rc).
Proof.
  unfold filterAddrs, usableFlags, countTrue.
  destruct f as [a b c d e g h]. cbn [ContractFilter.AgentRegistry
    ContractFilter.ScannerRegistry ContractFilter.ScannerPoolRegistry
    ContractFilter.DispatchRegistry ContractFilter.FortaStaking
    ContractFilter.ScannerVersion ContractFilter.StakeAllocator].
  destruct (RegistryContracts.ScannerPoolRegistry rc),
    (RegistryContracts.StakeAllocator rc);
    destruct a, b, c, d, e, g, h; reflexivity.
Qed.

Lemma added_are_AddAddress (addrs : list string) :
  List.length (List.filter isAddAddress (List.map added addrs)) = List.length addrs.
Proof. induction addrs as [| a addrs IH]; cbn; [reflexivity | rewrite IH; reflexivity]. Qed.

(** X11.  Under a filter, [setLogFilterAddrs] adds one address for each flag
    that is set and whose contract the registry has.  When there is no such
    flag it panics with "empty filter" before adding anything: so does a
    filter with no flag set at all, which is not taken as "all contracts",
    and so does a filter that asks only for optional contracts the registry
    does not have. *)
Theorem filter_adds_one_address_per_usable_flag (l : Listener.t) (f : ContractFilter.t)
    (c : ContractsRef) (rc : RegistryContracts.t) (s s1 s2 : State E) :
  ListenerConfig.ContractFilter (Listener.cfg l) = Some f ->
  respond E ClientContracts s = (c, s1) ->
  respond E (ReadAddresses c) s1 = (rc, s2) ->
  let n := countTrue (usableFlags f rc) in
  let r := run E (setLogFilterAddrs l) s in
  (n = 0%nat ->
   r = (Panicked "empty filter", s2, [Ev ClientContracts c; Ev (ReadAddresses c) rc]))
  /\ ((0 < n)%nat ->
      outcome r = Ok tt /\ List.length (List.filter isAddAddress (trace r)) = n)
  /\ (f = ContractFilter.mk false false false false false false false -> n = 0%nat).
Proof.
  intros Hf Hc Hr n r. subst n r.
  destruct (@run_setLogFilterAddrs _ E l c rc s s1 s2 Hc Hr) as [Hempty Hsome].
  rewrite Hf in Hempty, Hsome. rewrite <- filterAddrs_length.
  split; [| split].
  - intros Hn. apply Hempty. apply List.length_zero_iff_nil. exact Hn.
  - intros Hn. destruct Hsome as [s3 Hrun].
    + intros Hnil. rewrite Hnil in Hn. cbn in Hn. lia.
    + rewrite Hrun. split; [reflexivity |].
      unfold trace. cbn [snd List.filter isAddAddress opOf].
      apply added_are_AddAddress.
  - intros ->. destruct (RegistryContracts.ScannerPoolRegistry rc),
      (RegistryContracts.StakeAllocator rc); reflexivity.
Qed.

End FilterCount.

Lemma filter_adds_one_address_per_usable_flag_witness :
  outcome (run (Sample.env Sample.bare)
             (@setLogFilterAddrs Sample.helpers (Sample.direct (Some Sample.noFlags)))
             Sample.start)
  = Panicked "empty filter"
  /\ List.length
       (List.filter isAddAddress
          (trace (run (Sample.env Sample.script)
                    (@setLogFilterAddrs Sample.helpers
                       (Sample.direct (Some Sample.onlyOptional))) Sample.start)))
     = 2%nat.
Proof.
  split.
  - destruct (@filter_adds_one_address_per_usable_flag Sample.helpers
                (Sample.env Sample.bare) (Sample.direct (Some Sample.noFlags))
                Sample.noFlags 0%nat Sample.contractsBare
                Sample.start Sample.start Sample.start eq_refl eq_refl eq_refl)
      as (Hnone & _ & _).
    rewrite Hnone; reflexivity.
  - destruct (@filter_adds_one_address_per_usable_flag Sample.helpers
                (Sample.env Sample.script) (Sample.direct (Some Sample.onlyOptional))
                Sample.onlyOptional 0%nat Sample.contractsFull
                Sample.start Sample.start Sample.start eq_refl eq_refl eq_refl)
      as (_ & Hsome & _).
    destruct Hsome as [_ Hcount]; [cbn; lia | exact Hcount].
Defined.

(** ** The conversions of package [domain] and the upgrade watcher *)

Section DomainFacts.
Import Eth.
Context `{Helpers} `{Codecs}.
Variable E : Env.

Lemma topicHashes_all (topics : list (option string)) :
  topicHashes topics
  = if noNilTopic topics then Return (hashesOf topics) else Panic nilDereference.
Proof.
  induction topics as [| [t |] rest IH]; cbn [topicHashes noNilTopic List.forallb bind].
  - reflexivity.
  - fold (noNilTopic rest). rewrite IH. cbn [andb].
    destruct (noNilTopic rest); reflexivity.
  - reflexivity.
Qed.

Lemma hashesOf_length (topics : list (option string)) :
  noNilTopic topics = true -> List.length (hashesOf topics) = List.length topics.
Proof.
  unfold hashesOf, noNilTopic.
  induction topics as [| [t |] rest IH]; cbn; intros Hall;
    [reflexivity | f_equal; apply IH; exact Hall | discriminate Hall].
Qed.

(** X12.  [ToTypesLog] converts a log entry exactly when each number that is
    there decodes and no topic is nil; otherwise it panics on the nil value.
    Each of the nine fields of the converted log comes from the field of
    the entry with the same meaning: the address, the two hashes, the data
    and the removal flag are converted as they are, the block number and
    the two indexes are the decoded numbers cut to 64 bits, the topics are
    those of the entry, as many and in their order; a field that is nil in
    the entry has the zero value of its type. *)
Theorem ToTypesLog_converts_or_panics (le : LogEntry.t) :
  (convertible le = false -> ToTypesLog le = Panic nilDereference)
  /\ (convertible le = true ->
      exists log : Log.t,
        ToTypesLog le = Return log
        /\ Log.Address log
           = match LogEntry.Address le with
             | Some a => HexToAddress a
             | None => zeroAddress
             end
        /\ hashed (LogEntry.BlockHash le) (Log.BlockHash log)
        /\ numbered (LogEntry.BlockNumber le) (Log.BlockNumber log)
        /\ Log.Data log
           = match LogEntry.Data le with
             | Some d => list_byte_of_string d
             | None => []
             end
        /\ numbered (LogEntry.LogIndex le) (Log.Index log)
        /\ Log.Removed log
           = match LogEntry.Removed le with
             | Some r => r
             | None => false
             end
        /\ Log.Topics log = hashesOf (LogEntry.Topics le)
        /\ List.length (Log.Topics log) = List.length (LogEntry.Topics le)
        /\ hashed (LogEntry.TransactionHash le) (Log.TxHash log)
        /\ numbered (LogEntry.TransactionIndex le) (Log.TxIndex log)).
Proof.
  destruct le as [address blockHash blockNumber data logIndex removed topics txHash txIndex].
  unfold convertible, ToTypesLog, decodes, decodedUint64, numbered, hashed.
  cbn [LogEntry.Address
    LogEntry.BlockHash LogEntry.BlockNumber LogEntry.Data LogEntry.LogIndex
    LogEntry.Removed LogEntry.Topics LogEntry.TransactionHash LogEntry.TransactionIndex].
  rewrite topicHashes_all.
  pose proof (hashesOf_length topics) as Hlen.
  destruct blockNumber as [bn |]; [destruct (DecodeBig bn) as [e1 | z1] eqn:Hbn |];
    destruct logIndex as [li |]; try (destruct (DecodeBig li) as [e2 | z2] eqn:Hli);
    destruct (noNilTopic topics);
    destruct txIndex as [ti |]; try (destruct (DecodeBig ti) as [e3 | z3] eqn:Hti);
    cbn [andb bind]; (split; [intros Hc; try discriminate Hc; reflexivity |]);
    intros Hc; try discriminate Hc;
    (eexists; split; [reflexivity |]);
    cbn [Log.Topics Log.Address Log.BlockNumber Log.Data Log.Removed Log.BlockHash
           Log.TxHash Log.Index Log.TxIndex];
    repeat match goal with
      | |- _ /\ _ => split
      | |- exists z, inr ?x = inr z /\ _ => exists x; split; reflexivity
      | |- List.length _ = List.length _ => apply Hlen; reflexivity
      | |- _ => reflexivity
      end.
Qed.

Lemma ToTypesLog_pure (le : LogEntry.t) :
  (exists log, ToTypesLog le = Return log) \/ ToTypesLog le = Panic nilDereference.
Proof.
  unfold ToTypesLog, decodedUint64. rewrite topicHashes_all.
  destruct (LogEntry.BlockNumber le) as [bn |]; [destruct (DecodeBig bn) |];
    cbn [bind]; try (right; reflexivity);
    (destruct (LogEntry.LogIndex le) as [li |]; [destruct (DecodeBig li) |];
     cbn [bind]; try (right; reflexivity));
    (destruct (noNilTopic (LogEntry.Topics le)); cbn [bind]; try (right; reflexivity));
    (destruct (LogEntry.TransactionIndex le) as [ti |]; [destruct (DecodeBig ti) |];
     cbn [bind]; try (right; reflexivity));
    left; eexists; reflexivity.
Qed.

Lemma scan_skips (addrs : list string) (pre rest : list LogEntry.t) :
  Forall (skipped addrs) pre ->
  scanForUpgrade addrs (pre ++ rest) = scanForUpgrade addrs rest.
Proof.
  induction 1 as [| le pre (log & Hlog & Hup) _ IH]; [reflexivity |].
  cbn [List.app scanForUpgrade]. rewrite Hlog. cbn [bind].
  unfold upgradeOf in Hup.
  destruct (isAddrIn addrs (Log.Address log)); cbn [negb andb] in *; [| exact IH].
  rewrite Hup. cbn [negb]. exact IH.
Qed.

Lemma scan_refreshes_at_most_once (addrs : list string) (logs : list LogEntry.t)
    (s : State E) :
  (List.length (List.filter isRefresh (trace (run E (scanForUpgrade addrs logs) s))) <= 1)%nat.
Proof.
  induction logs as [| le logs IH]; cbn [scanForUpgrade]; [cbn; lia |].
  destruct (ToTypesLog_pure le) as [[log ->] | ->]; cbn [bind]; [| cbn; lia].
  destruct (negb (isAddrIn addrs (Log.Address log))); [exact IH |].
  destruct (negb (String.eqb (getTopic log) UpgradedTopic)); [exact IH |].
  rewrite run_call. destruct (fst (respond E ClientRefreshContracts s)); cbn; lia.
Qed.

(** X13.  On a block event the upgrade watcher refreshes the contracts at
    most once.  It does so at the first log of a known contract that has the
    upgraded topic, the logs before it being converted and skipped, and
    returns what the refresh returns; the logs after that one are not looked
    at.  When every log is skipped it returns without a refresh. *)
Theorem watcher_refreshes_once_at_first_upgrade (logs : list LogEntry.t)
    (c : ContractsRef) (rc : RegistryContracts.t) (s s1 s2 : State E) :
  respond E ClientContracts s = (c, s1) ->
  respond E (ReadAddresses c) s1 = (rc, s2) ->
  let addrs := getAllContractAddrs rc in
  let r := run E (ListenToUpgrades logs) s in
  (List.length (List.filter isRefresh (trace r)) <= 1)%nat
  /\ (forall (pre post : list LogEntry.t) (x : LogEntry.t) (xl : Log.t),
         logs = pre ++ x :: post ->
         Forall (skipped addrs) pre ->
         ToTypesLog x = Return xl -> upgradeOf addrs xl = true ->
         r = (let (e, s3) := respond E ClientRefreshContracts s2 in
              (match e with Some err => Err err | None => Ok tt end, s3,
               [Ev ClientContracts c; Ev (ReadAddresses c) rc;
                Ev ClientRefreshContracts e])))
  /\ (Forall (skipped addrs) logs ->
      r = (Ok tt, s2, [Ev ClientContracts c; Ev (ReadAddresses c) rc])).
Proof.
  intros Hc Hr addrs r. subst r. unfold ListenToUpgrades. cbn [bind].
  rewrite run_call, Hc. cbn [fst snd]. rewrite run_call, Hr. cbn [fst snd].
  fold addrs. split; [| split].
  - pose proof (scan_refreshes_at_most_once addrs logs s2) as Hone.
    destruct (run E (scanForUpgrade addrs logs) s2) as [[o s3] t].
    unfold trace in *. cbn [snd] in *. exact Hone.
  - intros pre post x xl -> Hpre Hx Hup.
    rewrite (@scan_skips addrs pre (x :: post) Hpre). cbn [scanForUpgrade].
    rewrite Hx. cbn [bind]. unfold upgradeOf in Hup.
    apply Bool.andb_true_iff in Hup. destruct Hup as [Hin Htopic].
    rewrite Hin, Htopic. cbn [negb]. rewrite run_call.
    destruct (respond E ClientRefreshContracts s2) as [[err |] s3]; reflexivity.
  - intros Hall. rewrite <- (List.app_nil_r logs), (@scan_skips addrs logs [] Hall).
    reflexivity.
Qed.

(** X14.  [GetTimestamp] returns the error of the decoding of the
    timestamp.  For a timestamp of [ts] seconds it gives the time [ts]
    seconds after the epoch as long as [ts] is at most 9,223,372,036 (the year
    2262); from there up to 18,446,744,073 the multiplication wraps around
    and the time it gives is before the epoch. *)
Theorem GetTimestamp_in_nanoseconds (b : Block.t) :
  (forall err, HexToBigInt (Block.Timestamp b) = inl err -> GetTimestamp b = inl err)
  /\ (forall ts, HexToBigInt (Block.Timestamp b) = inr ts ->
      0 <= ts <= 9223372036 -> GetTimestamp b = inr (ts * 1000000000))
  /\ (forall ts, HexToBigInt (Block.Timestamp b) = inr ts ->
      9223372036 < ts <= 18446744073 ->
      exists t, GetTimestamp b = inr t /\ t = ts * 1000000000 - 2 ^ 64 /\ t < 0).
Proof.
  unfold GetTimestamp. split; [| split].
  - intros err ->. reflexivity.
  - intros ts -> Hts. f_equal.
    unfold Uint.mul64, Uint.Uint64, Uint.Millisecond, Int.two64.
    rewrite Z.abs_eq, Z.mod_small by lia.
    rewrite (@IntFacts.Int64_fits (ts * 1000))
      by (unfold Int.fits64, Int.min_int64, Int.max_int64, Int.two63; lia).
    rewrite IntFacts.Int64_fits
      by (unfold Int.fits64, Int.min_int64, Int.max_int64, Int.two63; lia).
    lia.
  - intros ts -> Hts. eexists. split; [reflexivity |].
    unfold Uint.mul64, Uint.Uint64, Uint.Millisecond, Int.two64.
    rewrite Z.abs_eq, Z.mod_small by lia.
    rewrite (@IntFacts.Int64_fits (ts * 1000))
      by (unfold Int.fits64, Int.min_int64, Int.max_int64, Int.two63; lia).
    unfold Int.Int64, Int.two63, Int.two64.
    assert (Hmod : (ts * 1000 * 1000000 + 2 ^ 63) mod 2 ^ 64
                   = ts * 1000 * 1000000 + 2 ^ 63 - 2 ^ 64).
    { symmetry. apply (Z.mod_unique _ _ 1); lia. }
    rewrite Hmod. lia.
Qed.

End DomainFacts.

Module Witnesses3.
Import Eth.

(** An entry whose block number does not decode, and one with a nil topic. *)
Definition badNumber : LogEntry.t :=
  LogEntry.mk (Some Sample2.stakingAddress) None (Some "zz") None None None
    [Some UpgradedTopic] None None.

Definition nilTopic : LogEntry.t :=
  LogEntry.mk (Some Sample2.stakingAddress) None None None None None [None] None None.

Lemma ToTypesLog_converts_or_panics_witness :
  @ToTypesLog Sample2.codecs Sample2.fullEntry
  = Return (Log.mk (Sample.addr xa4) [Sample.upgradedHash; List.repeat x12 32]
              [x61; x62] 100 Sample.upgradedHash 0 (List.repeat x12 32) 1 true)
  /\ @ToTypesLog Sample2.codecs badNumber = Panic nilDereference
  /\ @ToTypesLog Sample2.codecs nilTopic = Panic nilDereference.
Proof.
  split; [| split].
  - destruct (@ToTypesLog_converts_or_panics Sample2.codecs Sample2.fullEntry) as [_ Hgood].
    destruct (Hgood eq_refl)
      as (log & Hlog & Haddress & HblockHash & (z1 & Hz1 & HblockNumber) & Hdata
          & (z2 & Hz2 & Hindex) & Hremoved & Htopics & _ & HtxHash
          & (z3 & Hz3 & HtxIndex)).
    rewrite Hlog. destruct log as [a ts d bn th ti bh i r].
    cbn [Log.Topics Log.Address Log.BlockNumber Log.Data Log.Removed Log.BlockHash
           Log.TxHash Log.Index Log.TxIndex] in *.
    injection Hz1 as <-. injection Hz2 as <-. injection Hz3 as <-.
    unfold hashed in HblockHash, HtxHash.
    rewrite Haddress, HblockHash, HblockNumber, Hdata, Hindex, Hremoved, Htopics,
      HtxHash, HtxIndex.
    reflexivity.
  - destruct (@ToTypesLog_converts_or_panics Sample2.codecs badNumber) as [Hbad _].
    apply Hbad. reflexivity.
  - destruct (@ToTypesLog_converts_or_panics Sample2.codecs nilTopic) as [Hbad _].
    apply Hbad. reflexivity.
Defined.

Lemma watcher_refreshes_once_at_first_upgrade_witness :
  run (Sample.env Sample.script)
    (@ListenToUpgrades Sample.helpers Sample2.codecs
       [Sample2.entry Sample2.dispatchAddress "0x12";
        Sample2.entry Sample2.stakingAddress UpgradedTopic;
        nilTopic]) Sample.start
  = (Ok tt, (0%nat, 1%nat),
     [Ev ClientContracts 0%nat; Ev (ReadAddresses 0%nat) Sample.contractsFull;
      Ev ClientRefreshContracts None]).
Proof.
  destruct (@watcher_refreshes_once_at_first_upgrade Sample.helpers Sample2.codecs
              (Sample.env Sample.script)
              [Sample2.entry Sample2.dispatchAddress "0x12";
               Sample2.entry Sample2.stakingAddress UpgradedTopic;
               nilTopic]
              0%nat Sample.contractsFull Sample.start Sample.start Sample.start
              eq_refl eq_refl) as (_ & Hfirst & _).
  rewrite (Hfirst [Sample2.entry Sample2.dispatchAddress "0x12"] [nilTopic]
             (Sample2.entry Sample2.stakingAddress UpgradedTopic)
             (Log.mk (Sample.addr xa4) [Sample.upgradedHash] [] 100
                (List.repeat x00 32) 0 (List.repeat x00 32) 1 false)).
  - reflexivity.
  - reflexivity.
  - constructor; [| constructor].
    exists (Log.mk (Sample.addr xa3) [List.repeat x12 32] [] 100
              (List.repeat x00 32) 0 (List.repeat x00 32) 1 false).
    split; reflexivity.
  - reflexivity.
  - reflexivity.
Defined.

Lemma GetTimestamp_in_nanoseconds_witness :
  @GetTimestamp Sample2.codecs Sample.block100 = inr 100000000000000000.
Proof.
  destruct (@GetTimestamp_in_nanoseconds Sample2.codecs Sample.block100)
    as (_ & Hgood & _).
  rewrite (Hgood 100000000 eq_refl); [reflexivity | lia].
Defined.

End Witnesses3.

(** ** Share transfers *)

Section Shares.
Import Eth Events Message.
Context `{Helpers}.
Variable E : Env.

Implicit Types (l : Listener.t) (contracts : ContractsRef) (le : Log.t) (blk : Block.t).

(** X15.  On [TransferSingle] the staking handler decodes the event and has
    it converted into a share-transfer message: when the conversion fails it
    returns that error and hands nothing over, otherwise it hands over that
    one message.  On [TransferBatch] a failed conversion likewise returns
    its error with nothing handed over.  Neither goes through the subject
    types: no warning is logged. *)
Theorem share_transfers_need_a_conversion l contracts le blk (s : State E) :
  forta_staking_TransferSingleTopic <> forta_staking_StakeDepositedTopic ->
  forta_staking_TransferSingleTopic <> forta_staking_WithdrawalInitiatedTopic ->
  forta_staking_TransferSingleTopic <> forta_staking_SlashedTopic ->
  forta_staking_TransferBatchTopic <> forta_staking_StakeDepositedTopic ->
  forta_staking_TransferBatchTopic <> forta_staking_WithdrawalInitiatedTopic ->
  forta_staking_TransferBatchTopic <> forta_staking_SlashedTopic ->
  forta_staking_TransferBatchTopic <> forta_staking_TransferSingleTopic ->
  let r := run E (handleFortaStakingEvent l contracts le blk) s in
  (forall (evt : TransferSingle.t) (s1 : State E),
      getTopic le = forta_staking_TransferSingleTopic ->
      respond E (Parse contracts FortaStakingFil ParseTransferSingle le) s = (inr evt, s1) ->
      match TransferSharesMessageFromSingle le evt blk with
      | inl err =>
          r = (Err err, s1,
               [Ev (Parse contracts FortaStakingFil ParseTransferSingle le) (inr evt)])
      | inr m =>
          deliveries (trace r) = [m]
          /\ List.length (trace r) = 2%nat
      end)
  /\ (forall (evt : TransferBatch.t) (err : error) (s1 : State E),
         getTopic le = forta_staking_TransferBatchTopic ->
         respond E (Parse contracts FortaStakingFil ParseTransferBatch le) s
         = (inr evt, s1) ->
         TransferSharesMessagesFromBatch le evt blk = inl err ->
         r = (Err err, s1,
              [Ev (Parse contracts FortaStakingFil ParseTransferBatch le) (inr evt)])).
Proof.
  intros Hs1 Hs2 Hs3 Hb1 Hb2 Hb3 Hb4 r. subst r. split.
  - intros evt s1 Ht Hparse. unfold handleFortaStakingEvent. cbv zeta.
    rewrite Ht, (eqb_other Hs1), (eqb_other Hs2), (eqb_other Hs3), String.eqb_refl.
    unfold parse. cbn [bind]. rewrite run_call, Hparse. cbn [fst snd orFail bind].
    destruct (TransferSharesMessageFromSingle le evt blk) as [err | m];
      cbn [orFail bind]; [reflexivity |].
    destruct (run_handler E l m s1) as (r0 & s2 & ev & Hrun & Hev).
    rewrite Hrun. unfold deliveries, trace. cbn [snd sinkCalls sinkCall opOf].
    rewrite Hev. split; reflexivity.
  - intros evt err s1 Ht Hparse Hconv. unfold handleFortaStakingEvent. cbv zeta.
    rewrite Ht, (eqb_other Hb1), (eqb_other Hb2), (eqb_other Hb3), (eqb_other Hb4),
      String.eqb_refl.
    unfold parse. cbn [bind]. rewrite run_call, Hparse. cbn [fst snd orFail bind].
    rewrite Hconv. reflexivity.
Qed.

End Shares.

Lemma share_transfers_need_a_conversion_witness :
  deliveries
    (trace (run (Sample.env Sample.script)
              (@handleFortaStakingEvent Sample.helpers (Sample.direct None) 0%nat
                 (Sample.logOf xa4 x0f) Sample.block100) Sample.start))
  = [Message.TransferSharesMessage
       (Message.Shares.mk (Sample.logOf xa4 x0f) Sample.block100 (Sample.addr x11)
          (Sample.addr x22) 7 10)].
Proof.
  destruct (@share_transfers_need_a_conversion Sample.helpers (Sample.env Sample.script)
              (Sample.direct None) 0%nat (Sample.logOf xa4 x0f) Sample.block100
              Sample.start) as [Hsingle _];
    [Witnesses2.differ | Witnesses2.differ | Witnesses2.differ | Witnesses2.differ
    | Witnesses2.differ | Witnesses2.differ | Witnesses2.differ |].
  destruct (Hsingle
              (Events.TransferSingle.mk (Sample.addr x11) (Sample.addr x11)
                 (Sample.addr x22) 7 10 Sample.rawLog) Sample.start eq_refl eq_refl)
    as [Hd _].
  exact Hd.
Defined.
